(** * chat-backend: the Socket.IO hub, embedded and checked against its specification

    Shallow embedding of
      - app/database/redis_client.py  (class RedisClient)
      - app/middleware/auth.py
      - app/services/message.py, notification.py, presence.py
      - app/sockets/events.py
      - app/routes/rooms.py  (the routes built from select, insert, update, eq)
    Python dicts are finite maps ([gmap string _]); the module-level
    [connected_user] dict is an insertion-ordered association list because the
    handlers iterate over it; handlers live in a state-and-exception monad over
    an explicit [world].

    Handlers are taken one at a time; the limiter check, whose read and write
    are two commands with an [await] in between, is also given in its two
    halves.  No key expires during a run: a time to live is recorded when it
    is set, never counted down; a command that is handed a time to live of
    zero or less behaves as the server does (SETEX refuses, EXPIRE deletes).
    The requirements pin no version of python-socketio; it is taken at 5.10
    or later, where [enter_room] and [leave_room] of the [AsyncServer] are
    coroutine functions.  The lazy [if self.redis is None: await
    self.connect()] preamble of the client's methods and the [print] calls
    are left out. *)

From stdpp Require Import gmap strings list fin_maps.
From Stdlib Require Import ZArith Lia.

(** ** Python values *)

(** JSON scalars as they occur in payloads and table rows. *)
Inductive pyval :=
  | VNone
  | VBool (b : bool)
  | VInt (z : Z)
  | VStr (s : string).

#[global] Instance pyval_eq_dec : EqDecision pyval.
Proof. solve_decision. Defined.

(** A [dict] with string keys. *)
Abbreviation pydict := (gmap string pyval).

(** [d.get(k)] and [d.get(k, dflt)]: the default is used only when the key is
    missing, not when it is present with value [None]. *)
Definition dict_get (d : pydict) (k : string) : pyval := default VNone (d !! k).
Definition dict_get_default (d : pydict) (k : string) (dflt : pyval) : pyval :=
  default dflt (d !! k).

(** [Optional[str]] as a cell of a row or payload. *)
Definition of_opt_str (o : option string) : pyval :=
  match o with Some s => VStr s | None => VNone end.

(** Python truthiness of an [Optional[str]]: [None] and [''] are falsy. *)
Definition truthy (o : option string) : bool :=
  match o with
  | None => false
  | Some s => negb (bool_decide (s = ""))
  end.

(** Exceptions that the modelled code can raise. *)
Inductive exn :=
  | TypeError (msg : string)
  | AttributeError (msg : string)
  | KeyError (msg : string)
  | APIError (msg : string)
  | JWTError (msg : string)
  | ResponseError (msg : string).

(** [str(e)] *)
Definition str_exn (e : exn) : string :=
  match e with
  | TypeError m | AttributeError m | KeyError m | APIError m | JWTError m
  | ResponseError m => m
  end.

Inductive result (A : Type) :=
  | Ok (a : A)
  | Raise (e : exn).
Arguments Ok {A} a.
Arguments Raise {A} e.

(** ** Configuration (app/config.py) *)

Record Settings := {
  MAX_MESSAGES_PER_MINUTE : Z;
  MESSAGE_QUEUE_RETENTION : Z;
  TYPING_TIMEOUT : Z
}.

Definition default_settings : Settings :=
  {| MAX_MESSAGES_PER_MINUTE := 30;
     MESSAGE_QUEUE_RETENTION := 86400;
     TYPING_TIMEOUT := 10 |}.

(** ** The ephemeral store (Redis)

    Keys are the full key strings the code builds ([f"queue:{user_id}"] ...).
    Every entry carries its remaining time to live ([None]: no expiry).  The
    four value kinds the client uses are kept in four typed keyspaces:
    plain strings ([session:*], [presence:*]), integer counters
    ([ratelimit:*]), lists ([queue:*]) and sets ([typing:*],
    [room_members:*]).  A queue element is the envelope itself:
    [json.loads(json.dumps(m))] is [m] for a dict of JSON scalars. *)

Record redis_store := Redis {
  r_strings : gmap string (string * option Z);
  r_counters : gmap string (Z * option Z);
  r_lists : gmap string (list pydict * option Z);
  r_sets : gmap string (gset string * option Z)
}.

Definition redis_empty : redis_store := Redis ∅ ∅ ∅ ∅.

Definition set_strings (f : gmap string (string * option Z) → gmap string (string * option Z))
    (r : redis_store) : redis_store :=
  Redis (f (r_strings r)) (r_counters r) (r_lists r) (r_sets r).
Definition set_counters (f : gmap string (Z * option Z) → gmap string (Z * option Z))
    (r : redis_store) : redis_store :=
  Redis (r_strings r) (f (r_counters r)) (r_lists r) (r_sets r).
Definition set_lists (f : gmap string (list pydict * option Z) → gmap string (list pydict * option Z))
    (r : redis_store) : redis_store :=
  Redis (r_strings r) (r_counters r) (f (r_lists r)) (r_sets r).
Definition set_sets (f : gmap string (gset string * option Z) → gmap string (gset string * option Z))
    (r : redis_store) : redis_store :=
  Redis (r_strings r) (r_counters r) (r_lists r) (f (r_sets r)).

Module redis.

(** The reply to a SETEX whose time to live is not positive. *)
Definition invalid_expire : exn := ResponseError "invalid expire time in 'setex' command".

(** SETEX key ttl value: refused, with nothing written, unless [ttl] is
    positive. *)
Definition setex (key : string) (ttl : Z) (v : string) (r : redis_store)
    : result redis_store :=
  if bool_decide (0 < ttl)%Z then Ok (set_strings <[key := (v, Some ttl)]> r)
  else Raise invalid_expire.

(** GET key *)
Definition get (key : string) (r : redis_store) : option string :=
  fst <$> r_strings r !! key.

(** SETEX / GET / INCR on an integer-valued key *)
Definition setex_int (key : string) (ttl : Z) (v : Z) (r : redis_store)
    : result redis_store :=
  if bool_decide (0 < ttl)%Z then Ok (set_counters <[key := (v, Some ttl)]> r)
  else Raise invalid_expire.
Definition get_int (key : string) (r : redis_store) : option Z :=
  fst <$> r_counters r !! key.
(** INCR keeps the time to live of an existing key; a missing key starts
    from 0 with no expiry. *)
Definition incr (key : string) (r : redis_store) : redis_store :=
  match r_counters r !! key with
  | Some (v, ttl) => set_counters <[key := ((v + 1)%Z, ttl)]> r
  | None => set_counters <[key := (1%Z, None)]> r
  end.

(** DEL key *)
Definition delete (key : string) (r : redis_store) : redis_store :=
  Redis (base.delete key (r_strings r)) (base.delete key (r_counters r))
        (base.delete key (r_lists r)) (base.delete key (r_sets r)).

(** EXISTS key *)
Definition exists_ (key : string) (r : redis_store) : bool :=
  bool_decide (is_Some (r_strings r !! key)) || bool_decide (is_Some (r_counters r !! key))
  || bool_decide (is_Some (r_lists r !! key)) || bool_decide (is_Some (r_sets r !! key)).

(** EXPIRE key ttl: no effect on a missing key; a time to live of zero or
    less deletes the key. *)
Definition expire (key : string) (ttl : Z) (r : redis_store) : redis_store :=
  if bool_decide (0 < ttl)%Z
  then Redis (alter (λ e, (e.1, Some ttl)) key (r_strings r))
             (alter (λ e, (e.1, Some ttl)) key (r_counters r))
             (alter (λ e, (e.1, Some ttl)) key (r_lists r))
             (alter (λ e, (e.1, Some ttl)) key (r_sets r))
  else delete key r.

(** LPUSH key value: the new element becomes the head of the list. *)
Definition lpush (key : string) (v : pydict) (r : redis_store) : redis_store :=
  match r_lists r !! key with
  | Some (l, ttl) => set_lists <[key := (v :: l, ttl)]> r
  | None => set_lists <[key := ([v], None)]> r
  end.

(** LRANGE key 0 -1: the whole list, head first. *)
Definition lrange_all (key : string) (r : redis_store) : list pydict :=
  match r_lists r !! key with
  | Some (l, _) => l
  | None => []
  end.

(** SADD key m1 ... mn *)
Definition sadd (key : string) (members : list string) (r : redis_store) : redis_store :=
  match r_sets r !! key with
  | Some (s, ttl) => set_sets <[key := (list_to_set members ∪ s, ttl)]> r
  | None => set_sets <[key := (list_to_set members, None)]> r
  end.

(** SREM key m: a set that becomes empty is removed. *)
Definition srem (key : string) (m : string) (r : redis_store) : redis_store :=
  match r_sets r !! key with
  | Some (s, ttl) =>
      if decide (s ∖ {[m]} = ∅) then set_sets (base.delete key) r
      else set_sets <[key := (s ∖ {[m]}, ttl)]> r
  | None => r
  end.

(** SMEMBERS key *)
Definition smembers (key : string) (r : redis_store) : gset string :=
  match r_sets r !! key with
  | Some (s, _) => s
  | None => ∅
  end.

End redis.

(** ** RedisClient (app/database/redis_client.py) *)

Module RedisClient.

(** [json.dump(data)]: the serializer that writes to a file object, called
    without its file argument. *)
Definition json_dump {A : Type} (data : A) : result string :=
  Raise (TypeError "dump() missing 1 required positional argument: 'fp'").

Definition set_user_session {A : Type} (user_id socket_id : string) (data : A) (ttl : Z)
    (r : redis_store) : result unit * redis_store :=
  let key := "session:" +:+ user_id +:+ ":" +:+ socket_id in
  match json_dump data with
  | Ok s =>
      match redis.setex key ttl s r with
      | Ok r' => (Ok (), r')
      | Raise e => (Raise e, r)
      end
  | Raise e => (Raise e, r)
  end.

Definition delete_user_session (user_id socket_id : string) (r : redis_store) : redis_store :=
  let key := "session:" +:+ user_id +:+ ":" +:+ socket_id in
  redis.delete key r.

(** The time to live is the literal 300, which SETEX accepts: the command
    always writes. *)
Definition set_user_online (user_id status : string) (r : redis_store) : redis_store :=
  match redis.setex ("presence:" +:+ user_id) 300 status r with
  | Ok r' => r'
  | Raise _ => r
  end.

Definition set_user_offline (user_id : string) (r : redis_store) : redis_store :=
  redis.delete ("presence:" +:+ user_id) r.

Definition is_user_online (user_id : string) (r : redis_store) : bool :=
  redis.exists_ ("presence:" +:+ user_id) r.

Definition queue_message (retention : Z) (user_id : string) (message_data : pydict)
    (r : redis_store) : redis_store :=
  let key := "queue:" +:+ user_id in
  redis.expire key retention (redis.lpush key message_data r).

Definition get_queued_messages (user_id : string) (r : redis_store)
    : list pydict * redis_store :=
  let key := "queue:" +:+ user_id in
  let messages := redis.lrange_all key r in
  (messages, redis.delete key r).

(** Lines 140-148 of [check_rate_limit]: what the check does with the value
    [current] it has read, on the store as it is by then. *)
Definition rate_limit_decide (user_id : string) (limit window : Z) (current : option Z)
    (r : redis_store) : result bool * redis_store :=
  let key := "ratelimit:" +:+ user_id in
  match current with
  | None =>
      match redis.setex_int key window 1 r with
      | Ok r' => (Ok true, r')
      | Raise e => (Raise e, r)
      end
  | Some current =>
      if (current >=? limit)%Z then (Ok false, r)
      else (Ok true, redis.incr key r)
  end.

(** The check run without another command in between: read, then decide. *)
Definition check_rate_limit (user_id : string) (limit window : Z) (r : redis_store)
    : result bool * redis_store :=
  rate_limit_decide user_id limit window (redis.get_int ("ratelimit:" +:+ user_id) r) r.

Definition set_typing (room_id user_id : string) (ttl : Z) (r : redis_store) : redis_store :=
  let key := "typing:" +:+ room_id in
  redis.expire key ttl (redis.sadd key [user_id] r).

Definition remove_typing (room_id user_id : string) (r : redis_store) : redis_store :=
  redis.srem ("typing:" +:+ room_id) user_id r.

Definition cache_room_members (room_id : string) (member_ids : list string) (ttl : Z)
    (r : redis_store) : redis_store :=
  let key := "room_members:" +:+ room_id in
  let r := redis.delete key r in
  match member_ids with
  | [] => r
  | _ :: _ => redis.expire key ttl (redis.sadd key member_ids r)
  end.

Definition get_cached_room_members (room_id : string) (r : redis_store)
    : option (list string) :=
  let key := "room_members:" +:+ room_id in
  if redis.exists_ key r then Some (elements (redis.smembers key r)) else None.

Definition get_user_status (user_id : string) (r : redis_store) : string :=
  match redis.get ("presence:" +:+ user_id) r with
  | Some status => if bool_decide (status = "") then "offline" else status
  | None => "offline"
  end.

Definition get_typing_users (room_id : string) (r : redis_store) : list string :=
  elements (redis.smembers ("typing:" +:+ room_id) r).

End RedisClient.

(** [n] consecutive limiter checks of one user inside one window (no key
    expires in between): the number of calls that were let through. *)
Fixpoint admitted (n : nat) (user_id : string) (limit window : Z) (r : redis_store) : nat :=
  match n with
  | O => O
  | S n' =>
      let '(ok, r') := RedisClient.check_rate_limit user_id limit window r in
      match ok with Ok true => 1 | _ => 0 end + admitted n' user_id limit window r'
  end.

(** Two checks of one user in flight at the same time: both read the counter
    before either writes ([GET], [GET], then the two writes in turn). *)
Definition overlapped (user_id : string) (limit window : Z) (r : redis_store)
    : result bool * result bool * redis_store :=
  let current := redis.get_int ("ratelimit:" +:+ user_id) r in
  let '(first, r1) := RedisClient.rate_limit_decide user_id limit window current r in
  let '(second, r2) := RedisClient.rate_limit_decide user_id limit window current r1 in
  (first, second, r2).

(** ** The durable store (Supabase, through the PostgREST query builder) *)

Abbreviation row := pydict.

Inductive filter_clause :=
  | Feq (col : string) (v : pyval)
  | Fneq (col : string) (v : pyval).

Inductive verb :=
  | Select (cols : list string)
  | Insert (r : row)
  | Update (r : row).

(** A request under construction: nothing reaches the store before
    [.execute()]. *)
Record builder := Builder {
  b_table : string;
  b_verb : verb;
  b_filters : list filter_clause
}.

(** The tables, the column defaults the schema fills in on insert (generated
    id, timestamps, flags; the schema is not part of the sources, so it is a
    field), the requests received so far, oldest first, and the columns the
    deployment declares beyond [pg.known_columns]. *)
Record db_state := Database {
  tables : gmap string (list row);
  column_defaults : string → nat → row;
  requests : list builder;
  columns : string → list string
}.

Notation "x .> f" := (f x) (at level 45, left associativity, only parsing).

Module pg.

Definition table (name : string) : string := name.
Definition select (cols : list string) (t : string) : builder := Builder t (Select cols) [].
Definition insert (r : row) (t : string) : builder := Builder t (Insert r) [].
Definition update (r : row) (t : string) : builder := Builder t (Update r) [].
Definition eq (col : string) (v : pyval) (b : builder) : builder :=
  Builder (b_table b) (b_verb b) (b_filters b ++ [Feq col v]).
Definition neq (col : string) (v : pyval) (b : builder) : builder :=
  Builder (b_table b) (b_verb b) (b_filters b ++ [Fneq col v]).

(** SQL comparison: a null cell satisfies neither [=] nor [<>]. *)
Definition matches (r : row) (f : filter_clause) : bool :=
  match f with
  | Feq col v =>
      match r !! col with
      | Some x => bool_decide (x = v) && negb (bool_decide (x = VNone))
      | None => false
      end
  | Fneq col v =>
      match r !! col with
      | Some x => negb (bool_decide (x = v)) && negb (bool_decide (x = VNone))
      | None => false
      end
  end.

Definition selected (fs : list filter_clause) (r : row) : bool :=
  forallb (matches r) fs.

Definition project (cols : list string) (r : row) : row :=
  if bool_decide ("*" ∈ cols) then r
  else filter (λ kv : string * pyval, kv.1 ∈ cols) r.

(** The columns the requests of the sources rely on, relation by relation:
    what message.py, notification.py, presence.py, events.py and rooms.py
    select, filter on and write, the sender lookup of [create_message] on
    [profile] apart.  Every deployment is taken to have them. *)
Definition known_columns (t : string) : list string :=
  if bool_decide (t = "messages")
  then ["id"; "room_id"; "sender_id"; "content"; "message_type"; "reply_to";
        "is_edited"; "is_deleted"; "created_at"; "updated_at"]
  else if bool_decide (t = "room_members") then ["room_id"; "user_id"; "role"]
  else if bool_decide (t = "profiles")
  then ["id"; "username"; "display_name"; "avatar_url"; "bio"; "status"; "last_seen"]
  else if bool_decide (t = "notifications")
  then ["id"; "user_id"; "title"; "body"; "notification_type"; "reference_id"; "is_read"]
  else if bool_decide (t = "rooms") then ["id"; "name"; "description"]
  else [].

Definition has_column (d : db_state) (t c : string) : bool :=
  bool_decide (c ∈ known_columns t) || bool_decide (c ∈ columns d t).

(** A select list is accepted when each of its items is [*] or a column of
    the relation. *)
Definition selectable (d : db_state) (t : string) (cols : list string) : bool :=
  forallb (λ c, bool_decide (c = "*") || has_column d t c) cols.

(** [.execute()]: the request is logged; a request on a relation that does
    not exist, or a select of a column the relation does not have, raises
    [APIError]. *)
Definition execute (b : builder) (d : db_state) : result (list row) * db_state :=
  let log := requests d ++ [b] in
  match tables d !! b_table b with
  | None =>
      (Raise (APIError "relation does not exist"),
       Database (tables d) (column_defaults d) log (columns d))
  | Some rows =>
      match b_verb b with
      | Select cols =>
          if selectable d (b_table b) cols
          then (Ok (project cols <$> List.filter (selected (b_filters b)) rows),
                Database (tables d) (column_defaults d) log (columns d))
          else (Raise (APIError "column does not exist"),
                Database (tables d) (column_defaults d) log (columns d))
      | Insert r =>
          let r' := r ∪ column_defaults d (b_table b) (length rows) in
          (Ok [r'],
           Database (<[b_table b := rows ++ [r']]> (tables d)) (column_defaults d) log
                    (columns d))
      | Update u =>
          let upd := λ r : row, if selected (b_filters b) r then u ∪ r else r in
          (Ok ((λ r, u ∪ r) <$> List.filter (selected (b_filters b)) rows),
           Database (<[b_table b := upd <$> rows]> (tables d)) (column_defaults d) log
                    (columns d))
      end
  end.

(** [result.data] read off a builder that was never executed. *)
Definition data_of_builder (b : builder) : result (list row) :=
  Raise (AttributeError "'SyncQueryRequestBuilder' object has no attribute 'data'").

End pg.

(** ** The world the handlers run in *)

(** One [sio.emit(event, data, room=..., skip_sid=...)] call. *)
Record emission := Emit {
  ev : string;
  payload : pydict;
  to_room : option pyval;
  skip_sid : option string
}.

Record world := World {
  connected_user : list (string * list string);  (* events.connected_user *)
  store : redis_store;                            (* redis_client *)
  database : db_state;                            (* supabase_client.get_admin() *)
  emitted : list emission;                        (* sio.emit calls, oldest first *)
  sio_rooms : list (string * pyval);              (* the server's rooms: (sid, room) *)
  closed : list string;                           (* sio.disconnect calls *)
  now : string                                    (* datetime.utcnow().isoformat() *)
}.

Definition io (A : Type) : Type := world → result A * world.

#[global] Instance io_ret : MRet io := λ A a w, (Ok a, w).
#[global] Instance io_bind : MBind io := λ A B f m w,
  match m w with
  | (Ok a, w') => f a w'
  | (Raise e, w') => (Raise e, w')
  end.

Definition raise {A : Type} (e : exn) : io A := λ w, (Raise e, w).

(** [try: body except Exception as e: handler(e)] *)
Definition try_except {A : Type} (body : io A) (handler : exn → io A) : io A := λ w,
  match body w with
  | (Ok a, w') => (Ok a, w')
  | (Raise e, w') => handler e w'
  end.

Definition lift_result {A : Type} (r : result A) : io A := λ w, (r, w).

Definition get_world : io world := λ w, (Ok w, w).

Definition with_store {A : Type} (f : redis_store → A * redis_store) : io A := λ w,
  let '(a, r) := f (store w) in
  (Ok a, World (connected_user w) r (database w) (emitted w) (sio_rooms w) (closed w) (now w)).

Definition update_store (f : redis_store → redis_store) : io unit :=
  with_store (λ r, (tt, f r)).

Definition read_store {A : Type} (f : redis_store → A) : io A :=
  with_store (λ r, (f r, r)).

Definition execute (b : builder) : io (list row) := λ w,
  let '(res, d) := pg.execute b (database w) in
  (res, World (connected_user w) (store w) d (emitted w) (sio_rooms w) (closed w) (now w)).

Definition set_connected_user (f : list (string * list string) → list (string * list string))
    : io unit := λ w,
  (Ok tt, World (f (connected_user w)) (store w) (database w) (emitted w) (sio_rooms w)
                (closed w) (now w)).

Module sio.

Definition emit (event : string) (data : pydict) (room : option pyval)
    (skip : option string) : io unit := λ w,
  (Ok tt, World (connected_user w) (store w) (database w)
                (emitted w ++ [Emit event data room skip]) (sio_rooms w) (closed w) (now w)).

(** [sio.enter_room(sid, room)] and [sio.leave_room(sid, room)] as the
    handlers write them, without [await]: both are coroutine functions of the
    [AsyncServer], so the call builds a coroutine object that is dropped
    unrun.  The rooms of the server are not touched. *)
Definition enter_room (sid : string) (room : pyval) : io unit := mret tt.

Definition leave_room (sid : string) (room : pyval) : io unit := mret tt.

Definition disconnect (sid : string) : io unit := λ w,
  (Ok tt, World (connected_user w) (store w) (database w) (emitted w) (sio_rooms w)
                (closed w ++ [sid]) (now w)).

End sio.

(** [for x in l: body(x)] *)
Fixpoint for_each {A : Type} (l : list A) (body : A → io unit) : io unit :=
  match l with
  | [] => mret tt
  | x :: l' => body x;; for_each l' body
  end.

(** [row[k]]: [KeyError] when the key is missing. *)
Definition getitem (r : row) (k : string) : result pyval :=
  match r !! k with
  | Some v => Ok v
  | None => Raise (KeyError k)
  end.

(** [row[k]] for a column that holds an identifier: the code uses the cell as
    a [str] (in an f-string key, as a set member). *)
Definition getitem_str (r : row) (k : string) : result string :=
  match r !! k with
  | Some (VStr s) => Ok s
  | Some _ => Raise (TypeError k)
  | None => Raise (KeyError k)
  end.

Fixpoint collect_str (rows : list row) (k : string) : result (list string) :=
  match rows with
  | [] => Ok []
  | r :: rows' =>
      match getitem_str r k, collect_str rows' k with
      | Ok s, Ok l => Ok (s :: l)
      | Raise e, _ => Raise e
      | _, Raise e => Raise e
      end
  end.

(** ** app/middleware/auth.py *)

(** Decoded token claims ([sub], [email], [role]). *)
Abbreviation claims := (gmap string string).

Record user_data := UserData {
  ud_user_id : string;
  ud_email : option string;
  ud_role : option string;
  ud_payload : claims
}.

(** The handshake's [auth] object. *)
Abbreviation auth_dict := (gmap string string).

Definition extract_token_from_handshake (auth_data : auth_dict) : option string :=
  match auth_data !! "token" with
  | Some t => Some t
  | None =>
      match auth_data !! "Authorization" with
      | Some auth_header =>
          if String.prefix "Bearer " auth_header
          then Some (String.substring 7 (String.length auth_header - 7) auth_header)
          else None
      | None => None
      end
  end.

Section auth.

(** [jose.jwt.decode] under the configured secret (HS256, signature and
    expiry verified): the identity provider's side of the handshake. *)
Variable jwt_decode : string → result claims.

Definition verify_jwt_token (token : string) : option user_data :=
  match jwt_decode token with
  | Ok payload =>
      let user_id := payload !! "sub" in
      let email := payload !! "email" in
      let role := payload !! "role" in
      match user_id with
      | Some uid => if truthy (Some uid) then Some (UserData uid email role payload) else None
      | None => None
      end
  | Raise _ => None
  end.

End auth.

(** ** app/services/presence.py *)

Module PresenceService.

Definition set_online (user_id status : string) : io bool :=
  try_except
    (update_store (RedisClient.set_user_online user_id status);;
     w ← get_world;
     execute (pg.table "profiles"
              .> pg.update {[ "status" := VStr status; "last_seen" := VStr (now w) ]}
              .> pg.eq "id" (VStr user_id));;
     mret true)
    (λ _, mret false).

Definition set_offline (user_id : string) : io bool :=
  try_except
    (update_store (RedisClient.set_user_offline user_id);;
     w ← get_world;
     execute (pg.table "profiles"
              .> pg.update {[ "status" := VStr "offline"; "last_seen" := VStr (now w) ]}
              .> pg.eq "id" (VStr user_id));;
     mret true)
    (λ _, mret false).

Definition valid_status (status : string) : bool :=
  bool_decide (status ∈ ["online"; "offline"; "away"; "busy"]).

Definition update_status (user_id status : string) : io bool :=
  try_except
    (if negb (valid_status status) then mret false
     else
       (if bool_decide (status = "offline")
        then update_store (RedisClient.set_user_offline user_id)
        else update_store (RedisClient.set_user_online user_id status));;
       w ← get_world;
       execute (pg.table "profiles"
                .> pg.update {[ "status" := VStr status; "last_seen" := VStr (now w) ]}
                .> pg.eq "id" (VStr user_id));;
       mret true)
    (λ _, mret false).

Definition get_user_status (user_id : string) : io pyval :=
  try_except
    (status ← read_store (RedisClient.get_user_status user_id);
     if truthy (Some status) && negb (bool_decide (status = "offline"))
     then mret (VStr status)
     else
       result ← execute (pg.table "profiles"
                         .> pg.select ["status"]
                         .> pg.eq "id" (VStr user_id));
       match result with
       | r :: _ => lift_result (getitem r "status")
       | [] => mret (VStr "offline")
       end)
    (λ _, mret (VStr "offline")).

End PresenceService.

(** ** app/services/notification.py *)

Module NotificaitonService.

Definition create_notification (user_id title : string) (body : pyval)
    (notification_type : string) (reference_id : pyval) : io (option row) :=
  try_except
    (let result :=
       pg.table "notifications"
       .> pg.insert {[ "user_id" := VStr user_id;
                       "title" := VStr title;
                       "body" := body;
                       "notification_type" := VStr notification_type;
                       "reference_id" := reference_id;
                       "is_read" := VBool false ]} in
     data ← lift_result (pg.data_of_builder result);
     match data with
     | notification :: _ => mret (Some notification)
     | [] => mret None
     end)
    (λ _, mret None).

Definition mark_as_read (notification_id user_id : string) : io bool :=
  try_except
    (result ← execute (pg.table "notifications"
                       .> pg.update {[ "is_read" := VBool true ]}
                       .> pg.eq "id" (VStr notification_id)
                       .> pg.eq "user_id" (VStr user_id));
     mret (bool_decide (0 < length result)))
    (λ _, mret false).

(** [select('id', count='exact')]: the exact count is the number of rows the
    filters keep. *)
Definition get_unread_count (user_id : string) : io nat :=
  try_except
    (result ← execute (pg.table "notifications"
                       .> pg.select ["id"]
                       .> pg.eq "user_id" (VStr user_id)
                       .> pg.eq "is_read" (VBool false));
     mret (length result))
    (λ _, mret 0).

End NotificaitonService.

(** ** app/services/message.py *)

Module MessageService.

Definition enrich (message : row) (sender : row) : row :=
  <[ "sender_avatar" := dict_get sender "avatar_url" ]>
    (<[ "sender_display_name" := dict_get sender "display_name" ]>
       (<[ "sender_username" := dict_get sender "username" ]> message)).

Definition create_message (room_id sender_id : string) (content : option string)
    (message_type : string) (reply_to : option string) : io (option row) :=
  try_except
    (result ← execute (pg.table "messages"
                       .> pg.insert {[ "room_id" := VStr room_id;
                                       "sender_id" := VStr sender_id;
                                       "content" := of_opt_str content;
                                       "message_type" := VStr message_type;
                                       "reply_to" := of_opt_str reply_to ]});
     match result with
     | [] => mret None
     | message :: _ =>
         sender ← execute (pg.table "profile"
                           .> pg.select ["username"; "display_name"; "avatar url"]
                           .> pg.eq "id" (VStr sender_id));
         match sender with
         | s :: _ => mret (Some (enrich message s))
         | [] => mret (Some message)
         end
     end)
    (λ _, mret None).

Definition edit_message (message_id : string) (user_id : option string)
    (new_content : string) : io (option row) :=
  try_except
    (check ← execute (pg.table "messages"
                      .> pg.select ["*"]
                      .> pg.eq "id" (VStr message_id)
                      .> pg.eq "sender_id" (of_opt_str user_id));
     match check with
     | [] => mret None
     | _ :: _ =>
         w ← get_world;
         result ← execute (pg.table "messages"
                           .> pg.update {[ "content" := VStr new_content;
                                           "is_edited" := VBool true;
                                           "updated_at" := VStr (now w) ]}
                           .> pg.eq "id" (VStr message_id));
         match result with
         | r :: _ => mret (Some r)
         | [] => mret None
         end
     end)
    (λ _, mret None).

Definition delete_message (message_id : string) (user_id : option string)
    : io (option row) :=
  try_except
    (check ← execute (pg.table "messages"
                      .> pg.select ["room_id"]
                      .> pg.eq "id" (VStr message_id)
                      .> pg.eq "sender_id" (of_opt_str user_id));
     match check with
     | [] => mret None
     | c :: _ =>
         w ← get_world;
         result ← execute (pg.table "messages"
                           .> pg.update {[ "is_deleted" := VBool true;
                                           "content" := VNone;
                                           "updated_at" := VStr (now w) ]}
                           .> pg.eq "id" (VStr message_id));
         match result with
         | _ :: _ =>
             room_id ← lift_result (getitem c "room_id");
             mret (Some ({[ "message_id" := VStr message_id; "room_id" := room_id ]} : row))
         | [] => mret None
         end
     end)
    (λ _, mret None).

End MessageService.

(** ** app/sockets/events.py *)

(** The module-level dict [connected_user]: user id -> list of socket ids. *)
Definition dict_has (k : string) (d : list (string * list string)) : bool :=
  bool_decide (k ∈ d.*1).

Definition dict_lookup (k : string) (d : list (string * list string)) : option (list string) :=
  snd <$> List.find (λ p, bool_decide (p.1 = k)) d.

Definition dict_set (k : string) (v : list string) (d : list (string * list string))
    : list (string * list string) :=
  if dict_has k d then (λ p, if bool_decide (p.1 = k) then (k, v) else p) <$> d
  else d ++ [(k, v)].

Definition dict_del (k : string) (d : list (string * list string))
    : list (string * list string) :=
  List.filter (λ p, negb (bool_decide (p.1 = k))) d.

(** An event payload: a key-value map whose fields are strings
    (models/schemas.py). *)
Abbreviation event_data := (gmap string string).

(** [if not x: ...] on an [Optional[str]]: the value when it is truthy. *)
Definition required (o : option string) : option string :=
  if truthy o then o else None.

(** [if not d: ...] on an [Optional[dict]]: an empty dict is falsy too. *)
Definition nonempty_dict (o : option row) : option row :=
  match o with
  | Some d => if decide (d = ∅) then None else Some d
  | None => None
  end.

Definition with_store_result {A : Type} (f : redis_store → result A * redis_store) : io A := λ w,
  let '(a, r) := f (store w) in
  (a, World (connected_user w) r (database w) (emitted w) (sio_rooms w) (closed w) (now w)).

(** [sockets.romove(sid)]: a list has no such method. *)
Definition list_romove (sockets : list string) (sid : string) : io (list string) :=
  raise (AttributeError "'list' object has no attribute 'romove'").

Definition emit_error (sid : string) (message : string) : io unit :=
  sio.emit "error" {[ "message" := VStr message ]} (Some (VStr sid)) None.

Definition _get_user_id_from_sid (sid : string) : io (option string) :=
  w ← get_world;
  mret (fst <$> List.find (λ p, bool_decide (sid ∈ p.2)) (connected_user w)).

Definition _check_room_membership (user_id room_id : string) : io bool :=
  try_except
    (cached_members ← read_store (RedisClient.get_cached_room_members room_id);
     match cached_members with
     | Some (m :: ms) => mret (bool_decide (user_id ∈ m :: ms))
     | _ =>
         result ← execute (pg.table "room_members"
                           .> pg.select ["user_id"]
                           .> pg.eq "room_id" (VStr room_id)
                           .> pg.eq "user_id" (VStr user_id));
         let is_member := bool_decide (0 < length result) in
         (if is_member then
            all_members ← execute (pg.table "room_members"
                                   .> pg.select ["user_id"]
                                   .> pg.eq "room_id" (VStr room_id));
            member_ids ← lift_result (collect_str all_members "user_id");
            update_store (RedisClient.cache_room_members room_id member_ids 300)
          else mret tt);;
         mret is_member
     end)
    (λ _, mret false).

Section events.

Variable jwt_decode : string → result claims.
Variable settings : Settings.

Definition _notify_offline_members (room_id sender_id : string) (message : row) : io unit :=
  try_except
    (members ← execute (pg.table "room_members"
                        .> pg.select ["user_id"]
                        .> pg.eq "room_id" (VStr room_id)
                        .> pg.neq "user_id" (VStr sender_id));
     for_each members (λ member,
       member_id ← lift_result (getitem_str member "user_id");
       is_online ← read_store (RedisClient.is_user_online member_id);
       if negb is_online then
         update_store (RedisClient.queue_message (MESSAGE_QUEUE_RETENTION settings)
                         member_id message);;
         reference_id ← lift_result (getitem message "id");
         NotificaitonService.create_notification member_id "Nova mensagem"
           (dict_get_default message "content" (VStr "Arquivo")) "new_message" reference_id;;
         mret tt
       else mret tt))
    (λ _, mret tt).

(** Lines 57-62 of [connect]: deliver what was queued while offline. *)
Definition connect_drain (sid user_id : string) : io unit :=
  queued_messages ← with_store (RedisClient.get_queued_messages user_id);
  match queued_messages with
  | [] => mret tt
  | _ :: _ =>
      for_each queued_messages (λ msg, sio.emit "message" msg (Some (VStr sid)) None)
  end.

Definition connect (sid : string) (envrion : list (string * string))
    (auth : option auth_dict) : io bool :=
  let token := extract_token_from_handshake (default ∅ auth) in
  match required token with
  | None => sio.disconnect sid;; mret false
  | Some token =>
      match verify_jwt_token jwt_decode token with
      | None => sio.disconnect sid;; mret false
      | Some user_data =>
          let user_id := ud_user_id user_data in
          with_store_result (RedisClient.set_user_session user_id sid user_data 86400);;
          PresenceService.set_online user_id "online";;
          set_connected_user (λ d, if dict_has user_id d then d else d ++ [(user_id, [])]);;
          set_connected_user (λ d, dict_set user_id (default [] (dict_lookup user_id d) ++ [sid]) d);;
          connect_drain sid user_id;;
          sio.emit "user_online" {[ "user_id" := VStr user_id ]} None (Some sid);;
          mret true
      end
  end.

Definition disconnect (sid : string) : io unit :=
  w ← get_world;
  user_id ← match List.find (λ p, bool_decide (sid ∈ p.2)) (connected_user w) with
            | Some (uid, sockets) =>
                sockets ← list_romove sockets sid;
                (match sockets with
                 | [] => set_connected_user (dict_del uid)
                 | _ :: _ => set_connected_user (dict_set uid sockets)
                 end);;
                mret (Some uid)
            | None => mret None
            end;
  match required user_id with
  | Some user_id =>
      update_store (RedisClient.delete_user_session user_id sid);;
      w ← get_world;
      match dict_lookup user_id (connected_user w) with
      | Some (_ :: _) => mret tt
      | _ =>
          PresenceService.set_offline user_id;;
          sio.emit "user_offline" {[ "user_id" := VStr user_id ]} None None
      end
  | None => mret tt
  end.

Definition join_room (sid : string) (data : event_data) : io unit :=
  try_except
    (match required (data !! "room_id") with
     | None => emit_error sid "room_id required"
     | Some room_id =>
         user_id ← _get_user_id_from_sid sid;
         match required user_id with
         | None => emit_error sid "Unauthorized"
         | Some user_id =>
             is_member ← _check_room_membership user_id room_id;
             if negb is_member then emit_error sid "Not a member of this room"
             else
               sio.enter_room sid (VStr room_id);;
               sio.emit "user_joined_room"
                 {[ "user_id" := VStr user_id; "room_id" := VStr room_id ]}
                 (Some (VStr room_id)) (Some sid);;
               sio.emit "room_joined" {[ "room_id" := VStr room_id ]}
                 (Some (VStr room_id)) None
         end
     end)
    (λ e, emit_error sid (str_exn e)).

Definition leave_room (sid : string) (data : event_data) : io unit :=
  try_except
    (match required (data !! "room_id") with
     | None => mret tt
     | Some room_id =>
         user_id ← _get_user_id_from_sid sid;
         sio.leave_room sid (VStr room_id);;
         match required user_id with
         | Some user_id =>
             sio.emit "user_left_room"
               {[ "user_id" := VStr user_id; "room_id" := VStr room_id ]}
               (Some (VStr room_id)) None
         | None => mret tt
         end
     end)
    (λ _, mret tt).

Definition send_message (sid : string) (data : event_data) : io unit :=
  try_except
    (let content := data !! "content" in
     let message_type := default "text" (data !! "message_type") in
     let reply_to := data !! "reply_to" in
     match required (data !! "room_id") with
     | None => emit_error sid "room_id required"
     | Some room_id =>
         user_id ← _get_user_id_from_sid sid;
         match required user_id with
         | None => emit_error sid "Unauthorized"
         | Some user_id =>
             can_send ← with_store_result (RedisClient.check_rate_limit user_id
                                      (MAX_MESSAGES_PER_MINUTE settings) 60);
             if negb can_send then emit_error sid "Rate limit exceeded"
             else
               is_member ← _check_room_membership user_id room_id;
               if negb is_member then emit_error sid "Not a member"
               else
                 message ← MessageService.create_message room_id user_id content
                             message_type reply_to;
                 match nonempty_dict message with
                 | None => emit_error sid "Failed to save message"
                 | Some message =>
                     sio.emit "message" message (Some (VStr room_id)) None;;
                     _notify_offline_members room_id user_id message
                 end
         end
     end)
    (λ e, emit_error sid (str_exn e)).

Definition edit_message (sid : string) (data : event_data) : io unit :=
  try_except
    (match required (data !! "message_id"), required (data !! "content") with
     | Some message_id, Some content =>
         user_id ← _get_user_id_from_sid sid;
         updated_message ← MessageService.edit_message message_id user_id content;
         match nonempty_dict updated_message with
         | None => emit_error sid "Failed to edit"
         | Some updated_message =>
             room_id ← lift_result (getitem updated_message "room_id");
             sio.emit "message_edited" updated_message (Some room_id) None
         end
     | _, _ => emit_error sid "message_id and content required"
     end)
    (λ e, emit_error sid (str_exn e)).

Definition delete_message (sid : string) (data : event_data) : io unit :=
  try_except
    (match required (data !! "message_id") with
     | None => emit_error sid "message_id required"
     | Some message_id =>
         user_id ← _get_user_id_from_sid sid;
         result ← MessageService.delete_message message_id user_id;
         match nonempty_dict result with
         | None => emit_error sid "Failed to delete"
         | Some result =>
             room_id ← lift_result (getitem result "room_id");
             sio.emit "message_deleted"
               {[ "message_id" := VStr message_id; "room_id" := room_id ]}
               (Some room_id) None
         end
     end)
    (λ _, mret tt).

Definition typing_start (sid : string) (data : event_data) : io unit :=
  try_except
    (match required (data !! "room_id") with
     | None => mret tt
     | Some room_id =>
         user_id ← _get_user_id_from_sid sid;
         match required user_id with
         | None => mret tt
         | Some user_id =>
             update_store (RedisClient.set_typing room_id user_id (TYPING_TIMEOUT settings));;
             sio.emit "user_typing"
               {[ "user_id" := VStr user_id; "room_id" := VStr room_id ]}
               (Some (VStr room_id)) (Some sid)
         end
     end)
    (λ _, mret tt).

Definition typing_stop (sid : string) (data : event_data) : io unit :=
  try_except
    (match required (data !! "room_id") with
     | None => mret tt
     | Some room_id =>
         user_id ← _get_user_id_from_sid sid;
         match required user_id with
         | None => mret tt
         | Some user_id =>
             update_store (RedisClient.remove_typing room_id user_id);;
             sio.emit "user_stopped_typing"
               {[ "user_id" := VStr user_id; "room_id" := VStr room_id ]}
               (Some (VStr room_id)) (Some sid)
         end
     end)
    (λ _, mret tt).

Definition update_status (sid : string) (data : event_data) : io unit :=
  try_except
    (let status := default "online" (data !! "status") in
     if negb (PresenceService.valid_status status) then emit_error sid "Invalid status"
     else
       user_id ← _get_user_id_from_sid sid;
       match required user_id with
       | None => mret tt
       | Some user_id =>
           PresenceService.update_status user_id status;;
           sio.emit "user_status_changed"
             {[ "user_id" := VStr user_id; "status" := VStr status ]}
             None (Some sid)
       end)
    (λ _, mret tt).

End events.

(** ** app/routes/rooms.py

    The routes built from [select], [insert], [update] and [eq] alone. *)

(** What a route hands back: its return value, or the [HTTPException] it
    raised. *)
Inductive response (A : Type) :=
  | Returned (a : A)
  | HTTPException (status_code : nat) (detail : string).
Arguments Returned {A} a.
Arguments HTTPException {A} status_code detail.

(** [try: body except HTTPException: raise except Exception as e:
    raise HTTPException(500, str(e))] *)
Definition route_try {A : Type} (body : io (response A)) : io (response A) :=
  try_except body (λ e, mret (HTTPException 500 (str_exn e))).

(** [current_user['user_id']] *)
Definition current_user_id (current_user : option user_data) : result string :=
  match current_user with
  | Some ud => Ok (ud_user_id ud)
  | None => Raise (TypeError "'NoneType' object is not subscriptable")
  end.

Record UpdateRoomRequest := {
  req_name : option string;
  req_description : option string
}.

Definition may_manage (role : pyval) : bool :=
  bool_decide (role ∈ [VStr "owner"; VStr "admin"]).

Section rooms.

Variable jwt_decode : string → result claims.

(** The function ends without a [return]: on success its value is [None]. *)
Definition get_current_user (authorization : option string) : response (option user_data) :=
  match required authorization with
  | None => HTTPException 401 "Authorization header missing"
  | Some authorization =>
      if negb (String.prefix "Bearer " authorization)
      then HTTPException 401 "Invalid authorization format"
      else
        let token := String.substring 7 (String.length authorization - 7) authorization in
        match verify_jwt_token jwt_decode token with
        | None => HTTPException 401 "Invalid or expired token"
        | Some user_data => Returned None
        end
  end.

(** [current_user: dict = Depends(get_current_user)] *)
Definition depends {A : Type} (authorization : option string)
    (route : option user_data → io (response A)) : io (response A) :=
  match get_current_user authorization with
  | Returned current_user => route current_user
  | HTTPException status_code detail => mret (HTTPException status_code detail)
  end.

Definition get_user_profile (user_id : string) (current_user : option user_data)
    : io (response row) :=
  route_try
    (result ← execute (pg.table "profiles"
                       .> pg.select ["id"; "username"; "display_name"; "avatar_url"; "bio";
                                     "status"; "last_seen"]
                       .> pg.eq "id" (VStr user_id));
     match result with
     | [] => mret (HTTPException 404 "User not found")
     | user :: _ =>
         is_online ← read_store (RedisClient.is_user_online user_id);
         mret (Returned (<[ "is_online" := VBool is_online ]> user))
     end).

Definition get_my_profile (current_user : option user_data) : io (response row) :=
  route_try
    (user_id ← lift_result (current_user_id current_user);
     result ← execute (pg.table "profiles" .> pg.select ["*"] .> pg.eq "id" (VStr user_id));
     match result with
     | [] => mret (HTTPException 404 "Profile not found")
     | r :: _ => mret (Returned r)
     end).

Definition update_room (room_id : string) (request : UpdateRoomRequest)
    (current_user : option user_data) : io (response row) :=
  route_try
    (user_id ← lift_result (current_user_id current_user);
     membership ← execute (pg.table "room_members"
                           .> pg.select ["role"]
                           .> pg.eq "room_id" (VStr room_id)
                           .> pg.eq "user_id" (VStr user_id));
     match membership with
     | [] => mret (HTTPException 403 "Insufficient permissions")
     | m :: _ =>
         role ← lift_result (getitem m "role");
         if negb (may_manage role) then mret (HTTPException 403 "Insufficient permissions")
         else
           let updates : row := ∅ in
           let updates := match req_name request with
                          | Some name => <[ "name" := VStr name ]> updates
                          | None => updates
                          end in
           let updates := match req_description request with
                          | Some description => <[ "description" := VStr description ]> updates
                          | None => updates
                          end in
           if decide (updates = ∅) then mret (HTTPException 400 "No fields to update")
           else
             result ← execute (pg.table "rooms" .> pg.update updates
                               .> pg.eq "id" (VStr room_id));
             match result with
             | r :: _ => mret (Returned r)
             | [] => mret (Returned ({[ "success" := VBool true ]} : row))
             end
     end).

Definition add_member (room_id : string) (request_user_id : string)
    (current_user : option user_data) : io (response row) :=
  route_try
    (user_id ← lift_result (current_user_id current_user);
     membership ← execute (pg.table "room_members"
                           .> pg.select ["role"]
                           .> pg.eq "room_id" (VStr room_id)
                           .> pg.eq "user_id" (VStr user_id));
     match membership with
     | [] => mret (HTTPException 403 "Insufficient permissions")
     | m :: _ =>
         role ← lift_result (getitem m "role");
         if negb (may_manage role) then mret (HTTPException 403 "Insufficient permissions")
         else
           existing ← execute (pg.table "room_members"
                               .> pg.select ["user_id"]
                               .> pg.eq "room_id" (VStr room_id)
                               .> pg.eq "user_id" (VStr request_user_id));
           match existing with
           | _ :: _ => mret (HTTPException 400 "User is already a member")
           | [] =>
               result ← execute (pg.table "room_members"
                                 .> pg.insert {[ "room_id" := VStr room_id;
                                                 "user_id" := VStr request_user_id;
                                                 "role" := VStr "member" ]});
               match result with
               | r :: _ => mret (Returned r)
               | [] => mret (Returned ({[ "success" := VBool true ]} : row))
               end
           end
     end).

End rooms.


(** ** Vocabulary of the statements *)

Definition put_store (r : redis_store) (w : world) : world :=
  World (connected_user w) r (database w) (emitted w) (sio_rooms w) (closed w) (now w).

Definition put_emitted (l : list emission) (w : world) : world :=
  World (connected_user w) (store w) (database w) l (sio_rooms w) (closed w) (now w).

Definition put_database (d : db_state) (w : world) : world :=
  World (connected_user w) (store w) d (emitted w) (sio_rooms w) (closed w) (now w).

(** A [message] event addressed to one connection. *)
Definition message_to (sid : string) (m : pydict) : emission :=
  Emit "message" m (Some (VStr sid)) None.

(** An [error{message}] event addressed to one connection. *)
Definition error_to (sid message : string) : emission :=
  Emit "error" {[ "message" := VStr message ]} (Some (VStr sid)) None.

(** The world after one more emission. *)
Definition emitting (e : emission) (w : world) : world :=
  put_emitted (emitted w ++ [e]) w.

(** The world after one more request has been logged by the durable store. *)
Definition requesting (b : builder) (w : world) : world :=
  put_database (Database (tables (database w)) (column_defaults (database w))
                         (requests (database w) ++ [b]) (columns (database w))) w.

(** The repository's own verdict on membership, and its member list. *)
Definition is_member_row (room_id user_id : string) (r : row) : bool :=
  pg.selected [Feq "room_id" (VStr room_id); Feq "user_id" (VStr user_id)] r.

Definition repo_is_member (rows : list row) (room_id user_id : string) : bool :=
  existsb (is_member_row room_id user_id) rows.

Definition repo_members (rows : list row) (room_id : string) : list string :=
  omap (λ r : row, if pg.selected [Feq "room_id" (VStr room_id)] r
                   then match r !! "user_id" with Some (VStr s) => Some s | _ => None end
                   else None) rows.

(** [m] relates every world to the world it leaves behind, whether it returns
    or raises. *)
Definition keeps {A : Type} (R : world → world → Prop) (m : io A) : Prop :=
  ∀ w, R w (m w).2.

(** The rate counter of a user, and the number of [message] events emitted so
    far. *)
Definition counter_of (user_id : string) (w : world) : option (Z * option Z) :=
  r_counters (store w) !! ("ratelimit:" +:+ user_id).

Definition broadcasts (w : world) : nat :=
  length (List.filter (λ e, bool_decide (ev e = "message")) (emitted w)).

(** Steps that leave the registry and the user's counter alone and add no
    [message] event, respectively at most one. *)
Definition quiet (user_id : string) (w w' : world) : Prop :=
  connected_user w' = connected_user w
  ∧ counter_of user_id w' = counter_of user_id w
  ∧ broadcasts w' = broadcasts w.

Definition one_more (user_id : string) (w w' : world) : Prop :=
  connected_user w' = connected_user w
  ∧ counter_of user_id w' = counter_of user_id w
  ∧ broadcasts w' ≤ broadcasts w + 1.

#[global] Instance quiet_preorder (user_id : string) : PreOrder (quiet user_id).
Proof.
  split.
  - by intros w.
  - intros x y z (H1 & H2 & H3) (H4 & H5 & H6). unfold quiet. split_and!; congruence.
Qed.

(** Steps that write to no table of the durable store. *)
Definition same_tables (w w' : world) : Prop :=
  tables (database w') = tables (database w).

#[global] Instance same_tables_preorder : PreOrder same_tables.
Proof.
  split.
  - by intros w.
  - intros x y z H1 H2. unfold same_tables in *. congruence.
Qed.

(** How many more calls the limiter will let through in the current window. *)
Definition capacity (limit : Z) (c : option (Z * option Z)) : nat :=
  match c with
  | None => Z.to_nat (Z.max limit 1)
  | Some (v, _) => Z.to_nat (limit - v)
  end.

(** [send_message] calls arriving over any sockets, one after the other. *)
Definition send_each (settings : Settings) (calls : list (string * event_data))
    (w : world) : world :=
  foldl (λ w c, (send_message settings c.1 c.2 w).2) w calls.


(** The events [register_socket_events] registers, as calls a client can
    make, and the world after a sequence of them. *)
Inductive call :=
  | Connect (sid : string) (envrion : list (string * string)) (auth : option auth_dict)
  | Disconnect (sid : string)
  | JoinRoom (sid : string) (data : event_data)
  | LeaveRoom (sid : string) (data : event_data)
  | SendMessage (sid : string) (data : event_data)
  | EditMessage (sid : string) (data : event_data)
  | DeleteMessage (sid : string) (data : event_data)
  | TypingStart (sid : string) (data : event_data)
  | TypingStop (sid : string) (data : event_data)
  | UpdateStatus (sid : string) (data : event_data).

Definition dispatch (jwt_decode : string → result claims) (settings : Settings)
    (c : call) (w : world) : world :=
  match c with
  | Connect sid envrion auth => (connect jwt_decode sid envrion auth w).2
  | Disconnect sid => (disconnect sid w).2
  | JoinRoom sid data => (join_room sid data w).2
  | LeaveRoom sid data => (leave_room sid data w).2
  | SendMessage sid data => (send_message settings sid data w).2
  | EditMessage sid data => (edit_message sid data w).2
  | DeleteMessage sid data => (delete_message sid data w).2
  | TypingStart sid data => (typing_start settings sid data w).2
  | TypingStop sid data => (typing_stop sid data w).2
  | UpdateStatus sid data => (update_status sid data w).2
  end.

Definition run (jwt_decode : string → result claims) (settings : Settings)
    (cs : list call) (w : world) : world :=
  foldl (λ w c, dispatch jwt_decode settings c w) w cs.

(** From [w] to [w'] nothing was registered, stored or written, no socket
    entered a room, and the only events emitted are [error] events. *)
Definition inert (w w' : world) : Prop :=
  connected_user w' = connected_user w
  ∧ store w' = store w
  ∧ tables (database w') = tables (database w)
  ∧ (∀ p, p ∈ sio_rooms w' → p ∈ sio_rooms w)
  ∧ ∃ errors, emitted w' = emitted w ++ errors ∧ Forall (λ e, ev e = "error") errors.

(** The socket a call comes from. *)
Definition call_sid (c : call) : string :=
  match c with
  | Connect sid _ _ | Disconnect sid | JoinRoom sid _ | LeaveRoom sid _
  | SendMessage sid _ | EditMessage sid _ | DeleteMessage sid _
  | TypingStart sid _ | TypingStop sid _ | UpdateStatus sid _ => sid
  end.

(** Two stores agree on a key, in every keyspace. *)
Definition same_at (key : string) (r r' : redis_store) : Prop :=
  r_strings r' !! key = r_strings r !! key
  ∧ r_counters r' !! key = r_counters r !! key
  ∧ r_lists r' !! key = r_lists r !! key
  ∧ r_sets r' !! key = r_sets r !! key.

(** The user a socket belongs to, as [_get_user_id_from_sid] finds it. *)
Definition user_of (sid : string) (w : world) : option string :=
  fst <$> List.find (λ p : string * list string, bool_decide (sid ∈ p.2)) (connected_user w).

(** The rows of the [notifications] and [room_members] tables. *)
Definition stored_notifications (w : world) : list row :=
  default [] (tables (database w) !! "notifications").

Definition stored_members (w : world) : list row :=
  default [] (tables (database w) !! "room_members").

(** The rows of the [messages] table. *)
Definition stored_messages (w : world) : list row :=
  default [] (tables (database w) !! "messages").

(** Every [user_id] cell is a string (the column is a non-null identifier). *)
Definition user_ids_are_strings (rows : list row) : Prop :=
  Forall (λ r : row, ∃ s, r !! "user_id" = Some (VStr s)) rows.

(** The members of a room other than the sender, one entry per membership
    row, in the order of the table. *)
Definition recipients (rows : list row) (room_id sender_id : string) : list string :=
  omap (λ r : row,
          if pg.selected [Feq "room_id" (VStr room_id); Fneq "user_id" (VStr sender_id)] r
          then match r !! "user_id" with Some (VStr s) => Some s | _ => None end
          else None) rows.

(** How many membership rows make [user_id] a recipient. *)
Definition copies (user_id : string) (ids : list string) : nat :=
  length (List.filter (λ i, bool_decide (i = user_id)) ids).

(** *** Scenarios of the specification as concrete worlds *)


Module scenario.

Definition jwt_decode (t : string) : result claims :=
  if bool_decide (t = "good") then Ok {[ "sub" := "alice"; "email" := "alice@example.org" ]}
  else Raise (JWTError "Signature verification failed").

Definition defaults (t : string) (n : nat) : row :=
  if bool_decide (t = "messages")
  then {[ "id" := VStr "m-new"; "is_edited" := VBool false; "is_deleted" := VBool false ]}
  else ∅.

Definition member (room_id user_id : string) : row :=
  {[ "room_id" := VStr room_id; "user_id" := VStr user_id ]}.

Definition message (id room_id sender_id content : string) : row :=
  {[ "id" := VStr id; "room_id" := VStr room_id; "sender_id" := VStr sender_id;
     "content" := VStr content; "message_type" := VStr "text";
     "is_edited" := VBool false; "is_deleted" := VBool false;
     "updated_at" := VStr "t0" ]}.

Definition E1 : pydict := message "m1" "R" "bob" "first".
Definition E2 : pydict := message "m2" "R" "bob" "second".

Definition db (members messages : list row) : db_state :=
  Database {[ "room_members" := members; "messages" := messages;
              "notifications" := []; "profiles" := [] ]} defaults [] (λ _, []).

(** Scenario 1: [queue:alice] holds two envelopes, nobody is connected. *)
Definition handshake : world :=
  World [] (set_lists <["queue:alice" := ([E1; E2], Some 86400%Z)]> redis_empty)
        (db [member "R" "alice"; member "R" "bob"] [E1; E2]) [] [] [] "t1".

(** Scenario 4: Eve is connected and online, Frank is not. *)
Definition eve_and_frank : world :=
  World [("eve", ["s1"])] (RedisClient.set_user_online "eve" "online" redis_empty)
        (db [member "R" "eve"; member "R" "frank"] []) [] [] [] "t1".

(** Scenario 5: message [M] of room [R] was sent by Gina; Gina and Harry are
    connected. *)
Definition gina_and_harry : world :=
  World [("gina", ["sg"]); ("harry", ["sh"])] redis_empty
        (db [member "R" "gina"; member "R" "harry"] [message "M" "R" "gina" "hi"])
        [] [] [] "t1".

(** One connection of one user, with its session mirror and presence key. *)
Definition one_connection : world :=
  World [("carol", ["c1"])]
        (set_strings <["session:carol:c1" := ("{}", Some 86400%Z)]>
           (RedisClient.set_user_online "carol" "online" redis_empty))
        (db [] []) [] [] [] "t1".

(** The membership cache of room [R] lists Bob only; the repository lists
    Alice only. *)
Definition stale_cache : world :=
  World [("alice", ["sa"]); ("bob", ["sb"])]
        (RedisClient.cache_room_members "R" ["bob"] 300 redis_empty)
        (db [member "R" "alice"] []) [] [] [] "t1".

(** A deployment that does have a relation [profile] with the columns the
    sender lookup of [create_message] names; Eve holds two connections. *)
Definition with_profile : world :=
  World [("eve", ["s1"; "s2"])] redis_empty
        (Database {[ "room_members" := [member "R" "eve"; member "R" "frank"];
                     "messages" := []; "profile" := [] ]} defaults []
                  (λ t, if bool_decide (t = "profile")
                        then ["username"; "display_name"; "avatar url"] else []))
        [] [] [] "t1".

End scenario.


(** * Verification *)

(** * The monad *)

Lemma world_eta (w : world) :
  World (connected_user w) (store w) (database w) (emitted w) (sio_rooms w) (closed w) (now w)
  = w.
Proof. by destruct w. Qed.

Lemma bind_ok {A B : Type} (m : io A) (f : A → io B) (w w' : world) (a : A) :
  m w = (Ok a, w') → (m ≫= f) w = f a w'.
Proof. intros H. unfold mbind, io_bind. by rewrite H. Qed.

Lemma bind_raise {A B : Type} (m : io A) (f : A → io B) (w w' : world) (e : exn) :
  m w = (Raise e, w') → (m ≫= f) w = (Raise e, w').
Proof. intros H. unfold mbind, io_bind. by rewrite H. Qed.

Ltac io_unfold :=
  unfold try_except, mbind, io_bind, mret, io_ret, raise, lift_result, get_world,
    update_store, read_store, with_store, with_store_result, set_connected_user.

(** * The store's commands *)

Lemma setex_ok (key v : string) (ttl : Z) (r : redis_store) :
  (0 < ttl)%Z → redis.setex key ttl v r = Ok (set_strings <[key := (v, Some ttl)]> r).
Proof. intros H. unfold redis.setex. by rewrite bool_decide_eq_true_2. Qed.

Lemma setex_refused (key v : string) (ttl : Z) (r : redis_store) :
  (ttl ≤ 0)%Z → redis.setex key ttl v r = Raise redis.invalid_expire.
Proof. intros H. unfold redis.setex. rewrite bool_decide_eq_false_2; [done | lia]. Qed.

Lemma setex_int_ok (key : string) (ttl v : Z) (r : redis_store) :
  (0 < ttl)%Z → redis.setex_int key ttl v r = Ok (set_counters <[key := (v, Some ttl)]> r).
Proof. intros H. unfold redis.setex_int. by rewrite bool_decide_eq_true_2. Qed.

Lemma setex_int_refused (key : string) (ttl v : Z) (r : redis_store) :
  (ttl ≤ 0)%Z → redis.setex_int key ttl v r = Raise redis.invalid_expire.
Proof. intros H. unfold redis.setex_int. rewrite bool_decide_eq_false_2; [done | lia]. Qed.

Lemma expire_positive (key : string) (ttl : Z) (r : redis_store) :
  (0 < ttl)%Z →
  redis.expire key ttl r
  = Redis (alter (λ e, (e.1, Some ttl)) key (r_strings r))
          (alter (λ e, (e.1, Some ttl)) key (r_counters r))
          (alter (λ e, (e.1, Some ttl)) key (r_lists r))
          (alter (λ e, (e.1, Some ttl)) key (r_sets r)).
Proof. intros H. unfold redis.expire. by rewrite bool_decide_eq_true_2. Qed.

Lemma expire_nonpositive (key : string) (ttl : Z) (r : redis_store) :
  (ttl ≤ 0)%Z → redis.expire key ttl r = redis.delete key r.
Proof. intros H. unfold redis.expire. rewrite bool_decide_eq_false_2; [done | lia]. Qed.

Lemma set_user_online_writes (user_id status : string) (r : redis_store) :
  RedisClient.set_user_online user_id status r
  = set_strings <["presence:" +:+ user_id := (status, Some 300%Z)]> r.
Proof. reflexivity. Qed.

(** * Offline queue *)

Lemma lrange_all_queue_message (retention : Z) (user_id : string) (m : pydict)
    (r : redis_store) :
  (0 < retention)%Z →
  redis.lrange_all ("queue:" +:+ user_id) (RedisClient.queue_message retention user_id m r)
  = m :: redis.lrange_all ("queue:" +:+ user_id) r.
Proof.
  intros Hpos. unfold RedisClient.queue_message. rewrite expire_positive by done.
  unfold redis.lrange_all, redis.lpush.
  destruct (r_lists r !! ("queue:" +:+ user_id)) as [[l ttl]|] eqn:Hq; simpl;
    rewrite lookup_alter_eq, lookup_insert_eq; done.
Qed.

Lemma lrange_all_delete (key : string) (r : redis_store) :
  redis.lrange_all key (redis.delete key r) = [].
Proof. unfold redis.lrange_all, redis.delete. simpl. by rewrite lookup_delete_eq. Qed.

Lemma exists_delete (key : string) (r : redis_store) :
  redis.exists_ key (redis.delete key r) = false.
Proof.
  unfold redis.exists_, redis.delete. simpl. rewrite !lookup_delete_eq.
  rewrite !bool_decide_eq_false_2; [done | by intros [? ?] ..].
Qed.

Lemma for_each_emit_message (sid : string) (l : list pydict) : ∀ w : world,
  for_each l (λ msg, sio.emit "message" msg (Some (VStr sid)) None) w
  = (Ok tt, put_emitted (emitted w ++ (message_to sid <$> l)) w).
Proof.
  induction l as [|m l IH]; intros w; simpl.
  - unfold mret, io_ret, put_emitted. rewrite app_nil_r. by rewrite world_eta.
  - unfold mbind, io_bind, sio.emit at 1. rewrite IH. unfold put_emitted. simpl.
    by rewrite <- app_assoc.
Qed.

(** The drain block taken alone is full-and-delete. *)
Lemma connect_drain_full_and_delete (sid user_id : string) (w : world) :
  connect_drain sid user_id w
  = (Ok tt,
     put_emitted (emitted w ++ (message_to sid <$> redis.lrange_all ("queue:" +:+ user_id) (store w)))
       (put_store (redis.delete ("queue:" +:+ user_id) (store w)) w)).
Proof.
  unfold connect_drain. io_unfold. unfold RedisClient.get_queued_messages.
  destruct (redis.lrange_all ("queue:" +:+ user_id) (store w)) as [|m l] eqn:Hq.
  - simpl. unfold put_emitted, put_store. simpl. by rewrite app_nil_r.
  - rewrite for_each_emit_message. done.
Qed.

Lemma connect_drain_empties_queue (sid user_id : string) (w : world) :
  let w' := (connect_drain sid user_id w).2 in
  redis.lrange_all ("queue:" +:+ user_id) (store w') = []
  ∧ redis.exists_ ("queue:" +:+ user_id) (store w') = false.
Proof.
  cbv zeta. rewrite connect_drain_full_and_delete. simpl.
  split; [apply lrange_all_delete | apply exists_delete].
Qed.

(** With a retention of zero or less the EXPIRE that follows the push deletes
    the list, older envelopes included. *)
Lemma queue_message_without_retention (retention : Z) (user_id : string) (m : pydict)
    (r : redis_store) :
  (retention ≤ 0)%Z →
  redis.lrange_all ("queue:" +:+ user_id) (RedisClient.queue_message retention user_id m r) = []
  ∧ redis.exists_ ("queue:" +:+ user_id) (RedisClient.queue_message retention user_id m r)
    = false.
Proof.
  intros H. unfold RedisClient.queue_message. rewrite expire_nonpositive by done.
  split; [apply lrange_all_delete | apply exists_delete].
Qed.

(** * Rate limiter *)

Section rate_limit.

Variables (user_id : string) (limit window : Z).

Local Abbreviation key := ("ratelimit:" +:+ user_id).

Lemma check_rate_limit_absent (r : redis_store) :
  r_counters r !! key = None → (0 < window)%Z →
  RedisClient.check_rate_limit user_id limit window r
  = (Ok true, set_counters <[key := (1%Z, Some window)]> r).
Proof.
  intros Hk Hw. unfold RedisClient.check_rate_limit, RedisClient.rate_limit_decide,
    redis.get_int. rewrite Hk. cbn [fmap option_fmap option_map].
  by rewrite setex_int_ok.
Qed.

Lemma check_rate_limit_refused (r : redis_store) :
  r_counters r !! key = None → (window ≤ 0)%Z →
  RedisClient.check_rate_limit user_id limit window r = (Raise redis.invalid_expire, r).
Proof.
  intros Hk Hw. unfold RedisClient.check_rate_limit, RedisClient.rate_limit_decide,
    redis.get_int. rewrite Hk. cbn [fmap option_fmap option_map].
  by rewrite setex_int_refused.
Qed.

Lemma check_rate_limit_exhausted (r : redis_store) (c : Z) (ttl : option Z) :
  r_counters r !! key = Some (c, ttl) → (limit ≤ c)%Z →
  RedisClient.check_rate_limit user_id limit window r = (Ok false, r).
Proof.
  intros Hk Hc. unfold RedisClient.check_rate_limit, RedisClient.rate_limit_decide,
    redis.get_int. rewrite Hk. simpl.
  destruct (Z.geb_spec c limit); [done | lia].
Qed.

Lemma check_rate_limit_increments (r : redis_store) (c : Z) (ttl : option Z) :
  r_counters r !! key = Some (c, ttl) → (c < limit)%Z →
  RedisClient.check_rate_limit user_id limit window r
  = (Ok true, set_counters <[key := ((c + 1)%Z, ttl)]> r).
Proof.
  intros Hk Hc. unfold RedisClient.check_rate_limit, RedisClient.rate_limit_decide,
    redis.get_int, redis.incr.
  rewrite Hk. simpl. destruct (Z.geb_spec c limit); [lia | done].
Qed.

(** With the counter at [c], at most [limit - c] further calls pass. *)
Lemma admitted_from_counter (n : nat) : ∀ (r : redis_store) (c : Z) (ttl : option Z),
  r_counters r !! key = Some (c, ttl) →
  admitted n user_id limit window r ≤ Z.to_nat (limit - c).
Proof.
  induction n as [|n IH]; intros r c ttl Hk; simpl; [lia|].
  destruct (Z_lt_le_dec c limit) as [Hlt | Hge].
  - rewrite (check_rate_limit_increments r c ttl Hk Hlt).
    specialize (IH (set_counters <[key := ((c + 1)%Z, ttl)]> r) (c + 1)%Z ttl).
    simpl in IH. rewrite lookup_insert_eq in IH. specialize (IH eq_refl). lia.
  - rewrite (check_rate_limit_exhausted r c ttl Hk Hge).
    specialize (IH r c ttl Hk). lia.
Qed.

(** A window that SETEX refuses never starts: every check raises. *)
Lemma admitted_refused (n : nat) (r : redis_store) :
  r_counters r !! key = None → (window ≤ 0)%Z →
  admitted n user_id limit window r = 0.
Proof.
  intros Hk Hw. induction n as [|n IH]; simpl; [done|].
  by rewrite (check_rate_limit_refused r Hk Hw).
Qed.

Lemma admitted_fresh_window (n : nat) (r : redis_store) :
  r_counters r !! key = None →
  admitted n user_id limit window r ≤ 1 + Z.to_nat (limit - 1).
Proof.
  intros Hk. destruct (Z_lt_le_dec 0 window) as [Hw | Hw].
  - destruct n as [|n]; simpl; [lia|].
    rewrite (check_rate_limit_absent r Hk Hw).
    pose proof (admitted_from_counter n (set_counters <[key := (1%Z, Some window)]> r)
                  1%Z (Some window)) as IH.
    simpl in IH. rewrite lookup_insert_eq in IH. specialize (IH eq_refl). lia.
  - rewrite (admitted_refused n r Hk Hw). lia.
Qed.

End rate_limit.

(** * Handshake *)

Lemma connect_valid_token_raises (jwt_decode : string → result claims) (sid : string)
    (envrion : list (string * string)) (auth : option auth_dict) (token : string)
    (ud : user_data) (w : world) :
  required (extract_token_from_handshake (default ∅ auth)) = Some token →
  verify_jwt_token jwt_decode token = Some ud →
  connect jwt_decode sid envrion auth w
  = (Raise (TypeError "dump() missing 1 required positional argument: 'fp'"), w).
Proof.
  intros Htok Hver. unfold connect. rewrite Htok, Hver. io_unfold.
  unfold RedisClient.set_user_session, RedisClient.json_dump. simpl.
  by rewrite world_eta.
Qed.

Lemma connect_without_auth_token (jwt_decode : string → result claims) (sid : string)
    (envrion : list (string * string)) (auth : option auth_dict) (w : world) :
  default ∅ auth !! "token" = None →
  default ∅ auth !! "Authorization" = None →
  connect jwt_decode sid envrion auth w
  = (Ok false, World (connected_user w) (store w) (database w) (emitted w) (sio_rooms w)
                     (closed w ++ [sid]) (now w)).
Proof.
  intros Ht Ha. unfold connect, extract_token_from_handshake. rewrite Ht, Ha. done.
Qed.

(** The two ways a handshake ends. *)
Lemma connect_outcome (jwt_decode : string → result claims) (sid : string)
    (envrion : list (string * string)) (auth : option auth_dict) (w : world) :
  connect jwt_decode sid envrion auth w
  = (Ok false, World (connected_user w) (store w) (database w) (emitted w) (sio_rooms w)
                     (closed w ++ [sid]) (now w))
  ∨ connect jwt_decode sid envrion auth w
    = (Raise (TypeError "dump() missing 1 required positional argument: 'fp'"), w).
Proof.
  destruct (required (extract_token_from_handshake (default ∅ auth))) as [token|] eqn:Htok.
  - destruct (verify_jwt_token jwt_decode token) as [ud|] eqn:Hver.
    + right. by eapply connect_valid_token_raises.
    + left. unfold connect. by rewrite Htok, Hver.
  - left. unfold connect. by rewrite Htok.
Qed.

(** Whatever the handshake carries, [connect] emits nothing and leaves the
    ephemeral store alone. *)
Lemma connect_emits_nothing (jwt_decode : string → result claims) (sid : string)
    (envrion : list (string * string)) (auth : option auth_dict) (w : world) :
  (connect jwt_decode sid envrion auth w).1 ≠ Ok true
  ∧ emitted (connect jwt_decode sid envrion auth w).2 = emitted w
  ∧ store (connect jwt_decode sid envrion auth w).2 = store w.
Proof.
  destruct (required (extract_token_from_handshake (default ∅ auth))) as [token|] eqn:Htok.
  - destruct (verify_jwt_token jwt_decode token) as [ud|] eqn:Hver.
    + rewrite (connect_valid_token_raises _ _ _ _ _ _ _ Htok Hver). by split_and!.
    + unfold connect. rewrite Htok, Hver. by split_and!.
  - unfold connect. rewrite Htok. by split_and!.
Qed.

(** Claim C10.  With a positive retention, [queue_message] pushes at the head
    of [queue:{user_id}]: after queueing [m1] and then [m2] the list reads
    [m2; m1; ...older], and [get_queued_messages] returns it in that order and
    deletes it.  The handshake does not deliver it: whatever the handshake
    carries, [connect] never returns [True], emits nothing and leaves the
    queue as it was.  With a retention of zero or less the queue does not
    even hold the envelope: the EXPIRE after the push deletes the list. *)
Theorem offline_queue_newest_first (jwt_decode : string → result claims) (retention : Z)
    (sid user_id : string) (envrion : list (string * string)) (auth : option auth_dict)
    (m1 m2 : pydict) (w : world) :
  let key := "queue:" +:+ user_id in
  let r1 := RedisClient.queue_message retention user_id m1 (store w) in
  let r2 := RedisClient.queue_message retention user_id m2 r1 in
  let res := connect jwt_decode sid envrion auth (put_store r2 w) in
  ((0 < retention)%Z →
   redis.lrange_all key r1 = m1 :: redis.lrange_all key (store w)
   ∧ redis.lrange_all key r2 = m2 :: m1 :: redis.lrange_all key (store w)
   ∧ (RedisClient.get_queued_messages user_id r2).1
     = m2 :: m1 :: redis.lrange_all key (store w)
   ∧ redis.lrange_all key (RedisClient.get_queued_messages user_id r2).2 = []
   ∧ redis.lrange_all key (store res.2) = m2 :: m1 :: redis.lrange_all key (store w))
  ∧ ((retention ≤ 0)%Z → redis.lrange_all key r1 = [] ∧ redis.lrange_all key r2 = [])
  ∧ res.1 ≠ Ok true
  ∧ emitted res.2 = emitted w
  ∧ store res.2 = r2.
Proof.
  cbv zeta.
  destruct (connect_emits_nothing jwt_decode sid envrion auth
              (put_store (RedisClient.queue_message retention user_id m2
                            (RedisClient.queue_message retention user_id m1 (store w))) w))
    as (Hres & Hemit & Hstore).
  split_and!; try done.
  - intros Hpos. rewrite Hstore. cbn [store put_store].
    unfold RedisClient.get_queued_messages. cbn [fst snd].
    rewrite !lrange_all_queue_message by done.
    split_and!; try done. apply lrange_all_delete.
  - intros Hle. split; by apply queue_message_without_retention.
Qed.

Lemma offline_queue_newest_first_witness :
  let r2 := RedisClient.queue_message 86400 "alice" scenario.E2
              (RedisClient.queue_message 86400 "alice" scenario.E1 redis_empty) in
  let res := connect scenario.jwt_decode "s9" [] (Some {[ "token" := "good" ]})
               (put_store r2 scenario.handshake) in
  (RedisClient.get_queued_messages "alice" r2).1 = [scenario.E2; scenario.E1]
  ∧ emitted res.2 = []
  ∧ redis.lrange_all "queue:alice" (store res.2) = [scenario.E2; scenario.E1]
  ∧ redis.lrange_all "queue:alice"
      (RedisClient.queue_message 0 "alice" scenario.E1 redis_empty) = [].
Proof.
  cbv zeta.
  destruct (offline_queue_newest_first scenario.jwt_decode 86400 "s9" "alice" []
              (Some {[ "token" := "good" ]}) scenario.E1 scenario.E2
              (put_store redis_empty scenario.handshake))
    as (Hpos & _ & _ & Hemit & _).
  destruct (Hpos ltac:(lia)) as (_ & _ & Hget & _ & Hleft).
  destruct (offline_queue_newest_first scenario.jwt_decode 0 "s9" "alice" []
              (Some {[ "token" := "good" ]}) scenario.E1 scenario.E2
              (put_store redis_empty scenario.handshake))
    as (_ & Hzero & _).
  destruct (Hzero ltac:(lia)) as [Hgone _].
  split_and!; [exact Hget | exact Hemit | exact Hleft | exact Hgone].
Defined.

(** Claim C3, evaluated on scenario 1.  The token is valid and [queue:alice]
    holds [E1; E2], yet [connect] raises in [set_user_session] before the user
    is registered and before the drain: the world, queue included, is
    unchanged and nothing has been emitted. *)
Example connect_valid_token_never_drains :
  verify_jwt_token scenario.jwt_decode "good"
  = Some (UserData "alice" (Some "alice@example.org") None
            {[ "sub" := "alice"; "email" := "alice@example.org" ]})
  ∧ redis.lrange_all "queue:alice" (store scenario.handshake) = [scenario.E1; scenario.E2]
  ∧ connect scenario.jwt_decode "s9" [] (Some {[ "token" := "good" ]}) scenario.handshake
    = (Raise (TypeError "dump() missing 1 required positional argument: 'fp'"),
       scenario.handshake).
Proof.
  split_and!; [reflexivity | reflexivity |].
  by apply connect_valid_token_raises with
    (token := "good")
    (ud := UserData "alice" (Some "alice@example.org") None
             {[ "sub" := "alice"; "email" := "alice@example.org" ]}).
Qed.

(** Claim C7.  The token is taken from the auth object's [token] field, else
    from its [Authorization] entry when it starts with [Bearer ]; the query
    string is never consulted: a handshake whose only carrier is a [token]
    query parameter, with a valid token, is refused and the socket
    disconnected. *)
Example connect_ignores_query_token :
  is_Some (verify_jwt_token scenario.jwt_decode "good")
  ∧ (∀ t : string, extract_token_from_handshake {[ "token" := t ]} = Some t)
  ∧ extract_token_from_handshake {[ "Authorization" := "Bearer good" ]} = Some "good"
  ∧ connect scenario.jwt_decode "s9" [("QUERY_STRING", "token=good")] None scenario.handshake
    = (Ok false,
       World (connected_user scenario.handshake) (store scenario.handshake)
             (database scenario.handshake) [] [] ["s9"] (now scenario.handshake)).
Proof.
  split_and!.
  - by eexists.
  - intros t. unfold extract_token_from_handshake. by rewrite lookup_singleton_eq.
  - reflexivity.
  - by rewrite connect_without_auth_token.
Qed.

(** * Disconnect *)

Lemma disconnect_registered_raises (sid uid : string) (sockets : list string) (w : world) :
  List.find (λ p : string * list string, bool_decide (sid ∈ p.2)) (connected_user w)
  = Some (uid, sockets) →
  disconnect sid w = (Raise (AttributeError "'list' object has no attribute 'romove'"), w).
Proof. intros Hf. unfold disconnect. io_unfold. by rewrite Hf. Qed.

Lemma disconnect_unknown (sid : string) (w : world) :
  List.find (λ p : string * list string, bool_decide (sid ∈ p.2)) (connected_user w) = None →
  disconnect sid w = (Ok tt, w).
Proof. intros Hf. unfold disconnect. io_unfold. by rewrite Hf. Qed.

(** Claim C9, evaluated on the last connection of a user.  [disconnect]
    raises on [sockets.romove] as soon as it has found the socket: the socket
    stays in the registry, its session mirror key and the presence key stay in
    the store, and no [user_offline] event is emitted. *)
Example disconnect_last_connection_raises :
  _get_user_id_from_sid "c1" scenario.one_connection = (Ok (Some "carol"), scenario.one_connection)
  ∧ disconnect "c1" scenario.one_connection
    = (Raise (AttributeError "'list' object has no attribute 'romove'"),
       scenario.one_connection)
  ∧ connected_user scenario.one_connection = [("carol", ["c1"])]
  ∧ redis.exists_ "session:carol:c1" (store scenario.one_connection) = true
  ∧ RedisClient.is_user_online "carol" (store scenario.one_connection) = true.
Proof.
  split_and!; [reflexivity | | reflexivity ..].
  by apply disconnect_registered_raises with (uid := "carol") (sockets := ["c1"]).
Qed.

(** * Notifications *)

Lemma create_notification_inert (user_id title : string) (body : pyval)
    (notification_type : string) (reference_id : pyval) (w : world) :
  NotificaitonService.create_notification user_id title body notification_type reference_id w
  = (Ok None, w).
Proof. reflexivity. Qed.

Lemma for_each_preserves {A : Type} (P : world → Prop) (body : A → io unit) (l : list A) :
  (∀ x w, P w → P (body x w).2) → ∀ w, P w → P (for_each l body w).2.
Proof.
  intros Hbody. induction l as [|x l IH]; intros w Hw; simpl; [done|].
  unfold mbind, io_bind. specialize (Hbody x w Hw).
  destruct (body x w) as [[[]|e] w']; simpl in *; auto.
Qed.

Lemma execute_select_tables (t : string) (cols : list string) (fs : list filter_clause)
    (w : world) :
  tables (database (execute (Builder t (Select cols) fs) w).2) = tables (database w).
Proof.
  unfold execute, pg.execute. simpl. destruct (tables (database w) !! t); [|done].
  by destruct (pg.selectable (database w) t cols).
Qed.

(** The offline path never writes to a table of the durable store. *)
Lemma notify_offline_members_tables (settings : Settings) (room_id sender_id : string)
    (message : row) (w : world) :
  tables (database (_notify_offline_members settings room_id sender_id message w).2)
  = tables (database w).
Proof.
  unfold _notify_offline_members, try_except, mbind at 1, io_bind at 1.
  pose proof (execute_select_tables "room_members" ["user_id"]
                [Feq "room_id" (VStr room_id); Fneq "user_id" (VStr sender_id)] w) as Hsel.
  change (pg.table "room_members" .> pg.select ["user_id"]
          .> pg.eq "room_id" (VStr room_id) .> pg.neq "user_id" (VStr sender_id))
    with (Builder "room_members" (Select ["user_id"])
            [Feq "room_id" (VStr room_id); Fneq "user_id" (VStr sender_id)]).
  destruct (execute _ w) as [[members|e] w1]; simpl in Hsel; [|done].
  match goal with |- context [for_each members ?b w1] =>
    pose proof (for_each_preserves (λ w', tables (database w') = tables (database w))
                  b members) as Hloop end.
  lapply Hloop.
  - intros H. specialize (H w1 Hsel).
    match goal with |- context [for_each members ?b w1] =>
      destruct (for_each members b w1) as [[[]|e] w2] end; done.
  - intros member w' Hw'. io_unfold.
    destruct (getitem_str member "user_id") as [mid|e]; simpl; [|done].
    destruct (RedisClient.is_user_online mid (store w')); simpl; [done|].
    destruct (getitem message "id"); simpl; done.
Qed.

(** Claim C2, evaluated on scenario 4 (Eve online, Frank offline).  Run on
    a message of Eve, the offline path appends the envelope to [queue:frank]
    but sends no insert to the durable store: the [notifications] table stays
    empty.  Run through [send_message], the service reports failure after the
    insert (the profile lookup raises), so the handler answers with an error
    and the offline path is not entered at all.  A message whose [content] is
    null yields a null body, not the placeholder. *)
Example notify_offline_members_inserts_no_notification :
  let m := scenario.message "m7" "R" "eve" "hello" in
  let w1 := (_notify_offline_members default_settings "R" "eve" m scenario.eve_and_frank).2 in
  let w2 := (send_message default_settings "s1" {[ "room_id" := "R"; "content" := "hello" ]}
               scenario.eve_and_frank).2 in
  RedisClient.is_user_online "frank" (store scenario.eve_and_frank) = false
  ∧ redis.lrange_all "queue:frank" (store w1) = [m]
  ∧ tables (database w1) !! "notifications" = Some []
  ∧ requests (database w1)
    = [Builder "room_members" (Select ["user_id"])
         [Feq "room_id" (VStr "R"); Fneq "user_id" (VStr "eve")]]
  ∧ emitted w1 = []
  ∧ emitted w2 = [error_to "s1" "Failed to save message"]
  ∧ redis.lrange_all "queue:frank" (store w2) = []
  ∧ tables (database w2) !! "notifications" = Some []
  ∧ dict_get_default (<["content" := VNone]> m) "content" (VStr "Arquivo") = VNone.
Proof.
  cbv zeta. split_and!.
  - reflexivity.
  - vm_compute. reflexivity.
  - by rewrite notify_offline_members_tables.
  - vm_compute. reflexivity.
  - vm_compute. reflexivity.
  - vm_compute. reflexivity.
  - vm_compute. reflexivity.
  - vm_compute. reflexivity.
  - reflexivity.
Qed.

(** * Validation of payloads *)

Lemma emit_error_spec (sid message : string) (w : world) :
  emit_error sid message w = (Ok tt, emitting (error_to sid message) w).
Proof. reflexivity. Qed.

Lemma get_user_id_from_sid_spec (sid : string) (w : world) :
  _get_user_id_from_sid sid w
  = (Ok (fst <$> List.find (λ p : string * list string, bool_decide (sid ∈ p.2))
                   (connected_user w)), w).
Proof. reflexivity. Qed.

Lemma presence_update_status_frame (user_id status : string) (w : world) :
  ∃ (b : bool) (r : redis_store) (d : db_state),
    PresenceService.update_status user_id status w = (Ok b, put_database d (put_store r w)).
Proof.
  unfold PresenceService.update_status. io_unfold.
  destruct (PresenceService.valid_status status); simpl.
  - destruct (bool_decide (status = "offline")); simpl; unfold execute; simpl;
      match goal with |- context [pg.execute ?b ?d] =>
        destruct (pg.execute b d) as [[rows|e] d'] end;
      simpl; eexists _, _, _; reflexivity.
  - exists false, (store w), (database w). unfold put_database, put_store. simpl.
    by rewrite world_eta.
Qed.

Lemma update_status_default (sid : string) (data : event_data) (w : world) :
  data !! "status" = None →
  update_status sid data w = update_status sid (<["status" := "online"]> data) w.
Proof. intros H. unfold update_status. by rewrite lookup_insert_eq, H. Qed.

Lemma update_status_default_effects (sid : string) (data : event_data) (w : world) :
  data !! "status" = None →
  closed (update_status sid data w).2 = closed w
  ∧ ∀ e, e ∈ emitted (update_status sid data w).2 →
         e ∈ emitted w ∨ ev e = "user_status_changed".
Proof.
  intros H. unfold update_status. rewrite H. simpl. unfold try_except.
  erewrite bind_ok by apply get_user_id_from_sid_spec.
  destruct (required _) as [user_id|]; simpl; [|by auto].
  destruct (presence_update_status_frame user_id "online" w) as (b & r & d & Hp).
  erewrite bind_ok by exact Hp.
  simpl. split; [done|]. intros e [He | He]%elem_of_app; [by left | right].
  apply list_elem_of_singleton in He. by subst e.
Qed.

(** Claim C8, amended.  On a payload without [room_id], [join_room] and
    [send_message] emit [error{room_id required}] to the originating socket,
    while [leave_room], [typing_start] and [typing_stop] return without
    emitting anything and without any effect.  [edit_message] without
    [message_id] or without [content], and [delete_message] without
    [message_id], emit their error to the originating socket.  [update_status]
    without [status] behaves as with status [online] and emits no error.  No
    handler closes the connection. *)
Theorem missing_field_handling (settings : Settings) (sid : string) (data : event_data)
    (w : world) :
  (required (data !! "room_id") = None →
     join_room sid data w = (Ok tt, emitting (error_to sid "room_id required") w)
     ∧ send_message settings sid data w
       = (Ok tt, emitting (error_to sid "room_id required") w)
     ∧ leave_room sid data w = (Ok tt, w)
     ∧ typing_start settings sid data w = (Ok tt, w)
     ∧ typing_stop sid data w = (Ok tt, w))
  ∧ (required (data !! "message_id") = None →
     edit_message sid data w
     = (Ok tt, emitting (error_to sid "message_id and content required") w)
     ∧ delete_message sid data w = (Ok tt, emitting (error_to sid "message_id required") w))
  ∧ (required (data !! "content") = None →
     edit_message sid data w
     = (Ok tt, emitting (error_to sid "message_id and content required") w))
  ∧ (data !! "status" = None →
     update_status sid data w = update_status sid (<["status" := "online"]> data) w
     ∧ closed (update_status sid data w).2 = closed w
     ∧ ∀ e, e ∈ emitted (update_status sid data w).2 →
            e ∈ emitted w ∨ ev e = "user_status_changed").
Proof.
  split_and!.
  - intros H. unfold join_room, send_message, leave_room, typing_start, typing_stop.
    rewrite H. done.
  - intros H. unfold edit_message, delete_message. rewrite H. done.
  - intros H. unfold edit_message. rewrite H. by destruct (required (data !! "message_id")).
  - intros H. split; [by apply update_status_default|].
    by apply update_status_default_effects.
Qed.

Lemma missing_field_handling_witness :
  leave_room "s1" ∅ scenario.eve_and_frank = (Ok tt, scenario.eve_and_frank)
  ∧ join_room "s1" ∅ scenario.eve_and_frank
    = (Ok tt, emitting (error_to "s1" "room_id required") scenario.eve_and_frank)
  ∧ delete_message "s1" ∅ scenario.eve_and_frank
    = (Ok tt, emitting (error_to "s1" "message_id required") scenario.eve_and_frank)
  ∧ edit_message "s1" {[ "message_id" := "M" ]} scenario.eve_and_frank
    = (Ok tt, emitting (error_to "s1" "message_id and content required")
                scenario.eve_and_frank)
  ∧ closed (update_status "s1" ∅ scenario.eve_and_frank).2 = [].
Proof.
  destruct (missing_field_handling default_settings "s1" ∅ scenario.eve_and_frank)
    as (Hroom & Hmsg & _ & Hstatus).
  destruct (missing_field_handling default_settings "s1" {[ "message_id" := "M" ]}
              scenario.eve_and_frank) as (_ & _ & Hcontent & _).
  destruct (Hroom eq_refl) as (Hjoin & _ & Hleave & _).
  destruct (Hmsg eq_refl) as (_ & Hdel).
  destruct (Hstatus eq_refl) as (_ & Hclosed & _).
  split_and!; [exact Hleave | exact Hjoin | exact Hdel | exact (Hcontent eq_refl) | exact Hclosed].
Defined.

(** [leave_room], [typing_start] and [typing_stop] without [room_id], and
    [update_status] without [status], emit no [error] event. *)
Lemma silent_handlers_emit_no_error :
  required ((∅ : event_data) !! "room_id") = None
  ∧ emitted (leave_room "s1" ∅ scenario.eve_and_frank).2 = []
  ∧ emitted (typing_start default_settings "s1" ∅ scenario.eve_and_frank).2 = []
  ∧ emitted (typing_stop "s1" ∅ scenario.eve_and_frank).2 = []
  ∧ emitted (update_status "s1" ∅ scenario.eve_and_frank).2
    = [Emit "user_status_changed" {[ "user_id" := VStr "eve"; "status" := VStr "online" ]}
         None (Some "s1")].
Proof. split_and!; vm_compute; reflexivity. Qed.

(** * Room membership *)

Lemma project_user_id (r : row) :
  pg.project ["user_id"] r !! "user_id" = r !! "user_id".
Proof.
  unfold pg.project. rewrite bool_decide_eq_false_2 by (by intros ?%list_elem_of_singleton).
  destruct (r !! "user_id") as [v|] eqn:Hr.
  - apply map_lookup_filter_Some. split; [done|]. simpl. by apply list_elem_of_singleton.
  - apply map_lookup_filter_None. by left.
Qed.

Lemma nonempty_filter_existsb {A B : Type} (f : A → B) (p : A → bool) (l : list A) :
  bool_decide (0 < length (f <$> List.filter p l)) = existsb p l.
Proof.
  induction l as [|x l IH]; simpl; [done|].
  destruct (p x); simpl; done.
Qed.

Lemma collect_member_ids (room_id : string) (rows : list row) :
  user_ids_are_strings rows →
  collect_str (pg.project ["user_id"]
                 <$> List.filter (pg.selected [Feq "room_id" (VStr room_id)]) rows) "user_id"
  = Ok (repo_members rows room_id).
Proof.
  unfold user_ids_are_strings, repo_members.
  induction 1 as [|r rows [s Hs] _ IH]; [done|].
  cbn [List.filter omap list_omap].
  destruct (pg.selected [Feq "room_id" (VStr room_id)] r) eqn:Hsel; [|done].
  rewrite Hs, fmap_cons. cbn [collect_str].
  unfold getitem_str. rewrite project_user_id, Hs.
  by rewrite IH.
Qed.

Lemma execute_select (b : builder) (cols : list string) (rows : list row) (w : world) :
  b_verb b = Select cols →
  tables (database w) !! b_table b = Some rows →
  pg.selectable (database w) (b_table b) cols = true →
  execute b w
  = (Ok (pg.project cols <$> List.filter (pg.selected (b_filters b)) rows), requesting b w).
Proof. intros Hv Ht Hs. unfold execute, pg.execute. by rewrite Ht, Hv, Hs. Qed.

Lemma execute_select_refused (b : builder) (cols : list string) (rows : list row) (w : world) :
  b_verb b = Select cols →
  tables (database w) !! b_table b = Some rows →
  pg.selectable (database w) (b_table b) cols = false →
  execute b w = (Raise (APIError "column does not exist"), requesting b w).
Proof. intros Hv Ht Hs. unfold execute, pg.execute. by rewrite Ht, Hv, Hs. Qed.

Lemma check_room_membership_hit (user_id room_id m : string) (ms : list string) (w : world) :
  RedisClient.get_cached_room_members room_id (store w) = Some (m :: ms) →
  _check_room_membership user_id room_id w = (Ok (bool_decide (user_id ∈ m :: ms)), w).
Proof.
  intros Hc. unfold _check_room_membership. io_unfold. rewrite Hc. simpl.
  by rewrite world_eta.
Qed.

Lemma check_room_membership_miss (user_id room_id : string) (rows : list row) (w : world) :
  default [] (RedisClient.get_cached_room_members room_id (store w)) = [] →
  tables (database w) !! "room_members" = Some rows →
  user_ids_are_strings rows →
  _check_room_membership user_id room_id w
  = if repo_is_member rows room_id user_id
    then (Ok true,
          put_store (RedisClient.cache_room_members room_id (repo_members rows room_id) 300
                       (store w))
            (requesting (Builder "room_members" (Select ["user_id"])
                           [Feq "room_id" (VStr room_id)])
               (requesting (Builder "room_members" (Select ["user_id"])
                              [Feq "room_id" (VStr room_id); Feq "user_id" (VStr user_id)])
                  w)))
    else (Ok false,
          requesting (Builder "room_members" (Select ["user_id"])
                        [Feq "room_id" (VStr room_id); Feq "user_id" (VStr user_id)]) w).
Proof.
  intros Hc Hrows Hstr. unfold _check_room_membership, try_except.
  erewrite bind_ok by (unfold read_store, with_store; simpl; by rewrite world_eta).
  assert (Hmiss : ∀ (x : string → list string → io bool) (y : io bool),
    match RedisClient.get_cached_room_members room_id (store w) with
    | Some (m :: ms) => x m ms
    | _ => y
    end = y).
  { intros x y. destruct (RedisClient.get_cached_room_members _ _) as [[|]|]; done. }
  rewrite Hmiss. clear Hmiss.
  erewrite bind_ok by (by eapply execute_select).
  cbn [b_filters pg.eq pg.select app]. rewrite nonempty_filter_existsb.
  change (existsb _ rows) with (repo_is_member rows room_id user_id).
  destruct (repo_is_member rows room_id user_id); [|reflexivity].
  erewrite bind_ok; [reflexivity|].
  erewrite bind_ok by (by eapply execute_select).
  cbn [b_filters pg.eq pg.select app].
  unfold lift_result. erewrite bind_ok by (by rewrite (collect_member_ids room_id rows Hstr)).
  reflexivity.
Qed.

(** Claim C1, amended.  When a non-empty cached member set exists, the check
    answers from the cache alone, whether or not it lists the user: no request
    reaches the repository and neither store changes.  On a miss (no cached
    set, or an empty one) the repository is read and its verdict returned; when
    the verdict is positive the member list is read too and the cache rebuilt
    from it, otherwise the cache is left as it was. *)
Theorem check_room_membership_cache_first (user_id room_id : string) (w : world) :
  (∀ m ms,
     RedisClient.get_cached_room_members room_id (store w) = Some (m :: ms) →
     _check_room_membership user_id room_id w = (Ok (bool_decide (user_id ∈ m :: ms)), w))
  ∧ (∀ rows,
     default [] (RedisClient.get_cached_room_members room_id (store w)) = [] →
     tables (database w) !! "room_members" = Some rows →
     user_ids_are_strings rows →
     _check_room_membership user_id room_id w
     = if repo_is_member rows room_id user_id
       then (Ok true,
             put_store (RedisClient.cache_room_members room_id (repo_members rows room_id) 300
                          (store w))
               (requesting (Builder "room_members" (Select ["user_id"])
                              [Feq "room_id" (VStr room_id)])
                  (requesting (Builder "room_members" (Select ["user_id"])
                                 [Feq "room_id" (VStr room_id); Feq "user_id" (VStr user_id)])
                     w)))
       else (Ok false,
             requesting (Builder "room_members" (Select ["user_id"])
                           [Feq "room_id" (VStr room_id); Feq "user_id" (VStr user_id)]) w)).
Proof.
  split.
  - intros m ms. apply check_room_membership_hit.
  - intros rows. apply check_room_membership_miss.
Qed.

Lemma check_room_membership_cache_first_witness :
  _check_room_membership "bob" "R" scenario.stale_cache = (Ok true, scenario.stale_cache)
  ∧ _check_room_membership "eve" "R" scenario.eve_and_frank
    = (Ok true,
       put_store (RedisClient.cache_room_members "R" ["eve"; "frank"] 300
                    (store scenario.eve_and_frank))
         (requesting (Builder "room_members" (Select ["user_id"]) [Feq "room_id" (VStr "R")])
            (requesting (Builder "room_members" (Select ["user_id"])
                           [Feq "room_id" (VStr "R"); Feq "user_id" (VStr "eve")])
               scenario.eve_and_frank)))
  ∧ _check_room_membership "zoe" "R" scenario.eve_and_frank
    = (Ok false,
       requesting (Builder "room_members" (Select ["user_id"])
                     [Feq "room_id" (VStr "R"); Feq "user_id" (VStr "zoe")])
         scenario.eve_and_frank).
Proof.
  split_and!.
  - destruct (check_room_membership_cache_first "bob" "R" scenario.stale_cache) as [Hhit _].
    apply (Hhit "bob" []). reflexivity.
  - destruct (check_room_membership_cache_first "eve" "R" scenario.eve_and_frank)
      as [_ Hmiss].
    rewrite (Hmiss [scenario.member "R" "eve"; scenario.member "R" "frank"]);
      [reflexivity | reflexivity | reflexivity |].
    repeat constructor; eexists; reflexivity.
  - destruct (check_room_membership_cache_first "zoe" "R" scenario.eve_and_frank)
      as [_ Hmiss].
    rewrite (Hmiss [scenario.member "R" "eve"; scenario.member "R" "frank"]);
      [reflexivity | reflexivity | reflexivity |].
    repeat constructor; eexists; reflexivity.
Defined.

(** The cached set of room [R] is {bob}, the repository's member list is
    {alice}: the cache is believed both ways and the repository is not read;
    [join_room] turns Alice away. *)
Lemma stale_cache_is_trusted :
  tables (database scenario.stale_cache) !! "room_members" = Some [scenario.member "R" "alice"]
  ∧ RedisClient.get_cached_room_members "R" (store scenario.stale_cache) = Some ["bob"]
  ∧ repo_is_member [scenario.member "R" "alice"] "R" "alice" = true
  ∧ _check_room_membership "alice" "R" scenario.stale_cache = (Ok false, scenario.stale_cache)
  ∧ repo_is_member [scenario.member "R" "alice"] "R" "bob" = false
  ∧ _check_room_membership "bob" "R" scenario.stale_cache = (Ok true, scenario.stale_cache)
  ∧ requests (database scenario.stale_cache) = []
  ∧ emitted (join_room "sa" {[ "room_id" := "R" ]} scenario.stale_cache).2
    = [error_to "sa" "Not a member of this room"].
Proof. split_and!; vm_compute; reflexivity. Qed.

(** * Editing and deleting messages *)

Lemma matches_eq_str (r : row) (col s : string) :
  pg.matches r (Feq col (VStr s)) = true ↔ r !! col = Some (VStr s).
Proof.
  unfold pg.matches. destruct (r !! col) as [x|]; [|by split].
  split.
  - intros [H1 _]%andb_true_iff. apply bool_decide_eq_true_1 in H1. by subst x.
  - intros [= ->]. by rewrite bool_decide_eq_true_2.
Qed.

Lemma matches_eq_none (r : row) (col : string) :
  pg.matches r (Feq col VNone) = false.
Proof.
  unfold pg.matches. destruct (r !! col) as [x|]; [|done].
  destruct (decide (x = VNone)) as [->|Hx]; [done|].
  by rewrite bool_decide_eq_false_2.
Qed.

Lemma selected_id (r : row) (m : string) :
  pg.selected [Feq "id" (VStr m)] r = true ↔ r !! "id" = Some (VStr m).
Proof.
  unfold pg.selected. cbn [forallb]. rewrite andb_true_r. apply matches_eq_str.
Qed.

Lemma selected_id_sender (r : row) (m : string) (u : option string) :
  pg.selected [Feq "id" (VStr m); Feq "sender_id" (of_opt_str u)] r = true
  ↔ r !! "id" = Some (VStr m) ∧ ∃ h, u = Some h ∧ r !! "sender_id" = Some (VStr h).
Proof.
  unfold pg.selected. cbn [forallb]. rewrite andb_true_r, andb_true_iff, matches_eq_str.
  destruct u as [h|]; cbn [of_opt_str].
  - rewrite matches_eq_str. split.
    + intros [H1 H2]. eauto.
    + intros [H1 (h' & [= <-] & H2)]. done.
  - rewrite matches_eq_none. split.
    + by intros [_ ?].
    + by intros [_ (h' & ? & _)].
Qed.

Lemma filter_nil_of_all_false {A : Type} (p : A → bool) (l : list A) :
  (∀ x, x ∈ l → p x = false) → List.filter p l = [].
Proof.
  induction l as [|x l IH]; intros H; simpl; [done|].
  rewrite (H x) by left. apply IH. intros y Hy. apply H. by right.
Qed.

Lemma filter_head_of_member {A : Type} (p : A → bool) (l : list A) (x : A) :
  x ∈ l → p x = true →
  ∃ y ys, List.filter p l = y :: ys ∧ y ∈ l ∧ p y = true.
Proof.
  intros Hx Hp.
  assert (Hin : In x (List.filter p l)) by (apply filter_In; by rewrite <- list_elem_of_In).
  destruct (List.filter p l) as [|y ys] eqn:Hf; [done|].
  exists y, ys. split; [done|].
  assert (Hy : In y (List.filter p l)) by (rewrite Hf; by left).
  apply filter_In in Hy as [Hy1 Hy2]. by rewrite list_elem_of_In.
Qed.

Lemma execute_update (b : builder) (u : row) (rows : list row) (w : world) :
  b_verb b = Update u →
  tables (database w) !! b_table b = Some rows →
  execute b w
  = (Ok ((λ r, u ∪ r) <$> List.filter (pg.selected (b_filters b)) rows),
     put_database
       (Database (<[b_table b := (λ r : row, if pg.selected (b_filters b) r then u ∪ r else r)
                                   <$> rows]> (tables (database w)))
                 (column_defaults (database w)) (requests (database w) ++ [b])
                 (columns (database w))) w).
Proof. intros Hv Ht. unfold execute, pg.execute. by rewrite Ht, Hv. Qed.

Lemma execute_missing_table (b : builder) (w : world) :
  tables (database w) !! b_table b = None →
  execute b w = (Raise (APIError "relation does not exist"), requesting b w).
Proof. intros Ht. unfold execute, pg.execute. by rewrite Ht. Qed.

Lemma stored_messages_rows (w : world) (r : row) :
  r ∈ stored_messages w →
  ∃ rows, tables (database w) !! "messages" = Some rows ∧ r ∈ rows.
Proof.
  unfold stored_messages. destruct (tables (database w) !! "messages") as [rows|]; simpl.
  - eauto.
  - by intros ?%elem_of_nil.
Qed.

(** [edit] by somebody who does not own the message: nothing is written. *)
Lemma service_edit_not_owner (m : string) (u : option string) (c : string) (w : world) :
  (∀ r, r ∈ stored_messages w → r !! "id" = Some (VStr m) →
        r !! "sender_id" ≠ Some (of_opt_str u)) →
  MessageService.edit_message m u c w
  = (Ok None,
     requesting (Builder "messages" (Select ["*"])
                   [Feq "id" (VStr m); Feq "sender_id" (of_opt_str u)]) w).
Proof.
  intros Hno. unfold MessageService.edit_message, try_except, stored_messages in *.
  destruct (tables (database w) !! "messages") as [rows|] eqn:Hrows.
  - erewrite bind_ok by (by eapply execute_select).
    cbn [b_filters pg.eq pg.select app].
    rewrite filter_nil_of_all_false; [done|].
    intros r Hr. apply not_true_is_false. intros (Hid & h & -> & Hs)%selected_id_sender.
    by apply (Hno r Hr Hid).
  - erewrite bind_raise by (by eapply execute_missing_table). done.
Qed.

(** [edit] by the owner: the first row carrying the id is returned with new
    content, flag and timestamp; no other column changes. *)
Lemma service_edit_owner (m h c : string) (rows : list row) (r : row) (w : world) :
  tables (database w) !! "messages" = Some rows →
  r ∈ rows → r !! "id" = Some (VStr m) → r !! "sender_id" = Some (VStr h) →
  ∃ (r0 r' : row) (d' : db_state),
    MessageService.edit_message m (Some h) c w = (Ok (Some r'), put_database d' w)
    ∧ r0 ∈ rows ∧ r0 !! "id" = Some (VStr m)
    ∧ r' !! "content" = Some (VStr c)
    ∧ r' !! "is_edited" = Some (VBool true)
    ∧ r' !! "updated_at" = Some (VStr (now w))
    ∧ (∀ k, k ≠ "content" → k ≠ "is_edited" → k ≠ "updated_at" → r' !! k = r0 !! k)
    ∧ r' ∈ default [] (tables d' !! "messages").
Proof.
  intros Hrows Hr Hid Hs.
  destruct (filter_head_of_member
              (pg.selected [Feq "id" (VStr m); Feq "sender_id" (VStr h)]) rows r Hr)
    as (c0 & cs & Hcheck & _ & _).
  { apply (selected_id_sender r m (Some h)). eauto. }
  destruct (filter_head_of_member (pg.selected [Feq "id" (VStr m)]) rows r Hr)
    as (r0 & rs & Hres & Hr0 & Hsel0).
  { by apply selected_id. }
  set (upd := ({[ "content" := VStr c; "is_edited" := VBool true;
                  "updated_at" := VStr (now w) ]} : row)).
  eexists r0, (upd ∪ r0), _. split_and!.
  - unfold MessageService.edit_message, try_except.
    erewrite bind_ok by (by eapply execute_select).
    cbn [b_filters pg.eq pg.select app of_opt_str]. rewrite Hcheck, fmap_cons.
    erewrite bind_ok by reflexivity.
    erewrite bind_ok by (by eapply execute_update).
    cbn [b_filters pg.eq pg.update app]. rewrite Hres, fmap_cons.
    reflexivity.
  - done.
  - by apply selected_id.
  - apply lookup_union_Some_l. unfold upd. by simplify_map_eq.
  - apply lookup_union_Some_l. unfold upd. by simplify_map_eq.
  - apply lookup_union_Some_l. unfold upd. by simplify_map_eq.
  - intros k H1 H2 H3. apply lookup_union_r. unfold upd.
    rewrite !lookup_insert_ne by done. by rewrite lookup_singleton_ne.
  - simpl. rewrite lookup_insert_eq. simpl.
    apply list_elem_of_fmap. exists r0. split; [|done].
    rewrite (proj1 (selected_id r0 m) Hsel0). by rewrite bool_decide_eq_true_2.
Qed.

(** [delete] by the owner: every row carrying the id is flagged and loses its
    content; the row stays in the table under the same id and sender. *)
Lemma service_delete_owner (m u : string) (rows : list row) (r : row) (w : world) :
  tables (database w) !! "messages" = Some rows →
  r ∈ rows → r !! "id" = Some (VStr m) → r !! "sender_id" = Some (VStr u) →
  ∃ (res : option row) (rows' : list row) (d' : db_state),
    MessageService.delete_message m (Some u) w = (Ok res, put_database d' w)
    ∧ tables d' !! "messages" = Some rows'
    ∧ (∀ r1, r1 ∈ rows' → r1 !! "id" = Some (VStr m) →
             r1 !! "is_deleted" = Some (VBool true) ∧ r1 !! "content" = Some VNone)
    ∧ (∃ r1, r1 ∈ rows' ∧ r1 !! "id" = Some (VStr m) ∧ r1 !! "sender_id" = Some (VStr u)).
Proof.
  intros Hrows Hr Hid Hs.
  destruct (filter_head_of_member
              (pg.selected [Feq "id" (VStr m); Feq "sender_id" (VStr u)]) rows r Hr)
    as (c0 & cs & Hcheck & _ & _).
  { apply (selected_id_sender r m (Some u)). eauto. }
  destruct (filter_head_of_member (pg.selected [Feq "id" (VStr m)]) rows r Hr)
    as (r0 & rs & Hres & _ & _).
  { by apply selected_id. }
  set (upd := ({[ "is_deleted" := VBool true; "content" := VNone;
                  "updated_at" := VStr (now w) ]} : row)).
  set (mark := λ r : row, if pg.selected [Feq "id" (VStr m)] r then upd ∪ r else r).
  assert (Hmark_id : ∀ x : row, mark x !! "id" = x !! "id").
  { intros x. unfold mark. destruct (pg.selected _ x); [|done].
    apply lookup_union_r. unfold upd. by simplify_map_eq. }
  assert (Hrun : ∃ res,
    MessageService.delete_message m (Some u) w
    = (Ok res,
       put_database
         (Database (<["messages" := mark <$> rows]> (tables (database w)))
                   (column_defaults (database w))
                   ((requests (database w)
                     ++ [Builder "messages" (Select ["room_id"])
                           [Feq "id" (VStr m); Feq "sender_id" (VStr u)]])
                    ++ [Builder "messages" (Update upd) [Feq "id" (VStr m)]])
                   (columns (database w))) w)).
  { unfold MessageService.delete_message, try_except.
    erewrite bind_ok by (by eapply execute_select).
    cbn [b_filters pg.eq pg.select app of_opt_str]. rewrite Hcheck, fmap_cons.
    erewrite bind_ok by reflexivity.
    erewrite bind_ok by (by eapply execute_update).
    cbn [b_filters pg.eq pg.update app]. rewrite Hres, fmap_cons.
    unfold lift_result, put_database, requesting. cbn [database requests tables column_defaults
      columns connected_user store emitted sio_rooms closed now].
    destruct (getitem (pg.project ["room_id"] c0) "room_id") as [room|e].
    - erewrite bind_ok by reflexivity. eexists. reflexivity.
    - erewrite bind_raise by reflexivity. eexists. reflexivity. }
  destruct Hrun as [res Hrun].
  eexists res, (mark <$> rows), _. split_and!.
  - exact Hrun.
  - simpl. by rewrite lookup_insert_eq.
  - intros r1 (x & -> & Hx)%list_elem_of_fmap Hid1.
    rewrite Hmark_id in Hid1. apply selected_id in Hid1.
    unfold mark. rewrite Hid1. split; apply lookup_union_Some_l; unfold upd; by simplify_map_eq.
  - exists (mark r). split_and!.
    + apply list_elem_of_fmap. eauto.
    + by rewrite Hmark_id.
    + unfold mark. destruct (pg.selected _ r); [|done].
      rewrite <- Hs. apply lookup_union_r. unfold upd. by simplify_map_eq.
Qed.

(** Claim C5, amended.  After [delete(m, u)] by the owner every row with
    that id has [is_deleted] set and a null content, but a following
    [edit(m, u, c')] by the owner is not refused: it returns the row, whose
    content is [c'] and whose [is_edited] flag is set, [is_deleted] staying
    set, and the row is stored. *)
Theorem edit_after_delete_succeeds (m u c' : string) (r : row) (w : world) :
  r ∈ stored_messages w →
  r !! "id" = Some (VStr m) →
  r !! "sender_id" = Some (VStr u) →
  let w1 := (MessageService.delete_message m (Some u) w).2 in
  (∀ r1, r1 ∈ stored_messages w1 → r1 !! "id" = Some (VStr m) →
         r1 !! "is_deleted" = Some (VBool true) ∧ r1 !! "content" = Some VNone)
  ∧ ∃ (r' : row) (w2 : world),
      MessageService.edit_message m (Some u) c' w1 = (Ok (Some r'), w2)
      ∧ r' !! "id" = Some (VStr m)
      ∧ r' !! "content" = Some (VStr c')
      ∧ r' !! "is_edited" = Some (VBool true)
      ∧ r' !! "is_deleted" = Some (VBool true)
      ∧ r' ∈ stored_messages w2.
Proof.
  intros (rows & Hrows & Hr)%stored_messages_rows Hid Hs. cbv zeta.
  destruct (service_delete_owner m u rows r w Hrows Hr Hid Hs)
    as (res & rows' & d' & -> & Hrows' & Hmarked & r1 & Hr1 & Hid1 & Hs1).
  cbn [snd]. split.
  - intros x Hx. apply Hmarked. unfold stored_messages in Hx. simpl in Hx.
    by rewrite Hrows' in Hx.
  - destruct (service_edit_owner m u c' rows' r1 (put_database d' w) Hrows' Hr1 Hid1 Hs1)
      as (r0 & r' & d2 & Hedit & Hr0 & Hid0 & Hc & He & _ & Hframe & Hin).
    exists r', (put_database d2 (put_database d' w)). split_and!; try done.
    + by rewrite Hframe.
    + rewrite Hframe by done. by apply (Hmarked r0).
Qed.

Lemma edit_after_delete_succeeds_witness :
  let w1 := (MessageService.delete_message "M" (Some "gina") scenario.gina_and_harry).2 in
  ∃ (r' : row) (w2 : world),
    MessageService.edit_message "M" (Some "gina") "again" w1 = (Ok (Some r'), w2)
    ∧ r' !! "id" = Some (VStr "M")
    ∧ r' !! "content" = Some (VStr "again")
    ∧ r' !! "is_edited" = Some (VBool true)
    ∧ r' !! "is_deleted" = Some (VBool true)
    ∧ r' ∈ stored_messages w2.
Proof.
  apply (edit_after_delete_succeeds "M" "gina" "again" (scenario.message "M" "R" "gina" "hi")
           scenario.gina_and_harry).
  - apply list_elem_of_singleton. reflexivity.
  - reflexivity.
  - reflexivity.
Defined.

(** Gina deletes her message [M] and then edits it: the edit is carried out. *)
Lemma edit_after_delete_is_carried_out :
  let w1 := (MessageService.delete_message "M" (Some "gina") scenario.gina_and_harry).2 in
  let res := MessageService.edit_message "M" (Some "gina") "again" w1 in
  (λ r : row, r !! "content") <$> stored_messages w1 = [Some VNone]
  ∧ res.1 ≠ Ok None
  ∧ (λ r : row, r !! "content") <$> stored_messages res.2 = [Some (VStr "again")].
Proof.
  cbv zeta. split_and!.
  - vm_compute. reflexivity.
  - vm_compute. discriminate.
  - vm_compute. reflexivity.
Qed.

Lemma nonempty_dict_of_lookup (d : row) (k : string) (v : pyval) :
  d !! k = Some v → nonempty_dict (Some d) = Some d.
Proof.
  intros Hk. unfold nonempty_dict. destruct (decide (d = ∅)) as [->|]; [|done].
  by rewrite lookup_empty in Hk.
Qed.

(** Claim C6.  For a well-formed [edit_message] request on message [M] coming
    from the connection of user [H]: if no stored row with id [M] has sender
    [H], the service returns nothing, the handler emits exactly one event,
    [error{Failed to edit}], addressed to the originating socket, no
    [message_edited] is emitted and the table is unchanged; if [H] owns [M],
    the service returns the row with the new content, [is_edited] set and
    [updated_at] set to the current time, the row is stored, and the handler
    emits [message_edited] to the row's room. *)
Theorem edit_message_ownership (sid : string) (data : event_data) (M content : string)
    (H : option string) (w : world) :
  required (data !! "message_id") = Some M →
  required (data !! "content") = Some content →
  _get_user_id_from_sid sid w = (Ok H, w) →
  let check := Builder "messages" (Select ["*"])
                 [Feq "id" (VStr M); Feq "sender_id" (of_opt_str H)] in
  ((∀ r, r ∈ stored_messages w → r !! "id" = Some (VStr M) →
         r !! "sender_id" ≠ Some (of_opt_str H)) →
     MessageService.edit_message M H content w = (Ok None, requesting check w)
     ∧ edit_message sid data w
       = (Ok tt, emitting (error_to sid "Failed to edit") (requesting check w))
     ∧ stored_messages (edit_message sid data w).2 = stored_messages w
     ∧ emitted (edit_message sid data w).2 = emitted w ++ [error_to sid "Failed to edit"])
  ∧ (∀ r h, H = Some h → r ∈ stored_messages w → r !! "id" = Some (VStr M) →
            r !! "sender_id" = Some (VStr h) →
     ∃ (r' : row) (w' : world),
       MessageService.edit_message M H content w = (Ok (Some r'), w')
       ∧ r' !! "id" = Some (VStr M)
       ∧ r' !! "content" = Some (VStr content)
       ∧ r' !! "is_edited" = Some (VBool true)
       ∧ r' !! "updated_at" = Some (VStr (now w))
       ∧ r' ∈ stored_messages w'
       ∧ emitted w' = emitted w
       ∧ ∀ room, r' !! "room_id" = Some room →
           edit_message sid data w
           = (Ok tt, emitting (Emit "message_edited" r' (Some room) None) w')).
Proof.
  intros Hm Hc Hu. cbv zeta. split.
  - intros Hno.
    pose proof (service_edit_not_owner M H content w Hno) as Hsvc.
    assert (Hrun : edit_message sid data w
                   = (Ok tt, emitting (error_to sid "Failed to edit")
                               (requesting (Builder "messages" (Select ["*"])
                                  [Feq "id" (VStr M); Feq "sender_id" (of_opt_str H)]) w))).
    { unfold edit_message, try_except. rewrite Hm, Hc.
      erewrite bind_ok by exact Hu. erewrite bind_ok by exact Hsvc. reflexivity. }
    rewrite Hrun. done.
  - intros r h -> (rows & Hrows & Hr)%stored_messages_rows Hid Hs.
    destruct (service_edit_owner M h content rows r w Hrows Hr Hid Hs)
      as (r0 & r' & d' & Hedit & _ & Hid0 & Hc' & He & Ht & Hframe & Hin).
    exists r', (put_database d' w). split_and!; try done.
    + by rewrite Hframe.
    + intros room Hroom. unfold edit_message, try_except. rewrite Hm, Hc.
      erewrite bind_ok by exact Hu. erewrite bind_ok by exact Hedit.
      rewrite (nonempty_dict_of_lookup r' "content" _ Hc').
      unfold lift_result, getitem. rewrite Hroom. reflexivity.
Qed.

Lemma edit_message_ownership_witness :
  edit_message "sh" {[ "message_id" := "M"; "content" := "gotcha" ]} scenario.gina_and_harry
  = (Ok tt,
     emitting (error_to "sh" "Failed to edit")
       (requesting (Builder "messages" (Select ["*"])
                      [Feq "id" (VStr "M"); Feq "sender_id" (VStr "harry")])
          scenario.gina_and_harry))
  ∧ ∃ (r' : row) (w' : world),
      MessageService.edit_message "M" (Some "gina") "edited" scenario.gina_and_harry
      = (Ok (Some r'), w')
      ∧ r' !! "id" = Some (VStr "M")
      ∧ r' !! "content" = Some (VStr "edited")
      ∧ r' !! "is_edited" = Some (VBool true)
      ∧ r' !! "updated_at" = Some (VStr "t1")
      ∧ r' ∈ stored_messages w'
      ∧ emitted w' = []
      ∧ ∀ room, r' !! "room_id" = Some room →
          edit_message "sg" {[ "message_id" := "M"; "content" := "edited" ]}
            scenario.gina_and_harry
          = (Ok tt, emitting (Emit "message_edited" r' (Some room) None) w').
Proof.
  split.
  - destruct (edit_message_ownership "sh" {[ "message_id" := "M"; "content" := "gotcha" ]}
                "M" "gotcha" (Some "harry") scenario.gina_and_harry)
      as [Hnot _]; [reflexivity | reflexivity | reflexivity |].
    apply Hnot. intros r Hr%list_elem_of_singleton _. subst r. discriminate.
  - destruct (edit_message_ownership "sg" {[ "message_id" := "M"; "content" := "edited" ]}
                "M" "edited" (Some "gina") scenario.gina_and_harry)
      as [_ Hown]; [reflexivity | reflexivity | reflexivity |].
    apply (Hown (scenario.message "M" "R" "gina" "hi") "gina");
      [reflexivity | apply list_elem_of_singleton; reflexivity | reflexivity | reflexivity].
Defined.

(** * Sending *)

(** A sender whose counter has reached the limit gets the error and nothing
    else happens: the counter is not touched. *)
Lemma send_message_rate_limited (settings : Settings) (sid : string) (data : event_data)
    (room_id user_id : string) (c : Z) (ttl : option Z) (w : world) :
  required (data !! "room_id") = Some room_id →
  _get_user_id_from_sid sid w = (Ok (Some user_id), w) →
  required (Some user_id) = Some user_id →
  r_counters (store w) !! ("ratelimit:" +:+ user_id) = Some (c, ttl) →
  (MAX_MESSAGES_PER_MINUTE settings ≤ c)%Z →
  send_message settings sid data w
  = (Ok tt, emitting (error_to sid "Rate limit exceeded") w).
Proof.
  intros Hroom Hu Hreq Hk Hc. unfold send_message, try_except. rewrite Hroom.
  erewrite bind_ok by exact Hu. rewrite Hreq.
  erewrite bind_ok.
  2:{ unfold with_store_result.
      rewrite (check_rate_limit_exhausted _ _ _ _ _ _ Hk Hc). by rewrite world_eta. }
  reflexivity.
Qed.

Lemma execute_insert (b : builder) (r : row) (rows : list row) (w : world) :
  b_verb b = Insert r →
  tables (database w) !! b_table b = Some rows →
  execute b w
  = (Ok [r ∪ column_defaults (database w) (b_table b) (length rows)],
     put_database
       (Database (<[b_table b := rows ++ [r ∪ column_defaults (database w) (b_table b)
                                                (length rows)]]> (tables (database w)))
                 (column_defaults (database w)) (requests (database w) ++ [b])
                 (columns (database w))) w).
Proof. intros Hv Ht. unfold execute, pg.execute. by rewrite Ht, Hv. Qed.

(** The sender-profile lookup names a relation the schema does not have: the
    row is inserted, yet the service reports failure. *)
Lemma create_message_without_profile_table (room_id sender_id : string)
    (content : option string) (message_type : string) (reply_to : option string)
    (rows : list row) (w : world) :
  tables (database w) !! "messages" = Some rows →
  tables (database w) !! "profile" = None →
  ∃ w', MessageService.create_message room_id sender_id content message_type reply_to w
        = (Ok None, w')
        ∧ length (stored_messages w') = S (length rows).
Proof.
  intros Hm Hp. unfold MessageService.create_message, try_except.
  erewrite bind_ok by (by eapply execute_insert).
  cbv beta iota. erewrite bind_raise.
  2:{ apply execute_missing_table. cbn. rewrite lookup_insert_ne by done. exact Hp. }
  eexists. split; [reflexivity|].
  unfold stored_messages. cbn. rewrite lookup_insert_eq. cbn.
  rewrite length_app. cbn. lia.
Qed.

(** * Frames: what a step leaves alone *)

Section keeps.

Context (R : world → world → Prop) `{!PreOrder R}.

Lemma keeps_ret {A : Type} (a : A) : keeps R (mret a).
Proof. intros w. simpl. reflexivity. Qed.

Lemma keeps_raise {A : Type} (e : exn) : keeps R (raise e : io A).
Proof. intros w. simpl. reflexivity. Qed.

Lemma keeps_lift_result {A : Type} (r : result A) : keeps R (lift_result r).
Proof. intros w. simpl. reflexivity. Qed.

Lemma keeps_get_world : keeps R get_world.
Proof. intros w. simpl. reflexivity. Qed.

Lemma keeps_bind {A B : Type} (m : io A) (f : A → io B) :
  keeps R m → (∀ a, keeps R (f a)) → keeps R (m ≫= f).
Proof.
  intros Hm Hf w. unfold mbind, io_bind. specialize (Hm w).
  destruct (m w) as [[a|e] w1]; simpl in *; [|done].
  etrans; [exact Hm | apply Hf].
Qed.

Lemma keeps_try_except {A : Type} (body : io A) (handler : exn → io A) :
  keeps R body → (∀ e, keeps R (handler e)) → keeps R (try_except body handler).
Proof.
  intros Hb Hh w. unfold try_except. specialize (Hb w).
  destruct (body w) as [[a|e] w1]; simpl in *; [done|].
  etrans; [exact Hb | apply Hh].
Qed.

Lemma keeps_for_each {A : Type} (l : list A) (body : A → io unit) :
  (∀ x, keeps R (body x)) → keeps R (for_each l body).
Proof.
  intros Hb. induction l as [|x l IH]; simpl.
  - apply keeps_ret.
  - apply keeps_bind; [apply Hb | intros _; apply IH].
Qed.

End keeps.

(** A step followed by another, under two relations that compose. *)
Lemma keeps_bind_compose {A B : Type} (R1 R2 R3 : world → world → Prop)
    (m : io A) (f : A → io B) :
  (∀ x y, R1 x y → R3 x y) →
  (∀ x y z, R1 x y → R2 y z → R3 x z) →
  keeps R1 m → (∀ a, keeps R2 (f a)) → keeps R3 (m ≫= f).
Proof.
  intros Hsub Hcomp Hm Hf w. unfold mbind, io_bind. specialize (Hm w).
  destruct (m w) as [[a|e] w1]; simpl in *; [|by apply Hsub].
  eapply Hcomp; [exact Hm | apply Hf].
Qed.

Lemma quiet_one_more (user_id : string) (x y : world) :
  quiet user_id x y → one_more user_id x y.
Proof. intros (H1 & H2 & H3). unfold one_more. split_and!; [done | done | lia]. Qed.

Lemma quiet_then_one_more (user_id : string) (x y z : world) :
  quiet user_id x y → one_more user_id y z → one_more user_id x z.
Proof.
  intros (H1 & H2 & H3) (H4 & H5 & H6). unfold one_more.
  split_and!; [congruence | congruence | lia].
Qed.

Lemma one_more_then_quiet (user_id : string) (x y z : world) :
  one_more user_id x y → quiet user_id y z → one_more user_id x z.
Proof.
  intros (H1 & H2 & H3) (H4 & H5 & H6). unfold one_more.
  split_and!; [congruence | congruence | lia].
Qed.

(** ** The primitives *)

Lemma execute_quiet (user_id : string) (b : builder) : keeps (quiet user_id) (execute b).
Proof.
  intros w. unfold execute. destruct (pg.execute b (database w)) as [res d]. done.
Qed.

Lemma read_store_quiet {A : Type} (user_id : string) (f : redis_store → A) :
  keeps (quiet user_id) (read_store f).
Proof. intros w. done. Qed.

Lemma update_store_quiet (user_id : string) (f : redis_store → redis_store) :
  (∀ r, r_counters (f r) !! ("ratelimit:" +:+ user_id)
        = r_counters r !! ("ratelimit:" +:+ user_id)) →
  keeps (quiet user_id) (update_store f).
Proof. intros Hf w. unfold quiet, counter_of. simpl. by rewrite Hf. Qed.

Lemma emit_quiet (user_id event : string) (data : pydict) (room : option pyval)
    (skip : option string) :
  event ≠ "message" → keeps (quiet user_id) (sio.emit event data room skip).
Proof.
  intros He w. unfold quiet, broadcasts. simpl. split_and!; [done | done |].
  rewrite List.filter_app, length_app. simpl. rewrite bool_decide_eq_false_2 by done.
  simpl. lia.
Qed.

Lemma emit_error_quiet (user_id sid message : string) :
  keeps (quiet user_id) (emit_error sid message).
Proof. by apply emit_quiet. Qed.

Lemma emit_message_one_more (user_id : string) (data : pydict) (room : option pyval)
    (skip : option string) :
  keeps (one_more user_id) (sio.emit "message" data room skip).
Proof.
  intros w. unfold one_more, broadcasts. simpl. split_and!; [done | done |].
  rewrite List.filter_app, length_app. simpl. lia.
Qed.

Lemma expire_counter_ne (key key' : string) (ttl : Z) (r : redis_store) :
  key ≠ key' → r_counters (redis.expire key ttl r) !! key' = r_counters r !! key'.
Proof.
  intros Hne. unfold redis.expire. destruct (bool_decide (0 < ttl)%Z); cbn [r_counters].
  - by rewrite lookup_alter_ne.
  - unfold redis.delete. cbn [r_counters]. by rewrite lookup_delete_ne.
Qed.

(** The keys of the membership cache and of the offline queues are not rate
    counters. *)
Lemma cache_room_members_counter (user_id room_id : string) (ids : list string) (ttl : Z)
    (r : redis_store) :
  r_counters (RedisClient.cache_room_members room_id ids ttl r) !! ("ratelimit:" +:+ user_id)
  = r_counters r !! ("ratelimit:" +:+ user_id).
Proof.
  unfold RedisClient.cache_room_members.
  assert (Hne : "room_members:" +:+ room_id ≠ "ratelimit:" +:+ user_id) by (intros [=]).
  destruct ids as [|i ids].
  - simpl. by rewrite lookup_delete_ne.
  - rewrite expire_counter_ne by done.
    unfold redis.sadd, redis.delete. simpl.
    rewrite lookup_delete_eq. simpl. by rewrite lookup_delete_ne.
Qed.

Lemma queue_message_counter (user_id member_id : string) (retention : Z) (m : pydict)
    (r : redis_store) :
  r_counters (RedisClient.queue_message retention member_id m r) !! ("ratelimit:" +:+ user_id)
  = r_counters r !! ("ratelimit:" +:+ user_id).
Proof.
  unfold RedisClient.queue_message.
  assert (Hne : "queue:" +:+ member_id ≠ "ratelimit:" +:+ user_id) by (intros [=]).
  rewrite expire_counter_ne by done. unfold redis.lpush.
  by destruct (r_lists r !! ("queue:" +:+ member_id)) as [[l t]|].
Qed.

(** ** The blocks of [send_message] *)

Lemma check_room_membership_quiet (user_id u room_id : string) :
  keeps (quiet user_id) (_check_room_membership u room_id).
Proof.
  unfold _check_room_membership.
  apply keeps_try_except; [apply _ | | intros e; apply keeps_ret; apply _].
  apply keeps_bind; [apply _ | apply read_store_quiet |].
  intros [[|m ms]|]; try (apply keeps_ret; apply _).
  all: apply keeps_bind; [apply _ | apply execute_quiet | intros result].
  all: apply keeps_bind; [apply _ | | intros _; apply keeps_ret; apply _].
  all: destruct (bool_decide (0 < length result)); [|apply keeps_ret; apply _].
  all: apply keeps_bind; [apply _ | apply execute_quiet | intros all_members].
  all: apply keeps_bind; [apply _ | apply keeps_lift_result; apply _ | intros ids].
  all: apply update_store_quiet; intros r; apply cache_room_members_counter.
Qed.

Lemma create_message_quiet (user_id room_id sender_id : string) (content : option string)
    (message_type : string) (reply_to : option string) :
  keeps (quiet user_id)
    (MessageService.create_message room_id sender_id content message_type reply_to).
Proof.
  unfold MessageService.create_message.
  apply keeps_try_except; [apply _ | | intros e; apply keeps_ret; apply _].
  apply keeps_bind; [apply _ | apply execute_quiet | intros [|message rest]].
  - apply keeps_ret; apply _.
  - apply keeps_bind; [apply _ | apply execute_quiet | intros [|s ss]];
      apply keeps_ret; apply _.
Qed.

Lemma create_notification_quiet (user_id member_id title : string) (body : pyval)
    (notification_type : string) (reference_id : pyval) :
  keeps (quiet user_id)
    (NotificaitonService.create_notification member_id title body notification_type
       reference_id).
Proof. intros w. done. Qed.

Lemma notify_offline_members_quiet (settings : Settings) (user_id room_id sender_id : string)
    (message : row) :
  keeps (quiet user_id) (_notify_offline_members settings room_id sender_id message).
Proof.
  unfold _notify_offline_members.
  apply keeps_try_except; [apply _ | | intros e; apply keeps_ret; apply _].
  apply keeps_bind; [apply _ | apply execute_quiet | intros members].
  apply keeps_for_each; [apply _ | intros member].
  apply keeps_bind; [apply _ | apply keeps_lift_result; apply _ | intros member_id].
  apply keeps_bind; [apply _ | apply read_store_quiet | intros [|]]; simpl.
  - apply keeps_ret; apply _.
  - apply keeps_bind; [apply _ | | intros _].
    { apply update_store_quiet. intros r. apply queue_message_counter. }
    apply keeps_bind; [apply _ | apply keeps_lift_result; apply _ | intros reference_id].
    apply keeps_bind; [apply _ | apply create_notification_quiet | intros _].
    apply keeps_ret; apply _.
Qed.

Lemma keeps_weaken {A : Type} (R1 R2 : world → world → Prop) (m : io A) :
  (∀ x y, R1 x y → R2 x y) → keeps R1 m → keeps R2 m.
Proof. intros Hsub Hm w. apply Hsub, Hm. Qed.

(** What [send_message] does once the limiter has let the call through: at
    most one [message] event, and the counter is not touched again. *)
Lemma send_message_admitted_one_more (settings : Settings) (sid user_id room_id : string)
    (content : option string) (message_type : string) (reply_to : option string) :
  keeps (one_more user_id)
    (is_member ← _check_room_membership user_id room_id;
     if negb is_member then emit_error sid "Not a member"
     else
       message ← MessageService.create_message room_id user_id content message_type reply_to;
       match nonempty_dict message with
       | None => emit_error sid "Failed to save message"
       | Some message =>
           sio.emit "message" message (Some (VStr room_id)) None;;
           _notify_offline_members settings room_id user_id message
       end).
Proof.
  apply keeps_bind_compose with (R1 := quiet user_id) (R2 := one_more user_id);
    [apply quiet_one_more | apply quiet_then_one_more
    | apply check_room_membership_quiet | intros is_member].
  destruct is_member; simpl.
  - apply keeps_bind_compose with (R1 := quiet user_id) (R2 := one_more user_id);
      [apply quiet_one_more | apply quiet_then_one_more
      | apply create_message_quiet | intros message].
    destruct (nonempty_dict message) as [m|].
    + apply keeps_bind_compose with (R1 := one_more user_id) (R2 := quiet user_id);
        [done | apply one_more_then_quiet | apply emit_message_one_more | intros _].
      apply notify_offline_members_quiet.
    + eapply keeps_weaken; [apply quiet_one_more | apply emit_error_quiet].
  - eapply keeps_weaken; [apply quiet_one_more | apply emit_error_quiet].
Qed.

Lemma check_rate_limit_capacity (user_id : string) (limit window : Z) (r : redis_store) :
  let res := RedisClient.check_rate_limit user_id limit window r in
  match res.1 with Ok true => 1 | _ => 0 end
  + capacity limit (r_counters res.2 !! ("ratelimit:" +:+ user_id))
  ≤ capacity limit (r_counters r !! ("ratelimit:" +:+ user_id))
  ∧ (res.1 ≠ Ok true → res.2 = r).
Proof.
  cbv zeta. destruct (r_counters r !! ("ratelimit:" +:+ user_id)) as [[c ttl]|] eqn:Hk.
  - destruct (Z_lt_le_dec c limit) as [Hlt | Hge].
    + rewrite (check_rate_limit_increments _ _ _ _ _ _ Hk Hlt). simpl.
      rewrite lookup_insert_eq. simpl. split; [lia | done].
    + rewrite (check_rate_limit_exhausted _ _ _ _ _ _ Hk Hge). simpl.
      rewrite Hk. simpl. split; [lia | done].
  - destruct (Z_lt_le_dec 0 window) as [Hw | Hw].
    + rewrite (check_rate_limit_absent _ _ _ _ Hk Hw). simpl.
      rewrite lookup_insert_eq. simpl. split; [lia | done].
    + rewrite (check_rate_limit_refused _ _ _ _ Hk Hw). cbn [fst snd].
      rewrite Hk. split; [lia | done].
Qed.

Lemma required_Some (o : option string) (x : string) : required o = Some x → o = Some x.
Proof. unfold required. by destruct (truthy o). Qed.

(** One call of [send_message] over a connection of [user_id]: every
    [message] event it adds is paid for by the user's remaining capacity. *)
Lemma send_message_step (settings : Settings) (sid user_id : string) (data : event_data)
    (w : world) :
  fst <$> List.find (λ p : string * list string, bool_decide (sid ∈ p.2)) (connected_user w)
  = Some user_id →
  let w' := (send_message settings sid data w).2 in
  connected_user w' = connected_user w
  ∧ broadcasts w' + capacity (MAX_MESSAGES_PER_MINUTE settings) (counter_of user_id w')
    ≤ broadcasts w + capacity (MAX_MESSAGES_PER_MINUTE settings) (counter_of user_id w).
Proof.
  intros Hu. cbv zeta.
  assert (Hquiet : ∀ w', quiet user_id w w' →
    connected_user w' = connected_user w
    ∧ broadcasts w' + capacity (MAX_MESSAGES_PER_MINUTE settings) (counter_of user_id w')
      ≤ broadcasts w + capacity (MAX_MESSAGES_PER_MINUTE settings) (counter_of user_id w)).
  { intros w' (H1 & H2 & H3). rewrite H2, H3. done. }
  assert (Herr : ∀ msg w0, quiet user_id w w0 →
    quiet user_id w
      (try_except (emit_error sid msg) (λ e, emit_error sid (str_exn e)) w0).2).
  { intros msg w0 H0. etrans; [exact H0|].
    apply (keeps_try_except (quiet user_id)); [apply emit_error_quiet|].
    intros e. apply emit_error_quiet. }
  unfold send_message.
  destruct (required (data !! "room_id")) as [room_id|] eqn:Hroom.
  2:{ apply Hquiet. by apply Herr. }
  unfold try_except. erewrite bind_ok by apply get_user_id_from_sid_spec. rewrite Hu.
  destruct (required (Some user_id)) as [u|] eqn:Hreq.
  2:{ apply Hquiet. by apply (Herr "Unauthorized" w). }
  apply required_Some in Hreq as [= <-].
  pose proof (check_rate_limit_capacity user_id (MAX_MESSAGES_PER_MINUTE settings) 60 (store w))
    as [Hcap Hsame].
  destruct (RedisClient.check_rate_limit user_id (MAX_MESSAGES_PER_MINUTE settings) 60
              (store w)) as [ok r'] eqn:Hcheck.
  simpl in Hcap, Hsame. destruct ok as [[|]|e0].
  2:{ erewrite bind_ok by (unfold with_store_result; rewrite Hcheck; reflexivity).
      cbn [negb]. rewrite Hsame by done. rewrite world_eta. apply Hquiet.
      apply (emit_error_quiet user_id sid "Rate limit exceeded" w). }
  2:{ erewrite bind_raise by (unfold with_store_result; rewrite Hcheck; reflexivity).
      rewrite Hsame by done. rewrite world_eta. apply Hquiet.
      apply (emit_error_quiet user_id sid (str_exn e0) w). }
  erewrite bind_ok by (unfold with_store_result; rewrite Hcheck; reflexivity).
  cbn [negb].
  - match goal with |- context [@mbind io _ _ _ ?f ?m ?w1] =>
      pose proof (send_message_admitted_one_more settings sid user_id room_id
                    (data !! "content") (default "text" (data !! "message_type"))
                    (data !! "reply_to") w1 : one_more user_id w1 ((m ≫= f) w1).2) as Htail;
      destruct ((m ≫= f) w1) as [[[]|e] w2]
    end; simpl in Htail |- *.
    + destruct Htail as (H1 & H2 & H3). unfold counter_of, broadcasts in *. simpl in *.
      rewrite H2. split; [done | lia].
    + pose proof (one_more_then_quiet _ _ _ _ Htail
                    (emit_error_quiet user_id sid (str_exn e) w2)) as (H1 & H2 & H3).
      unfold counter_of, broadcasts in *. simpl in *.
      rewrite H2. split; [done | lia].
Qed.

Lemma send_each_capacity (settings : Settings) (user_id : string)
    (calls : list (string * event_data)) :
  ∀ w : world,
  Forall (λ c : string * event_data, user_of c.1 w = Some user_id) calls →
  connected_user (send_each settings calls w) = connected_user w
  ∧ broadcasts (send_each settings calls w)
    + capacity (MAX_MESSAGES_PER_MINUTE settings)
        (counter_of user_id (send_each settings calls w))
    ≤ broadcasts w + capacity (MAX_MESSAGES_PER_MINUTE settings) (counter_of user_id w).
Proof.
  induction calls as [|[sid d] calls IH]; intros w Hall; cbn [send_each foldl]; [done|].
  apply Forall_cons in Hall as [Hu Hall]. cbn [fst snd] in Hu |- *.
  destruct (send_message_step settings sid user_id d w Hu) as [Hreg Hstep].
  destruct (IH (send_message settings sid d w).2) as [Hreg' Hstep'].
  { eapply Forall_impl; [exact Hall|]. intros c Hc. unfold user_of in *. by rewrite Hreg. }
  fold (send_each settings calls (send_message settings sid d w).2).
  split; [congruence | lia].
Qed.

(** * Rate limiter: the window bound *)

Lemma rate_limit_decide_below (user_id : string) (limit window c : Z) (r : redis_store) :
  (c < limit)%Z →
  RedisClient.rate_limit_decide user_id limit window (Some c) r
  = (Ok true, redis.incr ("ratelimit:" +:+ user_id) r).
Proof.
  intros Hc. unfold RedisClient.rate_limit_decide.
  destruct (Z.geb_spec c limit); [lia | done].
Qed.

Lemma incr_present (key : string) (v : Z) (ttl : option Z) (r : redis_store) :
  r_counters r !! key = Some (v, ttl) →
  redis.incr key r = set_counters <[key := ((v + 1)%Z, ttl)]> r.
Proof. intros Hk. unfold redis.incr. by rewrite Hk. Qed.

(** Two checks in flight: both read the counter at [c], below the limit, and
    both are let through; the counter ends at [c + 2]. *)
Lemma overlapped_below_limit (user_id : string) (limit window c : Z) (ttl : option Z)
    (r : redis_store) :
  r_counters r !! ("ratelimit:" +:+ user_id) = Some (c, ttl) → (c < limit)%Z →
  overlapped user_id limit window r
  = (Ok true, Ok true,
     set_counters <["ratelimit:" +:+ user_id := ((c + 2)%Z, ttl)]>
       (set_counters <["ratelimit:" +:+ user_id := ((c + 1)%Z, ttl)]> r)).
Proof.
  intros Hk Hc. unfold overlapped, redis.get_int.
  rewrite Hk. cbn [fmap option_fmap option_map fst].
  rewrite !rate_limit_decide_below by done.
  rewrite (incr_present _ c ttl r Hk).
  rewrite (incr_present _ (c + 1)%Z ttl).
  - by replace (c + 1 + 1)%Z with (c + 2)%Z by lia.
  - cbn [set_counters r_counters]. by rewrite lookup_insert_eq.
Qed.

(** Two checks in flight at the start of a window: both find no counter, both
    create it with value 1 and both are let through. *)
Lemma overlapped_absent (user_id : string) (limit window : Z) (r : redis_store) :
  r_counters r !! ("ratelimit:" +:+ user_id) = None → (0 < window)%Z →
  overlapped user_id limit window r
  = (Ok true, Ok true,
     set_counters <["ratelimit:" +:+ user_id := (1%Z, Some window)]>
       (set_counters <["ratelimit:" +:+ user_id := (1%Z, Some window)]> r)).
Proof.
  intros Hk Hw. unfold overlapped, RedisClient.rate_limit_decide, redis.get_int.
  rewrite Hk. cbn [fmap option_fmap option_map].
  by rewrite !setex_int_ok.
Qed.

(** Claim C4, amended.  The limiter has three branches: an absent counter is
    created with value 1 and a time to live equal to the window, and the call
    is let through, provided the window is positive (otherwise SETEX refuses,
    nothing is written and the check raises); a counter at or above the limit
    refuses the call and is left untouched; otherwise the counter is
    incremented, keeping its time to live, and the call is let through.  For
    checks that run one after the other within one window (counter absent at
    the start, no expiry in between) at most [limit] are let through provided
    [limit >= 1], and [send_message] calls of the user, over whichever of the
    user's connections, handled one after the other then broadcast at most
    [limit] messages; when [limit <= 0] the first check of a window still
    passes.  Two checks of the user that are in flight together (both read
    before either writes) are both let through whenever the counter they read
    is absent or below the limit, so the bound does not hold for them. *)
Theorem check_rate_limit_fixed_window (user_id : string) (limit window : Z) (r : redis_store) :
  let key := "ratelimit:" +:+ user_id in
  (r_counters r !! key = None → (0 < window)%Z →
     RedisClient.check_rate_limit user_id limit window r
     = (Ok true, set_counters <[key := (1%Z, Some window)]> r))
  ∧ (r_counters r !! key = None → (window ≤ 0)%Z →
     RedisClient.check_rate_limit user_id limit window r = (Raise redis.invalid_expire, r))
  ∧ (∀ c ttl, r_counters r !! key = Some (c, ttl) → (limit ≤ c)%Z →
     RedisClient.check_rate_limit user_id limit window r = (Ok false, r))
  ∧ (∀ c ttl, r_counters r !! key = Some (c, ttl) → (c < limit)%Z →
     RedisClient.check_rate_limit user_id limit window r
     = (Ok true, set_counters <[key := ((c + 1)%Z, ttl)]> r))
  ∧ (∀ n, r_counters r !! key = None → (1 ≤ limit)%Z →
     (Z.of_nat (admitted n user_id limit window r) ≤ limit)%Z)
  ∧ (∀ n, r_counters r !! key = None → (limit ≤ 0)%Z → (0 < window)%Z →
     admitted (S n) user_id limit window r = 1)
  ∧ (∀ settings calls w,
     MAX_MESSAGES_PER_MINUTE settings = limit →
     Forall (λ c : string * event_data, user_of c.1 w = Some user_id) calls →
     counter_of user_id w = None → (1 ≤ limit)%Z →
     (Z.of_nat (broadcasts (send_each settings calls w)) ≤ Z.of_nat (broadcasts w) + limit)%Z)
  ∧ (r_counters r !! key = None → (0 < window)%Z →
     ∃ r', overlapped user_id limit window r = (Ok true, Ok true, r')
           ∧ r_counters r' !! key = Some (1%Z, Some window))
  ∧ (∀ c ttl, r_counters r !! key = Some (c, ttl) → (c < limit)%Z →
     ∃ r', overlapped user_id limit window r = (Ok true, Ok true, r')
           ∧ r_counters r' !! key = Some ((c + 2)%Z, ttl)).
Proof.
  cbv zeta. split_and!.
  - apply check_rate_limit_absent.
  - apply check_rate_limit_refused.
  - apply check_rate_limit_exhausted.
  - apply check_rate_limit_increments.
  - intros n Hk Hl. pose proof (admitted_fresh_window user_id limit window n r Hk). lia.
  - intros n Hk Hl Hw. cbn [admitted]. rewrite (check_rate_limit_absent _ _ _ _ Hk Hw).
    pose proof (admitted_from_counter user_id limit window n
                  (set_counters <["ratelimit:" +:+ user_id := (1%Z, Some window)]> r)
                  1%Z (Some window)) as Hn.
    simpl in Hn. rewrite lookup_insert_eq in Hn. specialize (Hn eq_refl). lia.
  - intros settings calls w Hmax Hall Hk Hl.
    destruct (send_each_capacity settings user_id calls w Hall) as [_ Hcap].
    rewrite Hk, Hmax in Hcap. simpl in Hcap. lia.
  - intros Hk Hw. eexists. split; [by apply overlapped_absent|].
    cbn [set_counters r_counters]. by rewrite lookup_insert_eq.
  - intros c ttl Hk Hc. eexists. split; [by eapply overlapped_below_limit|].
    cbn [set_counters r_counters]. by rewrite lookup_insert_eq.
Qed.

Lemma check_rate_limit_fixed_window_witness :
  let one := {| MAX_MESSAGES_PER_MINUTE := 1; MESSAGE_QUEUE_RETENTION := 86400;
                TYPING_TIMEOUT := 10 |} in
  let hello := ({[ "room_id" := "R"; "content" := "hi" ]} : event_data) in
  RedisClient.check_rate_limit "bob" 3 60 redis_empty
  = (Ok true, set_counters <["ratelimit:bob" := (1%Z, Some 60%Z)]> redis_empty)
  ∧ RedisClient.check_rate_limit "bob" 3 0 redis_empty = (Raise redis.invalid_expire, redis_empty)
  ∧ RedisClient.check_rate_limit "bob" 3 60
      (set_counters <["ratelimit:bob" := (3%Z, Some 60%Z)]> redis_empty)
    = (Ok false, set_counters <["ratelimit:bob" := (3%Z, Some 60%Z)]> redis_empty)
  ∧ RedisClient.check_rate_limit "bob" 3 60
      (set_counters <["ratelimit:bob" := (2%Z, Some 41%Z)]> redis_empty)
    = (Ok true, set_counters <["ratelimit:bob" := (3%Z, Some 41%Z)]>
                  (set_counters <["ratelimit:bob" := (2%Z, Some 41%Z)]> redis_empty))
  ∧ (Z.of_nat (admitted 4 "bob" 3 60 redis_empty) ≤ 3)%Z
  ∧ admitted 4 "bob" 0 60 redis_empty = 1
  ∧ broadcasts (send_each one [("s1", hello); ("s2", hello)] scenario.with_profile) = 1
  ∧ (Z.of_nat (broadcasts (send_each one [("s1", hello); ("s2", hello)]
                             scenario.with_profile))
     ≤ Z.of_nat (broadcasts scenario.with_profile) + 1)%Z
  ∧ ∃ r', overlapped "bob" 3 60
            (set_counters <["ratelimit:bob" := (2%Z, Some 41%Z)]> redis_empty)
          = (Ok true, Ok true, r')
          ∧ r_counters r' !! "ratelimit:bob" = Some (4%Z, Some 41%Z).
Proof.
  cbv zeta. split_and!.
  - destruct (check_rate_limit_fixed_window "bob" 3 60 redis_empty) as (H & _).
    apply H; [reflexivity | lia].
  - destruct (check_rate_limit_fixed_window "bob" 3 0 redis_empty) as (_ & H & _).
    apply H; [reflexivity | lia].
  - destruct (check_rate_limit_fixed_window "bob" 3 60
                (set_counters <["ratelimit:bob" := (3%Z, Some 60%Z)]> redis_empty))
      as (_ & _ & H & _).
    apply (H 3%Z (Some 60%Z)); [reflexivity | lia].
  - destruct (check_rate_limit_fixed_window "bob" 3 60
                (set_counters <["ratelimit:bob" := (2%Z, Some 41%Z)]> redis_empty))
      as (_ & _ & _ & H & _).
    apply (H 2%Z (Some 41%Z)); [reflexivity | lia].
  - destruct (check_rate_limit_fixed_window "bob" 3 60 redis_empty)
      as (_ & _ & _ & _ & H & _).
    apply H; [reflexivity | lia].
  - destruct (check_rate_limit_fixed_window "bob" 0 60 redis_empty)
      as (_ & _ & _ & _ & _ & H & _).
    apply (H 3); [reflexivity | lia | lia].
  - vm_compute. reflexivity.
  - destruct (check_rate_limit_fixed_window "eve" 1 60 redis_empty)
      as (_ & _ & _ & _ & _ & _ & H & _).
    apply H; [reflexivity | | reflexivity | lia].
    repeat constructor.
  - destruct (check_rate_limit_fixed_window "bob" 3 60
                (set_counters <["ratelimit:bob" := (2%Z, Some 41%Z)]> redis_empty))
      as (_ & _ & _ & _ & _ & _ & _ & _ & H).
    apply (H 2%Z (Some 41%Z)); [reflexivity | lia].
Defined.

(** The bound fails in two ways.  With a limit of 0 the first check of a
    window is still let through: one success, which is more than the limit.
    With a limit of 1, two checks of one user that are in flight together
    are both let through, and the counter afterwards reads 1. *)
Lemma rate_limit_bound_exceeded :
  r_counters redis_empty !! ("ratelimit:" +:+ "bob") = None
  ∧ ¬ (Z.of_nat (admitted 1 "bob" 0 60 redis_empty) ≤ 0)%Z
  ∧ overlapped "bob" 1 60 redis_empty
    = (Ok true, Ok true, set_counters <["ratelimit:bob" := (1%Z, Some 60%Z)]> redis_empty).
Proof.
  split_and!; [reflexivity | vm_compute; congruence | vm_compute; reflexivity].
Qed.

(** * The ephemeral store: round trips and independence of keys *)

Lemma key_inj (prefix a b : string) : prefix +:+ a = prefix +:+ b → a = b.
Proof. induction prefix as [|c prefix IH]; simpl; [done|]. intros [=]. auto. Qed.

Lemma key_ne (prefix a b : string) : a ≠ b → prefix +:+ a ≠ prefix +:+ b.
Proof. intros Hne Heq. by apply Hne, (key_inj prefix). Qed.

Lemma same_at_refl (key : string) (r : redis_store) : same_at key r r.
Proof. by unfold same_at. Qed.

Lemma same_at_trans (key : string) (r1 r2 r3 : redis_store) :
  same_at key r1 r2 → same_at key r2 r3 → same_at key r1 r3.
Proof.
  intros (H1 & H2 & H3 & H4) (H5 & H6 & H7 & H8). unfold same_at.
  split_and!; congruence.
Qed.

Lemma exists_frame (key : string) (r r' : redis_store) :
  same_at key r r' → redis.exists_ key r' = redis.exists_ key r.
Proof. intros (H1 & H2 & H3 & H4). unfold redis.exists_. by rewrite H1, H2, H3, H4. Qed.

Lemma setex_frame (key key' : string) (x : string * option Z) (r : redis_store) :
  key ≠ key' → same_at key' r (set_strings <[key := x]> r).
Proof.
  intros Hne. unfold same_at, set_strings. cbn [r_strings r_counters r_lists r_sets].
  by rewrite lookup_insert_ne.
Qed.

Lemma delete_frame (key key' : string) (r : redis_store) :
  key ≠ key' → same_at key' r (redis.delete key r).
Proof.
  intros Hne. unfold same_at, redis.delete. cbn [r_strings r_counters r_lists r_sets].
  by rewrite !lookup_delete_ne.
Qed.

Lemma expire_frame (key key' : string) (ttl : Z) (r : redis_store) :
  key ≠ key' → same_at key' r (redis.expire key ttl r).
Proof.
  intros Hne. unfold redis.expire. destruct (bool_decide (0 < ttl)%Z).
  - unfold same_at. cbn [r_strings r_counters r_lists r_sets]. by rewrite !lookup_alter_ne.
  - by apply delete_frame.
Qed.

Lemma sadd_frame (key key' : string) (members : list string) (r : redis_store) :
  key ≠ key' → same_at key' r (redis.sadd key members r).
Proof.
  intros Hne. unfold same_at, redis.sadd, set_sets.
  destruct (r_sets r !! key) as [[s t]|]; cbn [r_strings r_counters r_lists r_sets];
    by rewrite lookup_insert_ne.
Qed.

Lemma srem_frame (key key' m : string) (r : redis_store) :
  key ≠ key' → same_at key' r (redis.srem key m r).
Proof.
  intros Hne. unfold same_at, redis.srem, set_sets.
  destruct (r_sets r !! key) as [[s t]|]; [|done].
  destruct (decide (s ∖ {[m]} = ∅)); cbn [r_strings r_counters r_lists r_sets].
  - by rewrite lookup_delete_ne.
  - by rewrite lookup_insert_ne.
Qed.

Lemma lpush_frame (key key' : string) (v : pydict) (r : redis_store) :
  key ≠ key' → same_at key' r (redis.lpush key v r).
Proof.
  intros Hne. unfold same_at, redis.lpush, set_lists.
  destruct (r_lists r !! key) as [[l t]|]; cbn [r_strings r_counters r_lists r_sets];
    by rewrite lookup_insert_ne.
Qed.

Lemma exists_setex (key : string) (x : string * option Z) (r : redis_store) :
  redis.exists_ key (set_strings <[key := x]> r) = true.
Proof.
  unfold redis.exists_, set_strings. cbn [r_strings].
  rewrite lookup_insert_eq. by rewrite (bool_decide_eq_true_2 (is_Some (Some _))).
Qed.

(** Extra X1.  Presence is a per-user key with a five-minute time to live:
    after [set_user_online(u, status)] the user is online and
    [get_user_status] reads the status back; after [set_user_offline(u)] the
    user is offline and the status is ["offline"]; neither touches the
    presence of another user. *)
Theorem presence_round_trip (u u' status : string) (r : redis_store) :
  u' ≠ u → status ≠ "" →
  let r1 := RedisClient.set_user_online u status r in
  let r2 := RedisClient.set_user_offline u r1 in
  RedisClient.is_user_online u r1 = true
  ∧ RedisClient.get_user_status u r1 = status
  ∧ r_strings r1 !! ("presence:" +:+ u) = Some (status, Some 300%Z)
  ∧ RedisClient.is_user_online u r2 = false
  ∧ RedisClient.get_user_status u r2 = "offline"
  ∧ RedisClient.is_user_online u' r1 = RedisClient.is_user_online u' r
  ∧ RedisClient.get_user_status u' r1 = RedisClient.get_user_status u' r
  ∧ RedisClient.is_user_online u' r2 = RedisClient.is_user_online u' r
  ∧ RedisClient.get_user_status u' r2 = RedisClient.get_user_status u' r.
Proof.
  intros Hu Hs. cbv zeta.
  assert (Hne : "presence:" +:+ u ≠ "presence:" +:+ u') by (by apply key_ne).
  pose proof (setex_frame _ _ (status, Some 300%Z) r Hne) as Hon.
  pose proof (same_at_trans _ _ _ _ Hon
                (delete_frame _ _ (set_strings <["presence:" +:+ u := (status, Some 300%Z)]> r)
                   Hne)) as Hoff.
  rewrite !set_user_online_writes.
  unfold RedisClient.set_user_offline,
    RedisClient.is_user_online, RedisClient.get_user_status, redis.get.
  split_and!.
  - apply exists_setex.
  - unfold set_strings. cbn [r_strings]. rewrite lookup_insert_eq.
    cbn [fmap option_fmap option_map fst]. by rewrite bool_decide_eq_false_2.
  - unfold set_strings. cbn [r_strings]. by rewrite lookup_insert_eq.
  - apply exists_delete.
  - unfold redis.delete. cbn [r_strings]. by rewrite lookup_delete_eq.
  - by apply exists_frame.
  - destruct Hon as (-> & _). done.
  - by apply exists_frame.
  - destruct Hoff as (-> & _). done.
Qed.

Lemma presence_round_trip_witness :
  RedisClient.get_user_status "eve" (RedisClient.set_user_online "eve" "busy" redis_empty)
  = "busy"
  ∧ RedisClient.is_user_online "eve"
      (RedisClient.set_user_offline "eve"
         (RedisClient.set_user_online "eve" "busy" redis_empty)) = false.
Proof.
  destruct (presence_round_trip "eve" "frank" "busy" redis_empty)
    as (_ & H1 & _ & H2 & _); [discriminate | discriminate |].
  split; [exact H1 | exact H2].
Defined.

Lemma exists_of_set (key : string) (r : redis_store) (x : gset string * option Z) :
  r_sets r !! key = Some x → redis.exists_ key r = true.
Proof.
  intros H. unfold redis.exists_. rewrite H.
  rewrite (bool_decide_eq_true_2 (is_Some (Some x))) by eauto. by rewrite !orb_true_r.
Qed.

Lemma cache_room_members_sets (room_id : string) (ids : list string) (ttl : Z)
    (r : redis_store) :
  ids ≠ [] → (0 < ttl)%Z →
  r_sets (RedisClient.cache_room_members room_id ids ttl r) !! ("room_members:" +:+ room_id)
  = Some (list_to_set ids, Some ttl).
Proof.
  intros Hids Hpos. unfold RedisClient.cache_room_members. destruct ids as [|i ids]; [done|].
  rewrite expire_positive by done.
  unfold redis.sadd, redis.delete, set_sets. cbn [r_sets].
  rewrite lookup_delete_eq. cbn [r_sets].
  by rewrite lookup_alter_eq, lookup_insert_eq.
Qed.

(** Extra X2.  [cache_room_members] replaces the cached set of the room.
    With a positive time to live, a non-empty member list is read back by
    [get_cached_room_members] as a duplicate-free list of exactly these
    members, stored with that time to live.  An empty member list leaves no
    cache at all (the old one is cleared), and so does any member list with a
    time to live of zero or less, which makes the EXPIRE delete the set just
    built.  The cache of another room is not touched. *)
Theorem membership_cache_round_trip (room_id : string) (ids : list string) (ttl : Z)
    (r : redis_store) :
  let r' := RedisClient.cache_room_members room_id ids ttl r in
  (ids = [] ∨ (ttl ≤ 0)%Z → RedisClient.get_cached_room_members room_id r' = None)
  ∧ (ids ≠ [] → (0 < ttl)%Z →
     ∃ l, RedisClient.get_cached_room_members room_id r' = Some l
          ∧ NoDup l ∧ (∀ x, x ∈ l ↔ x ∈ ids)
          ∧ snd <$> r_sets r' !! ("room_members:" +:+ room_id) = Some (Some ttl))
  ∧ (∀ room_id', room_id' ≠ room_id →
     RedisClient.get_cached_room_members room_id' r'
     = RedisClient.get_cached_room_members room_id' r).
Proof.
  cbv zeta. split_and!.
  - unfold RedisClient.cache_room_members, RedisClient.get_cached_room_members.
    intros [-> | Hle]; [by rewrite exists_delete|].
    destruct ids as [|i ids]; [by rewrite exists_delete|].
    rewrite expire_nonpositive by done. by rewrite exists_delete.
  - intros Hids Hpos.
    pose proof (cache_room_members_sets room_id ids ttl r Hids Hpos) as Hset.
    unfold RedisClient.get_cached_room_members.
    exists (elements (list_to_set (C := gset string) ids)).
    rewrite (exists_of_set _ _ _ Hset). unfold redis.smembers. rewrite Hset.
    split_and!; [done | apply NoDup_elements | | done].
    intros x. by rewrite elem_of_elements, elem_of_list_to_set.
  - intros room_id' Hne.
    unfold RedisClient.cache_room_members, RedisClient.get_cached_room_members.
    assert (Hk : "room_members:" +:+ room_id ≠ "room_members:" +:+ room_id')
      by (by apply key_ne).
    assert (Hsame : same_at ("room_members:" +:+ room_id') r
              (match ids with
               | [] => redis.delete ("room_members:" +:+ room_id) r
               | _ :: _ => redis.expire ("room_members:" +:+ room_id) ttl
                             (redis.sadd ("room_members:" +:+ room_id) ids
                                (redis.delete ("room_members:" +:+ room_id) r))
               end)).
    { destruct ids as [|i ids]; [by apply delete_frame|].
      eapply same_at_trans; [by apply delete_frame|].
      eapply same_at_trans; [by apply sadd_frame | by apply expire_frame]. }
    rewrite (exists_frame _ _ _ Hsame). unfold redis.smembers.
    destruct Hsame as (_ & _ & _ & ->). done.
Qed.

Lemma membership_cache_round_trip_witness :
  RedisClient.get_cached_room_members "R"
    (RedisClient.cache_room_members "R" [] 300
       (RedisClient.cache_room_members "R" ["bob"] 300 redis_empty)) = None
  ∧ RedisClient.get_cached_room_members "R"
      (RedisClient.cache_room_members "R" ["eve"] 0
         (RedisClient.cache_room_members "R" ["bob"] 300 redis_empty)) = None
  ∧ ∃ l, RedisClient.get_cached_room_members "R"
           (RedisClient.cache_room_members "R" ["eve"; "frank"; "eve"] 300 redis_empty)
         = Some l
         ∧ NoDup l ∧ (∀ x, x ∈ l ↔ x ∈ ["eve"; "frank"; "eve"])
         ∧ snd <$> r_sets (RedisClient.cache_room_members "R" ["eve"; "frank"; "eve"] 300
                             redis_empty) !! ("room_members:" +:+ "R") = Some (Some 300%Z).
Proof.
  split_and!.
  - destruct (membership_cache_round_trip "R" [] 300
                (RedisClient.cache_room_members "R" ["bob"] 300 redis_empty)) as (H & _).
    apply H. by left.
  - destruct (membership_cache_round_trip "R" ["eve"] 0
                (RedisClient.cache_room_members "R" ["bob"] 300 redis_empty)) as (H & _).
    apply H. right. lia.
  - destruct (membership_cache_round_trip "R" ["eve"; "frank"; "eve"] 300 redis_empty)
      as (_ & H & _).
    apply H; [done | lia].
Defined.

Lemma set_typing_sets (room_id user_id : string) (ttl : Z) (r : redis_store) :
  (0 < ttl)%Z →
  r_sets (RedisClient.set_typing room_id user_id ttl r) !! ("typing:" +:+ room_id)
  = Some ({[user_id]} ∪ redis.smembers ("typing:" +:+ room_id) r, Some ttl).
Proof.
  intros Hpos. unfold RedisClient.set_typing. rewrite expire_positive by done.
  unfold redis.sadd, redis.smembers, set_sets.
  destruct (r_sets r !! ("typing:" +:+ room_id)) as [[s t]|] eqn:Hs; cbn [r_sets];
    rewrite lookup_alter_eq, lookup_insert_eq; cbn [fmap option_fmap option_map fst];
    do 2 f_equal; cbn [list_to_set foldr]; by rewrite !(right_id_L ∅ (∪)).
Qed.

Lemma smembers_srem (key m : string) (r : redis_store) :
  redis.smembers key (redis.srem key m r) = redis.smembers key r ∖ {[m]}.
Proof.
  unfold redis.smembers, redis.srem, set_sets.
  destruct (r_sets r !! key) as [[s t]|] eqn:Hs.
  - destruct (decide (s ∖ {[m]} = ∅)) as [He|He]; cbn [r_sets].
    + by rewrite lookup_delete_eq, He.
    + by rewrite lookup_insert_eq.
  - rewrite Hs. by rewrite difference_disjoint_L.
Qed.

Lemma smembers_delete (key : string) (r : redis_store) :
  redis.smembers key (redis.delete key r) = ∅.
Proof. unfold redis.smembers, redis.delete. cbn [r_sets]. by rewrite lookup_delete_eq. Qed.

Lemma typing_users_after_set (room_id user_id v : string) (ttl : Z) (r : redis_store) :
  (0 < ttl)%Z →
  v ∈ RedisClient.get_typing_users room_id (RedisClient.set_typing room_id user_id ttl r)
  ↔ v = user_id ∨ v ∈ RedisClient.get_typing_users room_id r.
Proof.
  intros Hpos. unfold RedisClient.get_typing_users. rewrite !elem_of_elements.
  unfold redis.smembers at 1. rewrite (set_typing_sets room_id user_id ttl r Hpos).
  by rewrite elem_of_union, elem_of_singleton.
Qed.

Lemma typing_users_after_remove (room_id user_id v : string) (r : redis_store) :
  v ∈ RedisClient.get_typing_users room_id (RedisClient.remove_typing room_id user_id r)
  ↔ v ≠ user_id ∧ v ∈ RedisClient.get_typing_users room_id r.
Proof.
  unfold RedisClient.get_typing_users, RedisClient.remove_typing.
  rewrite !elem_of_elements, smembers_srem, elem_of_difference, elem_of_singleton. tauto.
Qed.

Lemma typing_users_without_ttl (room_id user_id : string) (ttl : Z) (r : redis_store) :
  (ttl ≤ 0)%Z →
  RedisClient.get_typing_users room_id (RedisClient.set_typing room_id user_id ttl r) = [].
Proof.
  intros Hle. unfold RedisClient.get_typing_users, RedisClient.set_typing.
  rewrite expire_nonpositive by done. rewrite smembers_delete. apply elements_empty.
Qed.

(** Extra X3.  The typing set of a room.  With a positive time to live,
    [set_typing] adds the user, keeps who was there, and resets the time to
    live of the whole set (so one user's typing prolongs everybody's), and
    [remove_typing] takes exactly that user out again.  With a time to live
    of zero or less [set_typing] empties the room's typing set instead: the
    EXPIRE deletes it, with everybody who was in it.  The set of another room
    is not touched either way. *)
Theorem typing_set_round_trip (room_id user_id : string) (ttl : Z) (r : redis_store) :
  let r1 := RedisClient.set_typing room_id user_id ttl r in
  let r2 := RedisClient.remove_typing room_id user_id r1 in
  ((0 < ttl)%Z →
   (∀ v, v ∈ RedisClient.get_typing_users room_id r1
         ↔ v = user_id ∨ v ∈ RedisClient.get_typing_users room_id r)
   ∧ snd <$> r_sets r1 !! ("typing:" +:+ room_id) = Some (Some ttl)
   ∧ (∀ v, v ∈ RedisClient.get_typing_users room_id r2
           ↔ v ≠ user_id ∧ v ∈ RedisClient.get_typing_users room_id r))
  ∧ ((ttl ≤ 0)%Z →
     RedisClient.get_typing_users room_id r1 = []
     ∧ redis.exists_ ("typing:" +:+ room_id) r1 = false)
  ∧ (∀ room_id', room_id' ≠ room_id →
     RedisClient.get_typing_users room_id' r1 = RedisClient.get_typing_users room_id' r
     ∧ RedisClient.get_typing_users room_id' r2 = RedisClient.get_typing_users room_id' r).
Proof.
  cbv zeta. split_and!.
  - intros Hpos. pose proof (set_typing_sets room_id user_id ttl r Hpos) as Hset.
    assert (Hmem : redis.smembers ("typing:" +:+ room_id)
                     (RedisClient.set_typing room_id user_id ttl r)
                   = {[user_id]} ∪ redis.smembers ("typing:" +:+ room_id) r).
    { unfold redis.smembers at 1. by rewrite Hset. }
    unfold RedisClient.get_typing_users, RedisClient.remove_typing. split_and!.
    + intros v. rewrite !elem_of_elements, Hmem, elem_of_union, elem_of_singleton. done.
    + by rewrite Hset.
    + intros v.
      rewrite !elem_of_elements, smembers_srem, Hmem, elem_of_difference, elem_of_union,
        !elem_of_singleton.
      split; [intros [[?|?] ?]; done | intros [? ?]; auto].
  - intros Hle. unfold RedisClient.get_typing_users, RedisClient.set_typing.
    rewrite expire_nonpositive by done. rewrite smembers_delete, exists_delete.
    split; [apply elements_empty | done].
  - intros room_id' Hne.
    unfold RedisClient.get_typing_users, RedisClient.remove_typing.
    assert (Hk : "typing:" +:+ room_id ≠ "typing:" +:+ room_id') by (by apply key_ne).
    assert (H1 : same_at ("typing:" +:+ room_id') r
                   (RedisClient.set_typing room_id user_id ttl r)).
    { unfold RedisClient.set_typing.
      eapply same_at_trans; [by apply sadd_frame | by apply expire_frame]. }
    pose proof (same_at_trans _ _ _ _ H1
                  (srem_frame _ _ user_id
                     (RedisClient.set_typing room_id user_id ttl r) Hk)) as H2.
    unfold redis.smembers.
    destruct H1 as (_ & _ & _ & ->). destruct H2 as (_ & _ & _ & ->). done.
Qed.

Lemma typing_set_round_trip_witness :
  let r0 := RedisClient.set_typing "R" "zoe" 10 redis_empty in
  let r1 := RedisClient.set_typing "R" "eve" 10 r0 in
  let r2 := RedisClient.remove_typing "R" "eve" r1 in
  "eve" ∈ RedisClient.get_typing_users "R" r1
  ∧ "zoe" ∈ RedisClient.get_typing_users "R" r1
  ∧ ("eve" ∉ RedisClient.get_typing_users "R" r2)
  ∧ "zoe" ∈ RedisClient.get_typing_users "R" r2
  ∧ RedisClient.get_typing_users "R" (RedisClient.set_typing "R" "eve" 0 r0) = [].
Proof.
  cbv zeta.
  set (r0 := RedisClient.set_typing "R" "zoe" 10 redis_empty).
  assert (Hzoe : "zoe" ∈ RedisClient.get_typing_users "R" r0).
  { destruct (typing_set_round_trip "R" "zoe" 10 redis_empty) as (H & _).
    destruct (H ltac:(lia)) as (Hin & _). apply Hin. by left. }
  destruct (typing_set_round_trip "R" "eve" 10 r0) as (Hpos & _ & _).
  destruct (Hpos ltac:(lia)) as (Hin & _ & Hout).
  destruct (typing_set_round_trip "R" "eve" 0 r0) as (_ & Hzero & _).
  destruct (Hzero ltac:(lia)) as [Hgone _].
  split_and!.
  - apply Hin. by left.
  - apply Hin. by right.
  - intros [Hne _]%Hout. done.
  - apply Hout. split; [discriminate | exact Hzoe].
  - exact Hgone.
Defined.

Lemma queue_message_lists (retention : Z) (user_id : string) (m : pydict) (r : redis_store) :
  (0 < retention)%Z →
  r_lists (RedisClient.queue_message retention user_id m r) !! ("queue:" +:+ user_id)
  = Some (m :: redis.lrange_all ("queue:" +:+ user_id) r, Some retention).
Proof.
  intros Hpos. unfold RedisClient.queue_message. rewrite expire_positive by done.
  unfold redis.lpush, redis.lrange_all, set_lists.
  destruct (r_lists r !! ("queue:" +:+ user_id)) as [[l t]|]; cbn [r_lists];
    by rewrite lookup_alter_eq, lookup_insert_eq.
Qed.

(** Extra X4.  Offline queues are per user and consumed once.  With a
    positive retention, [queue_message(u, m)] puts [m] at the head of [u]'s
    list and sets the list's time to live to the retention (again at every
    push); [get_queued_messages(u)] returns the whole list and a second call
    returns nothing.  With a retention of zero or less [queue_message] leaves
    no list at all: the EXPIRE deletes it, older envelopes included.  The
    queue of another user is read the same before and after. *)
Theorem offline_queue_per_user (retention : Z) (u u' : string) (m : pydict)
    (r : redis_store) :
  u' ≠ u →
  let r1 := RedisClient.queue_message retention u m r in
  let r2 := (RedisClient.get_queued_messages u r1).2 in
  ((0 < retention)%Z →
   r_lists r1 !! ("queue:" +:+ u)
   = Some (m :: redis.lrange_all ("queue:" +:+ u) r, Some retention)
   ∧ (RedisClient.get_queued_messages u r1).1 = m :: redis.lrange_all ("queue:" +:+ u) r)
  ∧ ((retention ≤ 0)%Z →
     (RedisClient.get_queued_messages u r1).1 = []
     ∧ redis.exists_ ("queue:" +:+ u) r1 = false)
  ∧ (RedisClient.get_queued_messages u r2).1 = []
  ∧ redis.exists_ ("queue:" +:+ u) r2 = false
  ∧ (RedisClient.get_queued_messages u' r1).1 = (RedisClient.get_queued_messages u' r).1
  ∧ (RedisClient.get_queued_messages u' r2).1 = (RedisClient.get_queued_messages u' r).1.
Proof.
  intros Hu. cbv zeta.
  assert (Hk : "queue:" +:+ u ≠ "queue:" +:+ u') by (by apply key_ne).
  assert (H1 : same_at ("queue:" +:+ u') r (RedisClient.queue_message retention u m r)).
  { unfold RedisClient.queue_message.
    eapply same_at_trans; [by apply lpush_frame | by apply expire_frame]. }
  pose proof (same_at_trans _ _ _ _ H1
                (delete_frame _ _ (RedisClient.queue_message retention u m r) Hk)) as H2.
  unfold RedisClient.get_queued_messages. cbn [fst snd]. split_and!.
  - intros Hpos. pose proof (queue_message_lists retention u m r Hpos) as Hq.
    split; [exact Hq|]. unfold redis.lrange_all at 1. by rewrite Hq.
  - intros Hle. by apply queue_message_without_retention.
  - apply lrange_all_delete.
  - apply exists_delete.
  - unfold redis.lrange_all. destruct H1 as (_ & _ & -> & _). done.
  - unfold redis.lrange_all. destruct H2 as (_ & _ & -> & _). done.
Qed.

Lemma offline_queue_per_user_witness :
  let r0 := RedisClient.queue_message 86400 "frank" scenario.E1 redis_empty in
  (RedisClient.get_queued_messages "frank"
     (RedisClient.queue_message 86400 "frank" scenario.E2 r0)).1 = [scenario.E2; scenario.E1]
  ∧ (RedisClient.get_queued_messages "eve"
       (RedisClient.queue_message 86400 "frank" scenario.E2 r0)).1 = []
  ∧ (RedisClient.get_queued_messages "frank"
       (RedisClient.queue_message 0 "frank" scenario.E2 r0)).1 = [].
Proof.
  cbv zeta.
  set (r0 := RedisClient.queue_message 86400 "frank" scenario.E1 redis_empty).
  destruct (offline_queue_per_user 86400 "frank" "eve" scenario.E2 r0)
    as (Hpos & _ & _ & _ & H2 & _); [discriminate|].
  destruct (Hpos ltac:(lia)) as [_ H1].
  destruct (offline_queue_per_user 0 "frank" "eve" scenario.E2 r0)
    as (_ & Hzero & _); [discriminate|].
  destruct (Hzero ltac:(lia)) as [H3 _].
  split_and!; [exact H1 | exact H2 | exact H3].
Defined.

(** Extra X5.  Rate counters are per user: a check for [u], let through or
    not, leaves the counter of every other user as it was, so it never
    changes the answer another user gets. *)
Theorem rate_limit_per_user (u u' : string) (limit limit' window window' : Z)
    (r : redis_store) :
  u' ≠ u →
  let r1 := (RedisClient.check_rate_limit u limit window r).2 in
  r_counters r1 !! ("ratelimit:" +:+ u') = r_counters r !! ("ratelimit:" +:+ u')
  ∧ (RedisClient.check_rate_limit u' limit' window' r1).1
    = (RedisClient.check_rate_limit u' limit' window' r).1.
Proof.
  intros Hu. cbv zeta.
  assert (Hk : "ratelimit:" +:+ u ≠ "ratelimit:" +:+ u') by (by apply key_ne).
  assert (Hc : r_counters (RedisClient.check_rate_limit u limit window r).2
               !! ("ratelimit:" +:+ u') = r_counters r !! ("ratelimit:" +:+ u')).
  { unfold RedisClient.check_rate_limit, RedisClient.rate_limit_decide, redis.get_int,
      redis.setex_int, redis.incr, set_counters.
    destruct (r_counters r !! ("ratelimit:" +:+ u)) as [[c t]|]; cbn.
    - destruct (c >=? limit)%Z; cbn; [done | by rewrite lookup_insert_ne].
    - destruct (bool_decide (0 < window)%Z); cbn; [by rewrite lookup_insert_ne | done]. }
  split; [exact Hc|].
  unfold RedisClient.check_rate_limit at 1 3, RedisClient.rate_limit_decide, redis.get_int.
  rewrite Hc.
  destruct (r_counters r !! ("ratelimit:" +:+ u')) as [[c t]|]; cbn.
  - by destruct (c >=? limit')%Z.
  - unfold redis.setex_int. by destruct (bool_decide (0 < window')%Z).
Qed.

Lemma rate_limit_per_user_witness :
  (RedisClient.check_rate_limit "frank" 1 60
     (RedisClient.check_rate_limit "eve" 1 60
        (RedisClient.check_rate_limit "eve" 1 60 redis_empty).2).2).1
  = (RedisClient.check_rate_limit "frank" 1 60
       (RedisClient.check_rate_limit "eve" 1 60 redis_empty).2).1.
Proof.
  apply (rate_limit_per_user "eve" "frank" 1 1 60 60
           (RedisClient.check_rate_limit "eve" 1 60 redis_empty).2).
  discriminate.
Defined.


(** * The handshake: token carriers and admission *)

Lemma substring_all (s : string) : String.substring 0 (String.length s) s = s.
Proof. induction s as [|c s IH]; simpl; [done | by rewrite IH]. Qed.

Lemma bearer_prefix (t : string) : String.prefix "Bearer " ("Bearer " +:+ t) = true.
Proof. simpl. by destruct t. Qed.

Lemma bearer_strip (t : string) :
  String.substring 7 (String.length ("Bearer " +:+ t) - 7) ("Bearer " +:+ t) = t.
Proof. simpl. rewrite Nat.sub_0_r. apply substring_all. Qed.

(** Extra X6.  The token of a handshake: the [token] entry of the auth object
    is taken as it is and shadows [Authorization], also when it is empty; an
    [Authorization] entry [Bearer t] yields [t]; an entry that does not start
    with [Bearer ] (the match is case-sensitive), or no entry, yields none.  A
    handshake whose [token] is empty is therefore refused even when a good
    bearer token comes with it. *)
Theorem extract_token_carriers (jwt_decode : string → result claims) (auth_data : auth_dict)
    (t : string) :
  (auth_data !! "token" = Some t → extract_token_from_handshake auth_data = Some t)
  ∧ (auth_data !! "token" = None → auth_data !! "Authorization" = Some ("Bearer " +:+ t) →
     extract_token_from_handshake auth_data = Some t)
  ∧ (auth_data !! "token" = None →
     (∀ h, auth_data !! "Authorization" = Some h → String.prefix "Bearer " h = false) →
     extract_token_from_handshake auth_data = None)
  ∧ (auth_data !! "token" = Some "" →
     ∀ sid envrion w,
       connect jwt_decode sid envrion (Some auth_data) w
       = (Ok false, World (connected_user w) (store w) (database w) (emitted w) (sio_rooms w)
                          (closed w ++ [sid]) (now w))).
Proof.
  unfold extract_token_from_handshake. split_and!.
  - by intros ->.
  - intros -> ->. by rewrite bearer_prefix, bearer_strip.
  - intros -> Hh. destruct (auth_data !! "Authorization") as [h|]; [|done].
    by rewrite (Hh h).
  - intros Ht sid envrion w. unfold connect, extract_token_from_handshake.
    cbn [default from_option id]. by rewrite Ht.
Qed.

Lemma extract_token_carriers_witness :
  extract_token_from_handshake {[ "Authorization" := "Bearer " +:+ "abc.def" ]}
  = Some "abc.def"
  ∧ extract_token_from_handshake {[ "Authorization" := "bearer abc.def" ]} = None
  ∧ connect scenario.jwt_decode "s9" []
      (Some {[ "token" := ""; "Authorization" := "Bearer good" ]}) scenario.handshake
    = (Ok false, World [] (store scenario.handshake) (database scenario.handshake) [] []
                       ["s9"] "t1").
Proof.
  split_and!.
  - destruct (extract_token_carriers scenario.jwt_decode
                {[ "Authorization" := "Bearer " +:+ "abc.def" ]} "abc.def") as (_ & H & _).
    apply H; reflexivity.
  - destruct (extract_token_carriers scenario.jwt_decode
                {[ "Authorization" := "bearer abc.def" ]} "") as (_ & _ & H & _).
    apply H; [reflexivity|]. intros h [= <-]. reflexivity.
  - destruct (extract_token_carriers scenario.jwt_decode
                {[ "token" := ""; "Authorization" := "Bearer good" ]} "") as (_ & _ & _ & H).
    apply (H eq_refl "s9" [] scenario.handshake).
Defined.

(** Extra X7.  [connect] admits nobody.  When the handshake carries no token,
    an empty one, or one that [verify_jwt_token] rejects, it disconnects the
    socket and returns [False], changing nothing else; in every other case it
    raises [TypeError] from [set_user_session] and leaves the world as it
    was.  It never returns [True] and never adds a socket to the registry. *)
Theorem connect_admits_nobody (jwt_decode : string → result claims) (sid : string)
    (envrion : list (string * string)) (auth : option auth_dict) (w : world) :
  let res := connect jwt_decode sid envrion auth w in
  let acceptable :=
    from_option (λ t, bool_decide (is_Some (verify_jwt_token jwt_decode t))) false
      (required (extract_token_from_handshake (default ∅ auth))) in
  (acceptable = false →
     res = (Ok false, World (connected_user w) (store w) (database w) (emitted w)
                            (sio_rooms w) (closed w ++ [sid]) (now w)))
  ∧ (acceptable = true →
     res = (Raise (TypeError "dump() missing 1 required positional argument: 'fp'"), w))
  ∧ res.1 ≠ Ok true
  ∧ connected_user res.2 = connected_user w
  ∧ store res.2 = store w
  ∧ emitted res.2 = emitted w.
Proof.
  cbv zeta.
  destruct (required (extract_token_from_handshake (default ∅ auth))) as [token|] eqn:Htok.
  - destruct (verify_jwt_token jwt_decode token) as [ud|] eqn:Hver; cbn [from_option].
    + rewrite (connect_valid_token_raises _ _ _ _ _ _ _ Htok Hver).
      rewrite Hver, bool_decide_eq_true_2 by eauto.
      split_and!; try done; by intros [=].
    + assert (Hrun : connect jwt_decode sid envrion auth w
                     = (Ok false, World (connected_user w) (store w) (database w) (emitted w)
                                        (sio_rooms w) (closed w ++ [sid]) (now w))).
      { unfold connect. by rewrite Htok, Hver. }
      rewrite Hrun, Hver. rewrite bool_decide_eq_false_2 by apply is_Some_None.
      split_and!; try done; by intros [=].
  - assert (Hrun : connect jwt_decode sid envrion auth w
                   = (Ok false, World (connected_user w) (store w) (database w) (emitted w)
                                      (sio_rooms w) (closed w ++ [sid]) (now w))).
    { unfold connect. by rewrite Htok. }
    rewrite Hrun. cbn [from_option]. split_and!; try done; by intros [=].
Qed.

Lemma connect_admits_nobody_witness :
  connect scenario.jwt_decode "s9" [] (Some {[ "token" := "forged" ]}) scenario.handshake
  = (Ok false, World [] (store scenario.handshake) (database scenario.handshake) [] []
                     ["s9"] "t1")
  ∧ connect scenario.jwt_decode "s9" [] (Some {[ "Authorization" := "Bearer good" ]})
      scenario.handshake
    = (Raise (TypeError "dump() missing 1 required positional argument: 'fp'"),
       scenario.handshake).
Proof.
  split.
  - destruct (connect_admits_nobody scenario.jwt_decode "s9" []
                (Some {[ "token" := "forged" ]}) scenario.handshake) as (H & _).
    apply H. reflexivity.
  - destruct (connect_admits_nobody scenario.jwt_decode "s9" []
                (Some {[ "Authorization" := "Bearer good" ]}) scenario.handshake)
      as (_ & H & _).
    apply H. reflexivity.
Defined.

(** * Sockets that are not in the registry *)

Lemma inert_refl (w : world) : inert w w.
Proof.
  unfold inert. split_and!; try done. exists []. by rewrite app_nil_r.
Qed.

Lemma inert_trans (x y z : world) : inert x y → inert y z → inert x z.
Proof.
  intros (H1 & H2 & H3 & H4 & e1 & H5 & H6) (H7 & H8 & H9 & H10 & e2 & H11 & H12).
  unfold inert. split_and!; [congruence | congruence | congruence | auto |].
  exists (e1 ++ e2). split; [by rewrite H11, H5, app_assoc | by apply Forall_app].
Qed.

Lemma inert_error (sid message : string) (w : world) :
  inert w (emitting (error_to sid message) w).
Proof.
  unfold inert. split_and!; try done. exists [error_to sid message].
  split; [done | by constructor].
Qed.

Lemma inert_requesting (b : builder) (w : world) : inert w (requesting b w).
Proof. unfold inert. split_and!; try done. exists []. by rewrite app_nil_r. Qed.

Lemma user_of_spec (sid : string) (w : world) :
  _get_user_id_from_sid sid w = (Ok (user_of sid w), w).
Proof. reflexivity. Qed.

Lemma select_sender_none (m : string) (rows : list row) :
  List.filter (pg.selected [Feq "id" (VStr m); Feq "sender_id" VNone]) rows = [].
Proof.
  apply filter_nil_of_all_false. intros r _. apply not_true_is_false.
  intros (_ & h & [=] & _)%(selected_id_sender r m None).
Qed.

Lemma service_edit_anonymous (m c : string) (w : world) :
  MessageService.edit_message m None c w
  = (Ok None,
     requesting (Builder "messages" (Select ["*"]) [Feq "id" (VStr m); Feq "sender_id" VNone])
       w).
Proof.
  unfold MessageService.edit_message, try_except.
  destruct (tables (database w) !! "messages") as [rows|] eqn:Hrows.
  - erewrite bind_ok by (by eapply execute_select).
    cbn [b_filters pg.eq pg.select app of_opt_str]. by rewrite select_sender_none.
  - erewrite bind_raise by (by eapply execute_missing_table). done.
Qed.

Lemma service_delete_anonymous (m : string) (w : world) :
  MessageService.delete_message m None w
  = (Ok None,
     requesting (Builder "messages" (Select ["room_id"])
                   [Feq "id" (VStr m); Feq "sender_id" VNone]) w).
Proof.
  unfold MessageService.delete_message, try_except.
  destruct (tables (database w) !! "messages") as [rows|] eqn:Hrows.
  - erewrite bind_ok by (by eapply execute_select).
    cbn [b_filters pg.eq pg.select app of_opt_str]. by rewrite select_sender_none.
  - erewrite bind_raise by (by eapply execute_missing_table). done.
Qed.

Lemma required_None_of (o : option string) : o = None → required o = None.
Proof. by intros ->. Qed.

Lemma unregistered_call (jwt_decode : string → result claims)
    (settings : Settings) (c : call) (w : world) :
  user_of (call_sid c) w = None →
  (∀ sid envrion auth, c ≠ Connect sid envrion auth) →
  inert w (dispatch jwt_decode settings c w)
  ∧ (∀ sid, c = Disconnect sid → dispatch jwt_decode settings c w = w).
Proof.
  intros Hu Hc.
  destruct c as [sid e a|sid|sid data|sid data|sid data|sid data|sid data|sid data|sid data
                |sid data]; cbn [call_sid dispatch] in *.
  - by destruct (Hc sid e a).
  - assert (Hf : List.find (λ p : string * list string, bool_decide (sid ∈ p.2))
                   (connected_user w) = None).
    { unfold user_of in Hu. by destruct (List.find _ _). }
    rewrite (disconnect_unknown sid w Hf). split; [apply inert_refl | done].
  - split; [|done]. unfold join_room, try_except.
    destruct (required (data !! "room_id")) as [room_id|]; [|apply inert_error].
    erewrite bind_ok by apply user_of_spec. rewrite Hu. apply inert_error.
  - split; [|done]. unfold leave_room, try_except.
    destruct (required (data !! "room_id")) as [room_id|]; [|apply inert_refl].
    erewrite bind_ok by apply user_of_spec. rewrite Hu.
    apply inert_refl.
  - split; [|done]. unfold send_message, try_except.
    destruct (required (data !! "room_id")) as [room_id|]; [|apply inert_error].
    erewrite bind_ok by apply user_of_spec. rewrite Hu. apply inert_error.
  - split; [|done]. unfold edit_message, try_except.
    destruct (required (data !! "message_id")) as [m|]; [|apply inert_error].
    destruct (required (data !! "content")) as [content|]; [|apply inert_error].
    erewrite bind_ok by apply user_of_spec. rewrite Hu.
    erewrite bind_ok by apply service_edit_anonymous.
    eapply inert_trans; [apply inert_requesting | apply inert_error].
  - split; [|done]. unfold delete_message, try_except.
    destruct (required (data !! "message_id")) as [m|]; [|apply inert_error].
    erewrite bind_ok by apply user_of_spec. rewrite Hu.
    erewrite bind_ok by apply service_delete_anonymous.
    eapply inert_trans; [apply inert_requesting | apply inert_error].
  - split; [|done]. unfold typing_start, try_except.
    destruct (required (data !! "room_id")) as [room_id|]; [|apply inert_refl].
    erewrite bind_ok by apply user_of_spec. rewrite Hu. apply inert_refl.
  - split; [|done]. unfold typing_stop, try_except.
    destruct (required (data !! "room_id")) as [room_id|]; [|apply inert_refl].
    erewrite bind_ok by apply user_of_spec. rewrite Hu. apply inert_refl.
  - split; [|done]. unfold update_status, try_except.
    destruct (PresenceService.valid_status (default "online" (data !! "status")));
      cbn [negb]; [|apply inert_error].
    erewrite bind_ok by apply user_of_spec. rewrite Hu. apply inert_refl.
Qed.

(** Extra X8.  A socket that is not in the registry cannot do anything: its
    room, message, typing and status events change neither the registry, the
    ephemeral store nor any table, let no socket enter a room, and emit
    nothing but [error] events; [edit_message] and [delete_message] only read
    the repository; [disconnect] does nothing at all. *)
Theorem unregistered_socket_is_inert (jwt_decode : string → result claims)
    (settings : Settings) (c : call) (w : world) :
  user_of (call_sid c) w = None →
  (∀ sid envrion auth, c ≠ Connect sid envrion auth) →
  inert w (dispatch jwt_decode settings c w)
  ∧ (∀ sid, c = Disconnect sid → dispatch jwt_decode settings c w = w).
Proof. apply unregistered_call. Qed.

Lemma unregistered_socket_is_inert_witness :
  inert scenario.eve_and_frank
    (dispatch scenario.jwt_decode default_settings
       (SendMessage "s2" {[ "room_id" := "R"; "content" := "hi" ]}) scenario.eve_and_frank).
Proof.
  apply (unregistered_socket_is_inert scenario.jwt_decode default_settings
           (SendMessage "s2" {[ "room_id" := "R"; "content" := "hi" ]})
           scenario.eve_and_frank); [reflexivity | discriminate].
Defined.

Lemma connect_inert (jwt_decode : string → result claims) (sid : string)
    (envrion : list (string * string)) (auth : option auth_dict) (w : world) :
  inert w (connect jwt_decode sid envrion auth w).2.
Proof.
  destruct (connect_outcome jwt_decode sid envrion auth w) as [-> | ->].
  - unfold inert. cbn. split_and!; try done.
    exists []. by rewrite app_nil_r.
  - apply inert_refl.
Qed.

Lemma user_of_empty (sid : string) (w : world) : connected_user w = [] → user_of sid w = None.
Proof. unfold user_of. by intros ->. Qed.

(** Extra X9.  Starting with an empty registry, no sequence of events gets
    anything done: after any calls of [connect], [disconnect] and the room,
    message, typing and status handlers the registry is still empty, the
    ephemeral store and all tables are as they were, no socket is in a room,
    and every event emitted was an [error]. *)
Theorem empty_registry_stays_empty (jwt_decode : string → result claims)
    (settings : Settings) (cs : list call) (w : world) :
  connected_user w = [] →
  inert w (run jwt_decode settings cs w)
  ∧ connected_user (run jwt_decode settings cs w) = [].
Proof.
  intros Hw.
  assert (H : inert w (run jwt_decode settings cs w)); [|split; [done|]].
  2:{ destruct H as (-> & _). done. }
  revert w Hw. induction cs as [|c cs IH]; intros w Hw; [apply inert_refl|].
  cbn [run foldl]. fold (run jwt_decode settings cs (dispatch jwt_decode settings c w)).
  assert (Hstep : inert w (dispatch jwt_decode settings c w)).
  { destruct c as [sid e a| | | | | | | | | ] eqn:Hc.
    1: apply connect_inert.
    all: rewrite <- Hc; apply unregistered_call;
      [by apply user_of_empty | by rewrite Hc]. }
  eapply inert_trans; [exact Hstep|]. apply IH.
  destruct Hstep as (-> & _). done.
Qed.

Lemma empty_registry_stays_empty_witness :
  connected_user
    (run scenario.jwt_decode default_settings
       [Connect "s9" [] (Some {[ "token" := "good" ]});
        JoinRoom "s9" {[ "room_id" := "R" ]};
        SendMessage "s9" {[ "room_id" := "R"; "content" := "hi" ]};
        Disconnect "s9"] scenario.handshake) = [].
Proof.
  apply (empty_registry_stays_empty scenario.jwt_decode default_settings
           [Connect "s9" [] (Some {[ "token" := "good" ]});
            JoinRoom "s9" {[ "room_id" := "R" ]};
            SendMessage "s9" {[ "room_id" := "R"; "content" := "hi" ]};
            Disconnect "s9"] scenario.handshake).
  reflexivity.
Defined.

(** * Rooms and typing, for a socket of the registry *)

Lemma try_except_returns {A : Type} (body : io A) (handler : exn → io A) (w : world) :
  (∀ e w', ∃ a w'', handler e w' = (Ok a, w'')) →
  ∃ a w', try_except body handler w = (Ok a, w').
Proof.
  intros Hh. unfold try_except. destruct (body w) as [[a|e] w1]; [eauto | apply Hh].
Qed.

Lemma check_room_membership_returns (user_id room_id : string) (w : world) :
  ∃ (is_member : bool) (w1 : world),
    _check_room_membership user_id room_id w = (Ok is_member, w1).
Proof. apply try_except_returns. intros e w'. by eexists _, _. Qed.

Lemma required_nonempty (u : string) : u ≠ "" → required (Some u) = Some u.
Proof. intros Hu. unfold required, truthy. by rewrite bool_decide_eq_false_2. Qed.

(** ** What a step leaves alone *)

Lemma preserves_bind {A B : Type} (P : world → Prop) (m : io A) (f : A → io B) :
  (∀ w, P w → P (m w).2) → (∀ a w, P w → P (f a w).2) →
  ∀ w, P w → P ((m ≫= f) w).2.
Proof.
  intros Hm Hf w Hw. unfold mbind, io_bind. specialize (Hm w Hw).
  destruct (m w) as [[a|e] w1]; cbn [snd] in *; [by apply Hf | done].
Qed.

Lemma preserves_try_except {A : Type} (P : world → Prop) (body : io A)
    (handler : exn → io A) :
  (∀ w, P w → P (body w).2) → (∀ e w, P w → P (handler e w).2) →
  ∀ w, P w → P (try_except body handler w).2.
Proof.
  intros Hb Hh w Hw. unfold try_except. specialize (Hb w Hw).
  destruct (body w) as [[a|e] w1]; cbn [snd] in *; [done | by apply Hh].
Qed.

(** The membership check does not touch the rooms of the server. *)
Lemma check_room_membership_rooms (user_id room_id : string) (w : world) :
  sio_rooms (_check_room_membership user_id room_id w).2 = sio_rooms w.
Proof.
  set (P := λ w' : world, sio_rooms w' = sio_rooms w).
  assert (Hex : ∀ b w', P w' → P (execute b w').2).
  { intros b w' Hw'. unfold execute. by destruct (pg.execute b (database w')). }
  assert (Hst : ∀ A (f : redis_store → A * redis_store) w', P w' → P (with_store f w').2).
  { intros A f w' Hw'. unfold with_store. by destruct (f (store w')). }
  assert (Hret : ∀ A (a : A) w', P w' → P ((mret a : io A) w').2) by done.
  change (P (_check_room_membership user_id room_id w).2).
  unfold _check_room_membership.
  apply preserves_try_except; [| by intros e; apply Hret | done].
  apply preserves_bind; [apply Hst|].
  intros [[|m ms]|]; try apply Hret.
  all: apply preserves_bind; [apply Hex | intros result].
  all: apply preserves_bind; [| intros _; apply Hret].
  all: destruct (bool_decide (0 < length result)); [| apply Hret].
  all: apply preserves_bind; [apply Hex | intros all_members].
  all: apply preserves_bind; [by intros w' Hw'; unfold lift_result | intros ids].
  all: apply Hst.
Qed.

(** Extra X10.  [join_room] over a socket of the registry answers as
    [_check_room_membership] decides for its user: on yes it announces
    [user_joined_room] to the room except the socket itself and sends the
    [room_joined] confirmation to the room as a whole, not to the socket; on
    no the only effect beyond the check is the error to the socket.  In
    neither case does the socket enter the room: [sio.enter_room] is called
    without [await], so the rooms of the server are what they were. *)
Theorem join_room_admission (sid room_id user_id : string) (data : event_data) (w : world) :
  required (data !! "room_id") = Some room_id →
  user_of sid w = Some user_id → user_id ≠ "" →
  ∃ (is_member : bool) (w1 : world),
    _check_room_membership user_id room_id w = (Ok is_member, w1)
    ∧ join_room sid data w
      = (Ok tt,
         if is_member
         then put_emitted
                (emitted w1
                 ++ [Emit "user_joined_room"
                       {[ "user_id" := VStr user_id; "room_id" := VStr room_id ]}
                       (Some (VStr room_id)) (Some sid);
                     Emit "room_joined" {[ "room_id" := VStr room_id ]}
                       (Some (VStr room_id)) None]) w1
         else emitting (error_to sid "Not a member of this room") w1)
    ∧ sio_rooms (join_room sid data w).2 = sio_rooms w.
Proof.
  intros Hroom Hu Hne.
  destruct (check_room_membership_returns user_id room_id w) as (b & w1 & Hcheck).
  pose proof (check_room_membership_rooms user_id room_id w) as Hrooms.
  rewrite Hcheck in Hrooms. cbn [snd] in Hrooms.
  assert (Hrun : join_room sid data w
    = (Ok tt,
       if b
       then put_emitted
              (emitted w1
               ++ [Emit "user_joined_room"
                     {[ "user_id" := VStr user_id; "room_id" := VStr room_id ]}
                     (Some (VStr room_id)) (Some sid);
                   Emit "room_joined" {[ "room_id" := VStr room_id ]}
                     (Some (VStr room_id)) None]) w1
       else emitting (error_to sid "Not a member of this room") w1)).
  { unfold join_room, try_except. rewrite Hroom.
    erewrite bind_ok by apply user_of_spec. rewrite Hu, (required_nonempty _ Hne).
    erewrite bind_ok by exact Hcheck.
    destruct b; cbn [negb]; [|done].
    unfold mbind, io_bind, sio.enter_room, sio.emit, mret, io_ret, put_emitted. cbn.
    by rewrite <- app_assoc. }
  exists b, w1. split_and!; [done | exact Hrun |].
  rewrite Hrun. by destruct b.
Qed.

Lemma join_room_admission_witness :
  ∃ w1 : world,
    _check_room_membership "eve" "R" scenario.eve_and_frank = (Ok true, w1)
    ∧ emitted (join_room "s1" {[ "room_id" := "R" ]} scenario.eve_and_frank).2
      = [Emit "user_joined_room" {[ "user_id" := VStr "eve"; "room_id" := VStr "R" ]}
           (Some (VStr "R")) (Some "s1");
         Emit "room_joined" {[ "room_id" := VStr "R" ]} (Some (VStr "R")) None]
    ∧ sio_rooms (join_room "s1" {[ "room_id" := "R" ]} scenario.eve_and_frank).2 = [].
Proof.
  destruct (join_room_admission "s1" "R" "eve" {[ "room_id" := "R" ]} scenario.eve_and_frank)
    as (b & w1 & Hcheck & Hrun & Hrooms); [reflexivity | reflexivity | discriminate |].
  assert (Hb : b = true).
  { assert (H : (_check_room_membership "eve" "R" scenario.eve_and_frank).1 = Ok true)
      by (vm_compute; reflexivity).
    rewrite Hcheck in H. by injection H. }
  subst b. exists w1. split_and!; [exact Hcheck | | exact Hrooms].
  rewrite Hrun. cbn [snd put_emitted emitted].
  assert (He : emitted (_check_room_membership "eve" "R" scenario.eve_and_frank).2 = [])
    by (vm_compute; reflexivity).
  rewrite Hcheck in He. cbn [snd] in He. by rewrite He.
Defined.

(** Extra X11.  [leave_room] asks nobody and takes nobody out: for any
    socket, registered or not and member or not, it reads neither the
    repository nor the ephemeral store, and since [sio.leave_room] is called
    without [await] the rooms of the server are what they were, the socket
    still in the room it asked to leave; [user_left_room] is nevertheless
    announced to the room whenever the socket belongs to a user. *)
Theorem leave_room_unconditional (sid room_id : string) (data : event_data) (w : world) :
  required (data !! "room_id") = Some room_id →
  let w' := (leave_room sid data w).2 in
  sio_rooms w' = sio_rooms w
  ∧ store w' = store w ∧ database w' = database w ∧ connected_user w' = connected_user w
  ∧ emitted w'
    = emitted w
      ++ match required (user_of sid w) with
         | Some user_id =>
             [Emit "user_left_room"
                {[ "user_id" := VStr user_id; "room_id" := VStr room_id ]}
                (Some (VStr room_id)) None]
         | None => []
         end.
Proof.
  intros Hroom. cbv zeta. unfold leave_room, try_except. rewrite Hroom.
  erewrite bind_ok by apply user_of_spec.
  destruct (required (user_of sid w)) as [user_id|]; cbn; rewrite ?app_nil_r.
  all: by split_and!.
Qed.

Lemma leave_room_unconditional_witness :
  let w := World [("eve", ["s1"])] redis_empty (scenario.db [] []) [] [("s1", VStr "R")] []
                 "t1" in
  ("s1", VStr "R") ∈ sio_rooms (leave_room "s1" {[ "room_id" := "R" ]} w).2
  ∧ emitted (leave_room "s1" {[ "room_id" := "R" ]} w).2
    = [Emit "user_left_room" {[ "user_id" := VStr "eve"; "room_id" := VStr "R" ]}
         (Some (VStr "R")) None].
Proof.
  cbv zeta.
  destruct (leave_room_unconditional "s1" "R" {[ "room_id" := "R" ]}
              (World [("eve", ["s1"])] redis_empty (scenario.db [] []) []
                     [("s1", VStr "R")] [] "t1"))
    as (Hrooms & _ & _ & _ & Hemit); [reflexivity|].
  split.
  - rewrite Hrooms. apply list_elem_of_here.
  - exact Hemit.
Defined.

(** Extra X12.  Typing indicators need a registered socket and nothing else:
    [typing_start] runs [set_typing] with the configured time to live and
    announces [user_typing] to the room except the socket, without reading
    the repository (membership of the room is not checked); a following
    [typing_stop] takes the user out of the set and announces
    [user_stopped_typing].  With a positive [TYPING_TIMEOUT] the user is in
    the room's typing set in between; with a timeout of zero or less the set
    is empty right after [typing_start], yet [user_typing] is announced all
    the same. *)
Theorem typing_indicator_round_trip (settings : Settings) (sid room_id user_id : string)
    (data : event_data) (w : world) :
  required (data !! "room_id") = Some room_id →
  user_of sid w = Some user_id → user_id ≠ "" →
  let w1 := (typing_start settings sid data w).2 in
  let w2 := (typing_stop sid data w1).2 in
  store w1 = RedisClient.set_typing room_id user_id (TYPING_TIMEOUT settings) (store w)
  ∧ ((0 < TYPING_TIMEOUT settings)%Z →
     user_id ∈ RedisClient.get_typing_users room_id (store w1))
  ∧ ((TYPING_TIMEOUT settings ≤ 0)%Z →
     RedisClient.get_typing_users room_id (store w1) = [])
  ∧ database w1 = database w
  ∧ emitted w1
    = emitted w ++ [Emit "user_typing" {[ "user_id" := VStr user_id; "room_id" := VStr room_id ]}
                      (Some (VStr room_id)) (Some sid)]
  ∧ (user_id ∉ RedisClient.get_typing_users room_id (store w2))
  ∧ database w2 = database w
  ∧ emitted w2
    = emitted w1 ++ [Emit "user_stopped_typing"
                       {[ "user_id" := VStr user_id; "room_id" := VStr room_id ]}
                       (Some (VStr room_id)) (Some sid)].
Proof.
  intros Hroom Hu Hne. cbv zeta.
  assert (Hstart : typing_start settings sid data w
    = (Ok tt,
       emitting (Emit "user_typing" {[ "user_id" := VStr user_id; "room_id" := VStr room_id ]}
                   (Some (VStr room_id)) (Some sid))
         (put_store (RedisClient.set_typing room_id user_id (TYPING_TIMEOUT settings) (store w))
            w))).
  { unfold typing_start, try_except. rewrite Hroom.
    erewrite bind_ok by apply user_of_spec. by rewrite Hu, (required_nonempty _ Hne). }
  rewrite Hstart. cbn [snd].
  set (w1 := emitting _ (put_store _ w)).
  assert (Hstop : typing_stop sid data w1
    = (Ok tt,
       emitting (Emit "user_stopped_typing"
                   {[ "user_id" := VStr user_id; "room_id" := VStr room_id ]}
                   (Some (VStr room_id)) (Some sid))
         (put_store (RedisClient.remove_typing room_id user_id (store w1)) w1))).
  { unfold typing_stop, try_except. rewrite Hroom.
    erewrite bind_ok by apply user_of_spec.
    change (user_of sid w1) with (user_of sid w). by rewrite Hu, (required_nonempty _ Hne). }
  rewrite Hstop. cbn [snd].
  split_and!; try done.
  - intros Hpos. apply typing_users_after_set; [done | by left].
  - intros Hle. by apply typing_users_without_ttl.
  - intros Hbad. by apply typing_users_after_remove in Hbad as [? _].
Qed.

Lemma typing_indicator_round_trip_witness :
  let none := {| MAX_MESSAGES_PER_MINUTE := 30; MESSAGE_QUEUE_RETENTION := 86400;
                 TYPING_TIMEOUT := 0 |} in
  "eve" ∈ RedisClient.get_typing_users "Q"
            (store (typing_start default_settings "s1" {[ "room_id" := "Q" ]}
                      scenario.eve_and_frank).2)
  ∧ RedisClient.get_typing_users "Q"
      (store (typing_start none "s1" {[ "room_id" := "Q" ]} scenario.eve_and_frank).2) = []
  ∧ length (emitted (typing_start none "s1" {[ "room_id" := "Q" ]}
                       scenario.eve_and_frank).2) = 1.
Proof.
  cbv zeta. split_and!.
  - destruct (typing_indicator_round_trip default_settings "s1" "Q" "eve"
                {[ "room_id" := "Q" ]} scenario.eve_and_frank) as (_ & H & _);
      [reflexivity | reflexivity | discriminate |].
    apply H. reflexivity.
  - destruct (typing_indicator_round_trip
                {| MAX_MESSAGES_PER_MINUTE := 30; MESSAGE_QUEUE_RETENTION := 86400;
                   TYPING_TIMEOUT := 0 |} "s1" "Q" "eve"
                {[ "room_id" := "Q" ]} scenario.eve_and_frank) as (_ & _ & H & _);
      [reflexivity | reflexivity | discriminate |].
    apply H. cbn. lia.
  - destruct (typing_indicator_round_trip
                {| MAX_MESSAGES_PER_MINUTE := 30; MESSAGE_QUEUE_RETENTION := 86400;
                   TYPING_TIMEOUT := 0 |} "s1" "Q" "eve"
                {[ "room_id" := "Q" ]} scenario.eve_and_frank) as (_ & _ & _ & _ & H & _);
      [reflexivity | reflexivity | discriminate |].
    rewrite H. reflexivity.
Defined.

(** * Deleting, sending and status, for a socket of the registry *)

Lemma project_lookup (cols : list string) (k : string) (r : row) :
  "*" ∉ cols → k ∈ cols → pg.project cols r !! k = r !! k.
Proof.
  intros Hstar Hk. unfold pg.project. rewrite bool_decide_eq_false_2 by done.
  destruct (r !! k) as [v|] eqn:Hr.
  - by apply map_lookup_filter_Some.
  - apply map_lookup_filter_None. by left.
Qed.

Lemma service_delete_not_owner (m : string) (u : option string) (w : world) :
  (∀ r, r ∈ stored_messages w → r !! "id" = Some (VStr m) →
        r !! "sender_id" ≠ Some (of_opt_str u)) →
  MessageService.delete_message m u w
  = (Ok None,
     requesting (Builder "messages" (Select ["room_id"])
                   [Feq "id" (VStr m); Feq "sender_id" (of_opt_str u)]) w).
Proof.
  intros Hno. unfold MessageService.delete_message, try_except, stored_messages in *.
  destruct (tables (database w) !! "messages") as [rows|] eqn:Hrows.
  - erewrite bind_ok by (by eapply execute_select).
    cbn [b_filters pg.eq pg.select app].
    rewrite filter_nil_of_all_false; [done|].
    intros r Hr. apply not_true_is_false. intros (Hid & h & -> & Hs)%selected_id_sender.
    by apply (Hno r Hr Hid).
  - erewrite bind_raise by (by eapply execute_missing_table). done.
Qed.

(** The soft delete, row by row. *)
Lemma service_delete_owner_rows (m u : string) (room : pyval) (rows : list row) (r : row)
    (w : world) :
  tables (database w) !! "messages" = Some rows →
  r ∈ rows → r !! "id" = Some (VStr m) → r !! "sender_id" = Some (VStr u) →
  (∀ x, x ∈ rows → x !! "id" = Some (VStr m) → x !! "room_id" = Some room) →
  ∃ (rows' : list row) (d' : db_state),
    MessageService.delete_message m (Some u) w
    = (Ok (Some ({[ "message_id" := VStr m; "room_id" := room ]} : row)), put_database d' w)
    ∧ tables d' !! "messages" = Some rows'
    ∧ length rows' = length rows
    ∧ (∀ i x, rows !! i = Some x → x !! "id" ≠ Some (VStr m) → rows' !! i = Some x)
    ∧ (∀ i x, rows !! i = Some x → x !! "id" = Some (VStr m) →
       ∃ x', rows' !! i = Some x'
             ∧ x' !! "is_deleted" = Some (VBool true)
             ∧ x' !! "content" = Some VNone
             ∧ x' !! "updated_at" = Some (VStr (now w))
             ∧ ∀ k, k ≠ "is_deleted" → k ≠ "content" → k ≠ "updated_at" → x' !! k = x !! k).
Proof.
  intros Hrows Hr Hid Hs Hroom.
  destruct (filter_head_of_member
              (pg.selected [Feq "id" (VStr m); Feq "sender_id" (VStr u)]) rows r Hr)
    as (c0 & cs & Hcheck & Hc0 & Hc0sel).
  { apply (selected_id_sender r m (Some u)). eauto. }
  destruct (filter_head_of_member (pg.selected [Feq "id" (VStr m)]) rows r Hr)
    as (r0 & rs & Hres & _ & _).
  { by apply selected_id. }
  apply (selected_id_sender c0 m (Some u)) in Hc0sel as [Hc0id _].
  set (upd := ({[ "is_deleted" := VBool true; "content" := VNone;
                  "updated_at" := VStr (now w) ]} : row)).
  set (mark := λ r : row, if pg.selected [Feq "id" (VStr m)] r then upd ∪ r else r).
  exists (mark <$> rows). eexists. split_and!.
  - unfold MessageService.delete_message, try_except.
    erewrite bind_ok by (by eapply execute_select).
    cbn [b_filters pg.eq pg.select app of_opt_str]. rewrite Hcheck, fmap_cons.
    erewrite bind_ok by reflexivity.
    erewrite bind_ok by (by eapply execute_update).
    cbn [b_filters pg.eq pg.update app]. rewrite Hres, fmap_cons.
    unfold lift_result, getitem.
    rewrite project_lookup;
      [| by intros ?%list_elem_of_singleton | by apply list_elem_of_singleton].
    rewrite (Hroom c0 Hc0 Hc0id). erewrite bind_ok by reflexivity. reflexivity.
  - cbn. by rewrite lookup_insert_eq.
  - by rewrite length_fmap.
  - intros i x Hi Hx. rewrite list_lookup_fmap, Hi. cbn. unfold mark.
    destruct (pg.selected [Feq "id" (VStr m)] x) eqn:Hsel; [|done].
    by apply selected_id in Hsel.
  - intros i x Hi Hx. exists (upd ∪ x). split_and!.
    + rewrite list_lookup_fmap, Hi. cbn. unfold mark.
      by rewrite (proj2 (selected_id x m) Hx).
    + apply lookup_union_Some_l. unfold upd. by simplify_map_eq.
    + apply lookup_union_Some_l. unfold upd. by simplify_map_eq.
    + apply lookup_union_Some_l. unfold upd. by simplify_map_eq.
    + intros k H1 H2 H3. apply lookup_union_r. unfold upd.
      rewrite !lookup_insert_ne by done. by rewrite lookup_singleton_ne.
Qed.

(** Extra X13.  Deleting is for the sender only and is soft.  A
    [delete_message] request from a socket whose user is not the stored sender
    gets [error{Failed to delete}] and writes nothing.  From the sender it
    keeps every row in place: rows with another id are untouched, rows with
    that id get [is_deleted] set, a null content and the current time as
    [updated_at], all other columns as before; and [message_deleted] with the
    message id and the room goes to the message's room. *)
Theorem delete_message_ownership (sid M : string) (data : event_data) (H : option string)
    (w : world) :
  required (data !! "message_id") = Some M →
  user_of sid w = H →
  ((∀ r, r ∈ stored_messages w → r !! "id" = Some (VStr M) →
         r !! "sender_id" ≠ Some (of_opt_str H)) →
     delete_message sid data w
     = (Ok tt, emitting (error_to sid "Failed to delete")
                 (requesting (Builder "messages" (Select ["room_id"])
                                [Feq "id" (VStr M); Feq "sender_id" (of_opt_str H)]) w)))
  ∧ (∀ r h room, H = Some h → r ∈ stored_messages w → r !! "id" = Some (VStr M) →
       r !! "sender_id" = Some (VStr h) →
       (∀ x, x ∈ stored_messages w → x !! "id" = Some (VStr M) → x !! "room_id" = Some room) →
     ∃ w',
       delete_message sid data w
       = (Ok tt, emitting (Emit "message_deleted"
                             {[ "message_id" := VStr M; "room_id" := room ]}
                             (Some room) None) w')
       ∧ emitted w' = emitted w ∧ store w' = store w
       ∧ length (stored_messages w') = length (stored_messages w)
       ∧ (∀ i x, stored_messages w !! i = Some x → x !! "id" ≠ Some (VStr M) →
                 stored_messages w' !! i = Some x)
       ∧ (∀ i x, stored_messages w !! i = Some x → x !! "id" = Some (VStr M) →
          ∃ x', stored_messages w' !! i = Some x'
                ∧ x' !! "is_deleted" = Some (VBool true)
                ∧ x' !! "content" = Some VNone
                ∧ x' !! "updated_at" = Some (VStr (now w))
                ∧ ∀ k, k ≠ "is_deleted" → k ≠ "content" → k ≠ "updated_at" →
                       x' !! k = x !! k)).
Proof.
  intros Hm Hu. split.
  - intros Hno. unfold delete_message, try_except. rewrite Hm.
    erewrite bind_ok by apply user_of_spec. rewrite Hu.
    erewrite bind_ok by (by apply service_delete_not_owner). reflexivity.
  - intros r h room -> (rows & Hrows & Hr)%stored_messages_rows Hid Hs Hroom.
    assert (Hst : stored_messages w = rows) by (unfold stored_messages; by rewrite Hrows).
    rewrite Hst in Hroom.
    destruct (service_delete_owner_rows M h room rows r w Hrows Hr Hid Hs Hroom)
      as (rows' & d' & Hdel & Hrows' & Hlen & Hother & Hmarked).
    exists (put_database d' w).
    assert (Hst' : stored_messages (put_database d' w) = rows').
    { unfold stored_messages. cbn. by rewrite Hrows'. }
    rewrite Hst', Hst. split_and!; try done.
    unfold delete_message, try_except. rewrite Hm.
    erewrite bind_ok by apply user_of_spec. rewrite Hu.
    erewrite bind_ok by exact Hdel.
    rewrite (nonempty_dict_of_lookup _ "message_id" (VStr M)) by (by simplify_map_eq).
    unfold lift_result, getitem. by simplify_map_eq.
Qed.

Lemma delete_message_ownership_witness :
  delete_message "sh" {[ "message_id" := "M" ]} scenario.gina_and_harry
  = (Ok tt, emitting (error_to "sh" "Failed to delete")
              (requesting (Builder "messages" (Select ["room_id"])
                             [Feq "id" (VStr "M"); Feq "sender_id" (VStr "harry")])
                 scenario.gina_and_harry))
  ∧ ∃ w',
      delete_message "sg" {[ "message_id" := "M" ]} scenario.gina_and_harry
      = (Ok tt, emitting (Emit "message_deleted"
                            {[ "message_id" := VStr "M"; "room_id" := VStr "R" ]}
                            (Some (VStr "R")) None) w')
      ∧ emitted w' = [] ∧ store w' = redis_empty
      ∧ length (stored_messages w') = 1.
Proof.
  split.
  - destruct (delete_message_ownership "sh" "M" {[ "message_id" := "M" ]} (Some "harry")
                scenario.gina_and_harry) as [Hnot _]; [reflexivity | reflexivity |].
    apply Hnot. intros r Hr%list_elem_of_singleton _. subst r. discriminate.
  - destruct (delete_message_ownership "sg" "M" {[ "message_id" := "M" ]} (Some "gina")
                scenario.gina_and_harry) as [_ Hown]; [reflexivity | reflexivity |].
    destruct (Hown (scenario.message "M" "R" "gina" "hi") "gina" (VStr "R"))
      as (w' & H1 & H2 & H3 & H4 & _).
    + reflexivity.
    + apply list_elem_of_singleton. reflexivity.
    + reflexivity.
    + reflexivity.
    + intros x Hx%list_elem_of_singleton _. subst x. reflexivity.
    + exists w'. split_and!; done.
Defined.

(** * Sending: the refusals after the limiter *)

Lemma send_message_past_limiter (settings : Settings) (sid room_id user_id : string)
    (data : event_data) (r1 : redis_store) (is_member : bool) (w w2 : world) :
  required (data !! "room_id") = Some room_id →
  user_of sid w = Some user_id →
  user_id ≠ "" →
  RedisClient.check_rate_limit user_id (MAX_MESSAGES_PER_MINUTE settings) 60 (store w)
  = (Ok true, r1) →
  _check_room_membership user_id room_id (put_store r1 w) = (Ok is_member, w2) →
  send_message settings sid data w
  = try_except
      (if negb is_member then emit_error sid "Not a member"
       else
         message ← MessageService.create_message room_id user_id (data !! "content")
                     (default "text" (data !! "message_type")) (data !! "reply_to");
         match nonempty_dict message with
         | None => emit_error sid "Failed to save message"
         | Some message =>
             sio.emit "message" message (Some (VStr room_id)) None;;
             _notify_offline_members settings room_id user_id message
         end)
      (λ e, emit_error sid (str_exn e)) w2.
Proof.
  intros Hroom Hu Hne Hcheck Hmem. unfold send_message, try_except. rewrite Hroom.
  erewrite bind_ok by apply user_of_spec. rewrite Hu, (required_nonempty _ Hne).
  erewrite bind_ok by (unfold with_store_result; rewrite Hcheck; reflexivity).
  cbn [negb]. erewrite bind_ok by exact Hmem. reflexivity.
Qed.

Lemma check_room_membership_tables (user_id room_id : string) :
  keeps same_tables (_check_room_membership user_id room_id).
Proof.
  assert (Hsel : ∀ t cols fs, keeps same_tables (execute (Builder t (Select cols) fs))).
  { intros t cols fs w. apply execute_select_tables. }
  assert (Hst : ∀ A (f : redis_store → A * redis_store), keeps same_tables (with_store f)).
  { intros A f w. unfold with_store, same_tables. by destruct (f (store w)). }
  unfold _check_room_membership.
  apply keeps_try_except; [apply _ | | intros e; apply keeps_ret; apply _].
  apply keeps_bind; [apply _ | apply Hst |].
  intros [[|m ms]|]; try (apply keeps_ret; apply _).
  all: apply keeps_bind; [apply _ | apply Hsel | intros result].
  all: apply keeps_bind; [apply _ | | intros _; apply keeps_ret; apply _].
  all: destruct (bool_decide (0 < length result)); [|apply keeps_ret; apply _].
  all: apply keeps_bind; [apply _ | apply Hsel | intros all_members].
  all: apply keeps_bind; [apply _ | apply keeps_lift_result; apply _ | intros ids].
  all: apply Hst.
Qed.

(** Extra X14.  A [send_message] from a connected user whom the membership
    check turns down is answered with [error{Not a member}] alone: no table
    of the durable store is written and no [message] event is emitted.  The
    call has nevertheless been counted by the rate limiter, which runs before
    the membership check: the sender has one admission fewer left in the
    window. *)
Theorem send_message_non_member (settings : Settings) (sid room_id user_id : string)
    (data : event_data) (r1 : redis_store) (w w2 : world) :
  required (data !! "room_id") = Some room_id →
  user_of sid w = Some user_id →
  user_id ≠ "" →
  RedisClient.check_rate_limit user_id (MAX_MESSAGES_PER_MINUTE settings) 60 (store w)
  = (Ok true, r1) →
  _check_room_membership user_id room_id (put_store r1 w) = (Ok false, w2) →
  ∃ w',
    send_message settings sid data w = (Ok tt, w')
    ∧ w' = emitting (error_to sid "Not a member") w2
    ∧ tables (database w') = tables (database w)
    ∧ broadcasts w' = broadcasts w
    ∧ capacity (MAX_MESSAGES_PER_MINUTE settings) (counter_of user_id w') + 1
      ≤ capacity (MAX_MESSAGES_PER_MINUTE settings) (counter_of user_id w).
Proof.
  intros Hroom Hu Hne Hcheck Hmem.
  exists (emitting (error_to sid "Not a member") w2). split_and!.
  - rewrite (send_message_past_limiter _ _ _ _ _ _ _ _ _ Hroom Hu Hne Hcheck Hmem).
    reflexivity.
  - reflexivity.
  - pose proof (check_room_membership_tables user_id room_id (put_store r1 w)) as Ht.
    rewrite Hmem in Ht. exact Ht.
  - pose proof (check_room_membership_quiet user_id user_id room_id (put_store r1 w))
      as (_ & _ & Hb).
    rewrite Hmem in Hb. cbn [snd] in Hb.
    pose proof (emit_error_quiet user_id sid "Not a member" w2) as (_ & _ & Hb').
    rewrite emit_error_spec in Hb'. cbn [snd] in Hb'. rewrite Hb', Hb. reflexivity.
  - pose proof (check_room_membership_quiet user_id user_id room_id (put_store r1 w))
      as (_ & Hc & _).
    rewrite Hmem in Hc. cbn [snd] in Hc.
    pose proof (check_rate_limit_capacity user_id (MAX_MESSAGES_PER_MINUTE settings) 60
                  (store w)) as [Hcap _].
    rewrite Hcheck in Hcap. cbn in Hcap.
    unfold counter_of in *. cbn in Hc |- *. rewrite Hc. lia.
Qed.

Lemma send_message_non_member_witness :
  ∃ w',
    send_message default_settings "sa" {[ "room_id" := "R"; "content" := "hi" ]}
      scenario.stale_cache = (Ok tt, w')
    ∧ emitted w' = [error_to "sa" "Not a member"]
    ∧ tables (database w') = tables (database scenario.stale_cache)
    ∧ counter_of "alice" w' = Some (1%Z, Some 60%Z).
Proof.
  destruct (send_message_non_member default_settings "sa" "R" "alice"
              {[ "room_id" := "R"; "content" := "hi" ]}
              (RedisClient.check_rate_limit "alice" 30 60 (store scenario.stale_cache)).2
              scenario.stale_cache
              (_check_room_membership "alice" "R"
                 (put_store
                    (RedisClient.check_rate_limit "alice" 30 60
                       (store scenario.stale_cache)).2 scenario.stale_cache)).2)
    as (w' & Hrun & Hw' & Ht & _ & _).
  - reflexivity.
  - reflexivity.
  - discriminate.
  - reflexivity.
  - reflexivity.
  - exists w'. split_and!; [exact Hrun | by rewrite Hw' | exact Ht | by rewrite Hw'].
Defined.

Lemma create_message_without_profile_row (room_id sender_id : string)
    (content : option string) (message_type : string) (reply_to : option string)
    (rows : list row) (w : world) :
  tables (database w) !! "messages" = Some rows →
  tables (database w) !! "profile" = None →
  ∃ (r : row) (d : db_state),
    MessageService.create_message room_id sender_id content message_type reply_to w
    = (Ok None, put_database d w)
    ∧ tables d !! "messages" = Some (rows ++ [r])
    ∧ (∀ t, t ≠ "messages" → tables d !! t = tables (database w) !! t)
    ∧ r !! "room_id" = Some (VStr room_id)
    ∧ r !! "sender_id" = Some (VStr sender_id)
    ∧ r !! "content" = Some (of_opt_str content).
Proof.
  intros Hm Hp. unfold MessageService.create_message, try_except.
  erewrite bind_ok by (by eapply execute_insert).
  cbv beta iota. erewrite bind_raise.
  2:{ apply execute_missing_table. cbn. rewrite lookup_insert_ne by done. exact Hp. }
  eexists _, _. split_and!.
  - reflexivity.
  - cbn. by rewrite lookup_insert_eq.
  - intros t Ht. cbn. by rewrite lookup_insert_ne.
  - apply lookup_union_Some_l. by simplify_map_eq.
  - apply lookup_union_Some_l. by simplify_map_eq.
  - apply lookup_union_Some_l. by simplify_map_eq.
Qed.

(** Extra X15.  [create_message] reads the sender from a relation named
    [profile].  Where the store has no relation of that name, a
    [send_message] that passed the limiter and the membership check appends
    its row to [messages], with the room, the sender and the content of the
    request, and then tells the sender [error{Failed to save message}]:
    nothing is broadcast to the room and no other table changes. *)
Theorem send_message_saved_but_reported_failed (settings : Settings)
    (sid room_id user_id : string) (data : event_data) (r1 : redis_store)
    (rows : list row) (w w2 : world) :
  required (data !! "room_id") = Some room_id →
  user_of sid w = Some user_id →
  user_id ≠ "" →
  RedisClient.check_rate_limit user_id (MAX_MESSAGES_PER_MINUTE settings) 60 (store w)
  = (Ok true, r1) →
  _check_room_membership user_id room_id (put_store r1 w) = (Ok true, w2) →
  tables (database w2) !! "messages" = Some rows →
  tables (database w2) !! "profile" = None →
  ∃ (r : row) (w3 : world),
    send_message settings sid data w
    = (Ok tt, emitting (error_to sid "Failed to save message") w3)
    ∧ stored_messages w3 = rows ++ [r]
    ∧ r !! "room_id" = Some (VStr room_id)
    ∧ r !! "sender_id" = Some (VStr user_id)
    ∧ r !! "content" = Some (of_opt_str (data !! "content"))
    ∧ (∀ t, t ≠ "messages" → tables (database w3) !! t = tables (database w2) !! t)
    ∧ emitted w3 = emitted w2
    ∧ store w3 = store w2.
Proof.
  intros Hroom Hu Hne Hcheck Hmem Hrows Hprofile.
  destruct (create_message_without_profile_row room_id user_id (data !! "content")
              (default "text" (data !! "message_type")) (data !! "reply_to") rows w2
              Hrows Hprofile) as (r & d & Hcreate & Hd & Hothers & H1 & H2 & H3).
  exists r, (put_database d w2). split_and!; try done.
  - rewrite (send_message_past_limiter _ _ _ _ _ _ _ _ _ Hroom Hu Hne Hcheck Hmem).
    unfold try_except. cbn [negb]. erewrite bind_ok by exact Hcreate. reflexivity.
  - unfold stored_messages. cbn. by rewrite Hd.
Qed.

Lemma send_message_saved_but_reported_failed_witness :
  ∃ (r : row) (w3 : world),
    send_message default_settings "sg" {[ "room_id" := "R"; "content" := "hello" ]}
      scenario.gina_and_harry
    = (Ok tt, emitting (error_to "sg" "Failed to save message") w3)
    ∧ stored_messages w3 = [scenario.message "M" "R" "gina" "hi"; r]
    ∧ r !! "content" = Some (VStr "hello")
    ∧ emitted w3 = [].
Proof.
  destruct (send_message_saved_but_reported_failed default_settings "sg" "R" "gina"
              {[ "room_id" := "R"; "content" := "hello" ]}
              (RedisClient.check_rate_limit "gina" 30 60
                 (store scenario.gina_and_harry)).2
              [scenario.message "M" "R" "gina" "hi"]
              scenario.gina_and_harry
              (_check_room_membership "gina" "R"
                 (put_store
                    (RedisClient.check_rate_limit "gina" 30 60
                       (store scenario.gina_and_harry)).2 scenario.gina_and_harry)).2)
    as (r & w3 & Hrun & Hrows & _ & _ & Hc & _ & He & _).
  - reflexivity.
  - reflexivity.
  - discriminate.
  - reflexivity.
  - reflexivity.
  - reflexivity.
  - reflexivity.
  - exists r, w3. split_and!; [exact Hrun | exact Hrows | exact Hc | exact He].
Defined.

(** * Status *)




Lemma marked_status (u s : string) (t : pyval) (x : row) :
  let x' := if pg.selected [Feq "id" (VStr u)] x
            then ({[ "status" := VStr s; "last_seen" := t ]} : row) ∪ x else x in
  x' !! "id" = Some (VStr u) → x' !! "status" = Some (VStr s).
Proof.
  cbv zeta. destruct (pg.selected [Feq "id" (VStr u)] x) eqn:Hsel.
  - intros _. apply lookup_union_Some_l. by simplify_map_eq.
  - intros Hid%selected_id. congruence.
Qed.

(** The two writes of [PresenceService.update_status]: the presence key
    first, the profile row second; a failure of the second leaves the
    first in place. *)
Lemma presence_update_status_run (u s : string) (w : world) :
  PresenceService.valid_status s = true →
  ∃ (b : bool) (d : db_state),
    PresenceService.update_status u s w
    = (Ok b,
       put_database d
         (put_store (if bool_decide (s = "offline")
                     then RedisClient.set_user_offline u (store w)
                     else RedisClient.set_user_online u s (store w)) w))
    ∧ (∀ rows, tables (database w) !! "profiles" = Some rows →
         b = true
         ∧ tables d !! "profiles"
           = Some ((λ r : row, if pg.selected [Feq "id" (VStr u)] r
                               then ({[ "status" := VStr s; "last_seen" := VStr (now w) ]}
                                       : row) ∪ r
                               else r) <$> rows))
    ∧ (tables (database w) !! "profiles" = None → b = false ∧ tables d !! "profiles" = None).
Proof.
  intros Hv. unfold PresenceService.update_status, try_except. rewrite Hv. cbn [negb].
  set (r' := if bool_decide (s = "offline") then RedisClient.set_user_offline u (store w)
             else RedisClient.set_user_online u s (store w)).
  assert (Hfirst : (if bool_decide (s = "offline")
                    then update_store (RedisClient.set_user_offline u)
                    else update_store (RedisClient.set_user_online u s)) w
                   = (Ok tt, put_store r' w)).
  { unfold r'. by destruct (bool_decide (s = "offline")). }
  erewrite bind_ok by exact Hfirst.
  erewrite bind_ok by reflexivity.
  destruct (tables (database w) !! "profiles") as [rows|] eqn:Hp.
  - erewrite bind_ok by (by eapply execute_update).
    eexists true, _. split_and!.
    + reflexivity.
    + intros rows0 [= <-]. split; [done|]. cbn. by rewrite lookup_insert_eq.
    + done.
  - erewrite bind_raise by (by eapply execute_missing_table).
    eexists false, _. split_and!.
    + reflexivity.
    + done.
    + intros _. split; [done|]. exact Hp.
Qed.





(** * Notifications: reading and counting *)

Lemma get_unread_count_run (v : string) (rows : list row) (w : world) :
  tables (database w) !! "notifications" = Some rows →
  (NotificaitonService.get_unread_count v w).1
  = Ok (length (List.filter
                  (pg.selected [Feq "user_id" (VStr v); Feq "is_read" (VBool false)]) rows)).
Proof.
  intros Hn. unfold NotificaitonService.get_unread_count, try_except.
  erewrite bind_ok by (by eapply execute_select).
  cbn [b_filters pg.eq pg.select app]. cbn [mret io_ret fst]. by rewrite length_fmap.
Qed.

Lemma marked_read_unread (n u : string) (r : row) :
  let mark := λ r : row, if pg.selected [Feq "id" (VStr n); Feq "user_id" (VStr u)] r
                         then ({[ "is_read" := VBool true ]} : row) ∪ r else r in
  pg.selected [Feq "user_id" (VStr u); Feq "is_read" (VBool false)] (mark r)
  = pg.selected [Feq "user_id" (VStr u); Feq "is_read" (VBool false)] r
    && negb (pg.selected [Feq "id" (VStr n); Feq "user_id" (VStr u)] r).
Proof.
  cbv beta zeta. destruct (pg.selected [Feq "id" (VStr n); Feq "user_id" (VStr u)] r) eqn:Hsel.
  - rewrite andb_false_r. unfold pg.selected. cbn [forallb].
    assert (Hread : pg.matches (({[ "is_read" := VBool true ]} : row) ∪ r)
                      (Feq "is_read" (VBool false)) = false).
    { unfold pg.matches.
      rewrite (lookup_union_Some_l _ r "is_read" (VBool true)) by (by simplify_map_eq).
      done. }
    rewrite Hread. by rewrite andb_false_r.
  - by rewrite andb_true_r.
Qed.

Lemma marked_read_other (n u u' : string) (r : row) :
  u' ≠ u →
  let mark := λ r : row, if pg.selected [Feq "id" (VStr n); Feq "user_id" (VStr u)] r
                         then ({[ "is_read" := VBool true ]} : row) ∪ r else r in
  pg.selected [Feq "user_id" (VStr u'); Feq "is_read" (VBool false)] (mark r)
  = pg.selected [Feq "user_id" (VStr u'); Feq "is_read" (VBool false)] r.
Proof.
  intros Hu. cbv beta zeta.
  destruct (pg.selected [Feq "id" (VStr n); Feq "user_id" (VStr u)] r) eqn:Hsel; [|done].
  unfold pg.selected in Hsel |- *. cbn [forallb] in Hsel |- *.
  apply andb_true_iff in Hsel as [_ [Huser%matches_eq_str _]%andb_true_iff].
  assert (H1 : pg.matches (({[ "is_read" := VBool true ]} : row) ∪ r)
                 (Feq "user_id" (VStr u')) = false).
  { apply not_true_is_false. intros H%matches_eq_str.
    rewrite lookup_union_r in H by (by simplify_map_eq). congruence. }
  assert (H2 : pg.matches r (Feq "user_id" (VStr u')) = false).
  { apply not_true_is_false. intros H%matches_eq_str. congruence. }
  by rewrite H1, H2.
Qed.

Lemma selected_three (n u : string) (r : row) :
  pg.selected [Feq "user_id" (VStr u); Feq "is_read" (VBool false)] r
  && pg.selected [Feq "id" (VStr n); Feq "user_id" (VStr u)] r
  = pg.selected [Feq "id" (VStr n); Feq "user_id" (VStr u); Feq "is_read" (VBool false)] r.
Proof.
  unfold pg.selected. cbn [forallb].
  destruct (pg.matches r (Feq "user_id" (VStr u))), (pg.matches r (Feq "is_read" (VBool false))),
    (pg.matches r (Feq "id" (VStr n))); reflexivity.
Qed.

Lemma filter_split_length {A : Type} (a b : A → bool) (l : list A) :
  length (List.filter (λ x, a x && negb (b x)) l) + length (List.filter (λ x, a x && b x) l)
  = length (List.filter a l).
Proof.
  induction l as [|x l IH]; [done|]. cbn [List.filter].
  destruct (a x), (b x); cbn [andb negb length]; lia.
Qed.

Lemma filter_ext_length {A : Type} (a b : A → bool) (l : list A) :
  (∀ x, a x = b x) → length (List.filter a l) = length (List.filter b l).
Proof.
  intros H. induction l as [|x l IH]; [done|]. cbn [List.filter]. rewrite H.
  destruct (b x); cbn [length]; lia.
Qed.

Lemma filter_fmap_length {A B : Type} (p : B → bool) (f : A → B) (l : list A) :
  length (List.filter p (f <$> l)) = length (List.filter (λ x, p (f x)) l).
Proof.
  induction l as [|x l IH]; [done|]. rewrite fmap_cons. cbn [List.filter].
  destruct (p (f x)); cbn [length]; lia.
Qed.

(** Extra X17.  [mark_as_read] and [get_unread_count] over the same
    [notifications] table.  The answer of [mark_as_read(n, u)] is whether a
    notification with id [n] belongs to [u], read or not.  Afterwards the
    unread count of [u] has dropped by exactly the number of unread
    notifications of [u] with that id, and the unread count of every other
    user is what it was: nobody can mark another user's notification.  No row
    is added or removed. *)
Theorem mark_as_read_unread_count (n u u' : string) (rows : list row) (w : world) :
  tables (database w) !! "notifications" = Some rows →
  u' ≠ u →
  let w' := (NotificaitonService.mark_as_read n u w).2 in
  (NotificaitonService.mark_as_read n u w).1
  = Ok (existsb (pg.selected [Feq "id" (VStr n); Feq "user_id" (VStr u)]) rows)
  ∧ length (stored_notifications w') = length rows
  ∧ (∃ c : nat,
       (NotificaitonService.get_unread_count u w').1 = Ok c
       ∧ (NotificaitonService.get_unread_count u w).1
         = Ok (c + length (List.filter
                             (pg.selected [Feq "id" (VStr n); Feq "user_id" (VStr u);
                                           Feq "is_read" (VBool false)]) rows)))
  ∧ (NotificaitonService.get_unread_count u' w').1
    = (NotificaitonService.get_unread_count u' w).1.
Proof.
  intros Hn Hu. cbv zeta.
  set (mark := λ r : row, if pg.selected [Feq "id" (VStr n); Feq "user_id" (VStr u)] r
                          then ({[ "is_read" := VBool true ]} : row) ∪ r else r).
  assert (Hrun : ∃ d, NotificaitonService.mark_as_read n u w
            = (Ok (existsb (pg.selected [Feq "id" (VStr n); Feq "user_id" (VStr u)]) rows),
               put_database d w)
            ∧ tables d !! "notifications" = Some (mark <$> rows)).
  { unfold NotificaitonService.mark_as_read, try_except.
    erewrite bind_ok by (by eapply execute_update).
    cbn [b_filters pg.eq pg.update app]. eexists. split.
    - cbn [mret io_ret]. rewrite nonempty_filter_existsb. reflexivity.
    - cbn. by rewrite lookup_insert_eq. }
  destruct Hrun as (d & Hrun & Hd). rewrite Hrun. cbn [fst snd].
  assert (Hn' : tables (database (put_database d w)) !! "notifications" = Some (mark <$> rows))
    by exact Hd.
  split_and!.
  - reflexivity.
  - unfold stored_notifications. rewrite Hn'. cbn. by rewrite length_fmap.
  - eexists. split; [by apply get_unread_count_run|].
    rewrite (get_unread_count_run u rows w Hn). f_equal.
    rewrite filter_fmap_length.
    rewrite <- (filter_split_length
                  (pg.selected [Feq "user_id" (VStr u); Feq "is_read" (VBool false)])
                  (pg.selected [Feq "id" (VStr n); Feq "user_id" (VStr u)]) rows).
    f_equal.
    + apply filter_ext_length. intros x. symmetry. apply (marked_read_unread n u x).
    + apply filter_ext_length. intros x. apply selected_three.
  - rewrite (get_unread_count_run u' _ _ Hn'), (get_unread_count_run u' rows w Hn). f_equal.
    rewrite filter_fmap_length. apply filter_ext_length. intros x.
    by apply (marked_read_other n u u' x).
Qed.

Lemma mark_as_read_unread_count_witness :
  let note := λ id user read,
    ({[ "id" := VStr id; "user_id" := VStr user; "is_read" := VBool read ]} : row) in
  let w := put_database
             (Database {[ "notifications" := [note "n1" "eve" false; note "n2" "eve" false;
                                              note "n3" "frank" false] ]}
                       scenario.defaults [] (λ _, [])) scenario.eve_and_frank in
  (NotificaitonService.get_unread_count "eve" w).1 = Ok 2
  ∧ (NotificaitonService.get_unread_count "eve"
       (NotificaitonService.mark_as_read "n1" "eve" w).2).1 = Ok 1
  ∧ (NotificaitonService.mark_as_read "n3" "eve" w).1 = Ok false
  ∧ (NotificaitonService.get_unread_count "frank"
       (NotificaitonService.mark_as_read "n3" "eve" w).2).1 = Ok 1.
Proof.
  cbv zeta.
  set (note := λ id user read,
    ({[ "id" := VStr id; "user_id" := VStr user; "is_read" := VBool read ]} : row)).
  set (rows := [note "n1" "eve" false; note "n2" "eve" false; note "n3" "frank" false]).
  set (w := put_database (Database {[ "notifications" := rows ]} scenario.defaults [] (λ _, []))
              scenario.eve_and_frank).
  destruct (mark_as_read_unread_count "n1" "eve" "frank" rows w)
    as (_ & _ & (c & Hafter & Hbefore) & _); [reflexivity | discriminate |].
  destruct (mark_as_read_unread_count "n3" "eve" "frank" rows w)
    as (Hans & _ & _ & Hfrank); [reflexivity | discriminate |].
  split_and!.
  - reflexivity.
  - rewrite Hafter. f_equal.
    assert (Hl : (NotificaitonService.get_unread_count "eve" w).1 = Ok 2) by reflexivity.
    rewrite Hl in Hbefore. injection Hbefore as Hc.
    change (2 = c + 1) in Hc. lia.
  - exact Hans.
  - rewrite Hfrank. reflexivity.
Defined.

(** * The REST routes *)

Lemma get_current_user_cases (jwt_decode : string → result claims)
    (authorization : option string) :
  get_current_user jwt_decode authorization = Returned None
  ∨ ∃ detail, get_current_user jwt_decode authorization = HTTPException 401 detail.
Proof.
  unfold get_current_user. destruct (required authorization) as [a|]; [|by eauto].
  destruct (String.prefix "Bearer " a); cbn [negb]; [|by eauto].
  destruct (verify_jwt_token jwt_decode _); by eauto.
Qed.

(** Extra X18.  The authentication dependency of the REST routes checks the
    header and the token but hands nothing back: whatever the header, its
    value is never a user.  A well-formed header with a token that verifies
    yields [None]; every other header is refused with status 401. *)
Theorem get_current_user_yields_no_user (jwt_decode : string → result claims)
    (authorization : option string) :
  (∀ ud, get_current_user jwt_decode authorization ≠ Returned (Some ud))
  ∧ (get_current_user jwt_decode authorization = Returned None
     ∨ ∃ detail, get_current_user jwt_decode authorization = HTTPException 401 detail)
  ∧ (∀ token, authorization = Some ("Bearer " +:+ token) →
       get_current_user jwt_decode authorization
       = match verify_jwt_token jwt_decode token with
         | Some _ => Returned None
         | None => HTTPException 401 "Invalid or expired token"
         end)
  ∧ (authorization = None ∨ authorization = Some "" →
       get_current_user jwt_decode authorization
       = HTTPException 401 "Authorization header missing")
  ∧ (∀ a, authorization = Some a → a ≠ "" → String.prefix "Bearer " a = false →
       get_current_user jwt_decode authorization
       = HTTPException 401 "Invalid authorization format").
Proof.
  split_and!.
  - intros ud. destruct (get_current_user_cases jwt_decode authorization) as [-> | [d ->]];
      discriminate.
  - apply get_current_user_cases.
  - intros token ->. unfold get_current_user, required, truthy.
    rewrite bool_decide_eq_false_2 by discriminate. cbn [negb].
    rewrite bearer_prefix, bearer_strip. cbn [negb].
    by destruct (verify_jwt_token jwt_decode token).
  - intros [-> | ->]; reflexivity.
  - intros a -> Ha Hp. unfold get_current_user, required, truthy.
    rewrite bool_decide_eq_false_2 by done. cbn [negb]. by rewrite Hp.
Qed.

Lemma get_current_user_yields_no_user_witness :
  get_current_user scenario.jwt_decode (Some "Bearer good") = Returned None
  ∧ get_current_user scenario.jwt_decode (Some "Bearer bad")
    = HTTPException 401 "Invalid or expired token"
  ∧ get_current_user scenario.jwt_decode (Some "bearer good")
    = HTTPException 401 "Invalid authorization format"
  ∧ get_current_user scenario.jwt_decode None
    = HTTPException 401 "Authorization header missing".
Proof.
  split_and!.
  - destruct (get_current_user_yields_no_user scenario.jwt_decode (Some "Bearer good"))
      as (_ & _ & H & _). exact (H "good" eq_refl).
  - destruct (get_current_user_yields_no_user scenario.jwt_decode (Some "Bearer bad"))
      as (_ & _ & H & _). exact (H "bad" eq_refl).
  - destruct (get_current_user_yields_no_user scenario.jwt_decode (Some "bearer good"))
      as (_ & _ & _ & _ & H). apply (H "bearer good"); [reflexivity | discriminate | reflexivity].
  - destruct (get_current_user_yields_no_user scenario.jwt_decode None)
      as (_ & _ & _ & H & _). apply H. by left.
Defined.

Lemma depends_no_user {A : Type} (jwt_decode : string → result claims)
    (authorization : option string) (route : option user_data → io (response A))
    (w : world) :
  route None w
  = (Ok (HTTPException 500 "'NoneType' object is not subscriptable"), w) →
  ∃ status_code detail,
    depends jwt_decode authorization route w = (Ok (HTTPException status_code detail), w)
    ∧ (get_current_user jwt_decode authorization = Returned None
       → status_code = 500 ∧ detail = "'NoneType' object is not subscriptable")
    ∧ (get_current_user jwt_decode authorization ≠ Returned None → status_code = 401).
Proof.
  intros Hroute. unfold depends.
  destruct (get_current_user_cases jwt_decode authorization) as [-> | [d ->]].
  - rewrite Hroute. eexists _, _. split_and!; [reflexivity | done | done].
  - eexists _, _. split_and!; [reflexivity | discriminate | done].
Qed.

(** Extra X19.  The routes that read [current_user['user_id']] cannot be
    used: behind the dependency, [get_my_profile], [update_room] and
    [add_member] answer every request with an error, 401 when the header is
    refused and 500 ([NoneType] is not subscriptable) when the token is good,
    and they send no request to the durable store and change nothing. *)
Theorem current_user_routes_always_fail (jwt_decode : string → result claims)
    (authorization : option string) (room_id request_user_id : string)
    (request : UpdateRoomRequest) (route : option user_data → io (response row))
    (w : world) :
  route ∈ [get_my_profile; update_room room_id request;
           add_member room_id request_user_id] →
  ∃ status_code detail,
    depends jwt_decode authorization route w = (Ok (HTTPException status_code detail), w)
    ∧ (get_current_user jwt_decode authorization = Returned None
       → status_code = 500 ∧ detail = "'NoneType' object is not subscriptable")
    ∧ (get_current_user jwt_decode authorization ≠ Returned None → status_code = 401).
Proof.
  intros Hroute. apply depends_no_user.
  repeat (apply elem_of_cons in Hroute as [-> | Hroute]; [reflexivity|]).
  by apply elem_of_nil in Hroute.
Qed.

Lemma current_user_routes_always_fail_witness :
  depends scenario.jwt_decode (Some "Bearer good")
    (add_member "R" "frank") scenario.eve_and_frank
  = (Ok (HTTPException 500 "'NoneType' object is not subscriptable"), scenario.eve_and_frank).
Proof.
  destruct (current_user_routes_always_fail scenario.jwt_decode (Some "Bearer good")
              "R" "frank" (Build_UpdateRoomRequest None None) (add_member "R" "frank")
              scenario.eve_and_frank) as (c & d & H & H1 & _).
  - apply list_elem_of_further, list_elem_of_further, list_elem_of_here.
  - destruct (H1 eq_refl) as [-> ->]. exact H.
Defined.

(** * The managing routes, called with a user *)

Lemma filter_existsb_false {A : Type} (p : A → bool) (l : list A) :
  existsb p l = false → List.filter p l = [].
Proof.
  induction l as [|x l IH]; [done|]. cbn [existsb List.filter].
  intros [Hx Hl]%orb_false_iff. rewrite Hx. by apply IH.
Qed.

Lemma filter_existsb_true {A : Type} (p : A → bool) (l : list A) :
  existsb p l = true → ∃ x xs, List.filter p l = x :: xs.
Proof.
  induction l as [|x l IH]; [done|]. cbn [existsb List.filter].
  destruct (p x); [by eauto | exact IH].
Qed.

(** The permission check shared by [update_room] and [add_member]: the role
    of the first membership row of the caller decides. *)
Lemma role_of_first_membership (room_id user_id : string) (rows : list row) (m : row)
    (ms : list row) (role : pyval) :
  List.filter (pg.selected [Feq "room_id" (VStr room_id); Feq "user_id" (VStr user_id)]) rows
  = m :: ms →
  m !! "role" = Some role →
  ∃ m' ms', pg.project ["role"]
              <$> List.filter (pg.selected [Feq "room_id" (VStr room_id);
                                            Feq "user_id" (VStr user_id)]) rows = m' :: ms'
            ∧ getitem m' "role" = Ok role.
Proof.
  intros -> Hrole. eexists _, _. rewrite fmap_cons. split; [reflexivity|].
  unfold getitem.
  rewrite project_lookup; [| by intros ?%list_elem_of_singleton | by apply list_elem_of_singleton].
  by rewrite Hrole.
Qed.

(** Extra X20.  [add_member], called with a user: the role in the caller's
    first membership row of the room decides.  Without such a row, or with a
    role other than [owner] and [admin], the answer is 403 and no table
    changes; a target who already has a membership row gives 400 and no
    change; otherwise exactly one row [(room, target, member)] is appended
    to [room_members].  The membership cache of the room is not refreshed: as
    long as a non-empty cached member list without the target exists,
    [_check_room_membership] still turns the new member down. *)
Theorem add_member_permissions (room_id target : string) (ud : user_data) (rows : list row)
    (w : world) :
  tables (database w) !! "room_members" = Some rows →
  let mine := List.filter (pg.selected [Feq "room_id" (VStr room_id);
                                        Feq "user_id" (VStr (ud_user_id ud))]) rows in
  let resp := add_member room_id target (Some ud) w in
  (mine = [] →
   resp.1 = Ok (HTTPException 403 "Insufficient permissions")
   ∧ tables (database resp.2) = tables (database w))
  ∧ (∀ m ms role, mine = m :: ms → m !! "role" = Some role →
       (may_manage role = false →
        resp.1 = Ok (HTTPException 403 "Insufficient permissions")
        ∧ tables (database resp.2) = tables (database w))
       ∧ (may_manage role = true → repo_is_member rows room_id target = true →
          resp.1 = Ok (HTTPException 400 "User is already a member")
          ∧ tables (database resp.2) = tables (database w))
       ∧ (may_manage role = true → repo_is_member rows room_id target = false →
          ∃ r : row,
            resp.1 = Ok (Returned r)
            ∧ tables (database resp.2) = <["room_members" := rows ++ [r]]> (tables (database w))
            ∧ r !! "room_id" = Some (VStr room_id)
            ∧ r !! "user_id" = Some (VStr target)
            ∧ r !! "role" = Some (VStr "member")
            ∧ store resp.2 = store w
            ∧ ∀ c cs,
                RedisClient.get_cached_room_members room_id (store w) = Some (c :: cs) →
                target ∉ c :: cs →
                _check_room_membership target room_id resp.2 = (Ok false, resp.2))).
Proof.
  intros Hrows. cbv zeta. split.
  - intros Hmine. unfold add_member, route_try, try_except.
    erewrite bind_ok by reflexivity.
    erewrite bind_ok by (by eapply execute_select).
    cbn [b_filters pg.eq pg.select app]. rewrite Hmine. done.
  - intros m ms role Hmine Hrole.
    destruct (role_of_first_membership room_id (ud_user_id ud) rows m ms role Hmine Hrole)
      as (m' & ms' & Hsel & Hget).
    assert (Hprefix : ∀ k : io (response row),
      (membership ← execute (pg.table "room_members" .> pg.select ["role"]
                             .> pg.eq "room_id" (VStr room_id)
                             .> pg.eq "user_id" (VStr (ud_user_id ud)));
       match membership with
       | [] => mret (HTTPException 403 "Insufficient permissions")
       | m :: _ =>
           role ← lift_result (getitem m "role");
           if negb (may_manage role) then mret (HTTPException 403 "Insufficient permissions")
           else k
       end) w
      = (if negb (may_manage role) then mret (HTTPException 403 "Insufficient permissions")
         else k)
          (requesting (Builder "room_members" (Select ["role"])
                         [Feq "room_id" (VStr room_id);
                          Feq "user_id" (VStr (ud_user_id ud))]) w)).
    { intros k. erewrite bind_ok by (by eapply execute_select).
      cbn [b_filters pg.eq pg.select app]. rewrite Hsel.
      erewrite bind_ok by (unfold lift_result; rewrite Hget; reflexivity). reflexivity. }
    unfold add_member, route_try, try_except.
    erewrite bind_ok by reflexivity. rewrite Hprefix. clear Hprefix.
    split_and!.
    + intros ->. done.
    + intros -> Hmem. cbn [negb].
      destruct (filter_existsb_true _ _ Hmem) as (x & xs & Hx).
      erewrite bind_ok by (by eapply execute_select).
      cbn [b_filters pg.eq pg.select app].
      change (List.filter (pg.selected [Feq "room_id" (VStr room_id);
                                        Feq "user_id" (VStr target)]) rows = x :: xs) in Hx.
      rewrite Hx. done.
    + intros -> Hmem. cbn [negb].
      apply filter_existsb_false in Hmem.
      erewrite bind_ok by (by eapply execute_select).
      cbn [b_filters pg.eq pg.select app].
      change (List.filter (pg.selected [Feq "room_id" (VStr room_id);
                                        Feq "user_id" (VStr target)]) rows = []) in Hmem.
      rewrite Hmem. rewrite fmap_nil.
      erewrite bind_ok by (by eapply execute_insert).
      cbn [b_table pg.insert pg.table fst snd mret io_ret].
      eexists. split_and!.
      * reflexivity.
      * reflexivity.
      * apply lookup_union_Some_l. by simplify_map_eq.
      * apply lookup_union_Some_l. by simplify_map_eq.
      * apply lookup_union_Some_l. by simplify_map_eq.
      * reflexivity.
      * intros c cs Hc Hnot.
        rewrite (check_room_membership_hit target room_id c cs) by exact Hc.
        by rewrite bool_decide_eq_false_2.
Qed.

Lemma add_member_permissions_witness :
  let owner := ({[ "room_id" := VStr "R"; "user_id" := VStr "eve"; "role" := VStr "owner" ]}
                  : row) in
  let guest := ({[ "room_id" := VStr "R"; "user_id" := VStr "frank"; "role" := VStr "member" ]}
                  : row) in
  let w := put_store (RedisClient.cache_room_members "R" ["eve"; "frank"] 300 redis_empty)
             (put_database (scenario.db [owner; guest] []) scenario.eve_and_frank) in
  (add_member "R" "gina" (Some (UserData "frank" None None ∅)) w).1
  = Ok (HTTPException 403 "Insufficient permissions")
  ∧ (add_member "R" "frank" (Some (UserData "eve" None None ∅)) w).1
    = Ok (HTTPException 400 "User is already a member")
  ∧ ∃ r, (add_member "R" "gina" (Some (UserData "eve" None None ∅)) w).1 = Ok (Returned r)
         ∧ r !! "role" = Some (VStr "member")
         ∧ _check_room_membership "gina" "R"
             (add_member "R" "gina" (Some (UserData "eve" None None ∅)) w).2
           = (Ok false, (add_member "R" "gina" (Some (UserData "eve" None None ∅)) w).2).
Proof.
  cbv zeta.
  set (owner := ({[ "room_id" := VStr "R"; "user_id" := VStr "eve"; "role" := VStr "owner" ]}
                   : row)).
  set (guest := ({[ "room_id" := VStr "R"; "user_id" := VStr "frank";
                    "role" := VStr "member" ]} : row)).
  set (w := put_store (RedisClient.cache_room_members "R" ["eve"; "frank"] 300 redis_empty)
              (put_database (scenario.db [owner; guest] []) scenario.eve_and_frank)).
  split_and!.
  - destruct (add_member_permissions "R" "gina" (UserData "frank" None None ∅)
                [owner; guest] w eq_refl) as [_ H].
    destruct (H guest [] (VStr "member") eq_refl eq_refl) as ([H1 _] & _); [reflexivity|].
    exact H1.
  - destruct (add_member_permissions "R" "frank" (UserData "eve" None None ∅)
                [owner; guest] w eq_refl) as [_ H].
    destruct (H owner [] (VStr "owner") eq_refl eq_refl) as (_ & [H1 _] & _);
      [reflexivity | reflexivity |].
    exact H1.
  - destruct (add_member_permissions "R" "gina" (UserData "eve" None None ∅)
                [owner; guest] w eq_refl) as [_ H].
    destruct (H owner [] (VStr "owner") eq_refl eq_refl) as (_ & _ & H3).
    destruct H3 as (r & H1 & _ & _ & _ & H2 & _ & Hstale); [reflexivity | reflexivity |].
    exists r. split_and!; [exact H1 | exact H2 |].
    apply (Hstale "eve" ["frank"]); [reflexivity|].
    intros Hin. repeat (apply elem_of_cons in Hin as [Hin | Hin]; [discriminate|]).
    by apply elem_of_nil in Hin.
Defined.

(** * Renaming a room, and the profile route *)

Lemma room_updates_lookup (name description : option string) (x : row) :
  let updates : row :=
    let updates : row := ∅ in
    let updates := match name with
                   | Some name => <[ "name" := VStr name ]> updates
                   | None => updates
                   end in
    match description with
    | Some description => <[ "description" := VStr description ]> updates
    | None => updates
    end in
  (updates = ∅ ↔ name = None ∧ description = None)
  ∧ (updates ∪ x) !! "name" = match name with Some n => Some (VStr n) | None => x !! "name" end
  ∧ (updates ∪ x) !! "description"
    = match description with Some d => Some (VStr d) | None => x !! "description" end
  ∧ ∀ k, k ≠ "name" → k ≠ "description" → (updates ∪ x) !! k = x !! k.
Proof.
  cbv zeta. destruct name as [n|], description as [d|]; split_and!.
  all: try (split; [intros H; by apply insert_non_empty in H | by intros [? ?]]).
  all: try (split; [done | by intros _]).
  all: try (intros k H1 H2; apply lookup_union_r;
            by rewrite ?lookup_insert_ne, ?lookup_empty by done).
  all: try (apply lookup_union_Some_l; by simplify_map_eq).
  all: try (apply lookup_union_r; by simplify_map_eq).
Qed.

(** Extra X21.  [update_room], called with a user: as for [add_member] the
    role in the caller's first membership row decides, 403 otherwise; a
    request with neither field gives 400.  An accepted request keeps every
    row of [rooms] in place, leaves rows with another id untouched, and on
    the rows with this id sets exactly the fields the request carries: a
    field left out keeps its value, every other column is as before. *)
Theorem update_room_permissions (room_id : string) (request : UpdateRoomRequest)
    (ud : user_data) (members rooms : list row) (w : world) :
  tables (database w) !! "room_members" = Some members →
  tables (database w) !! "rooms" = Some rooms →
  let mine := List.filter (pg.selected [Feq "room_id" (VStr room_id);
                                        Feq "user_id" (VStr (ud_user_id ud))]) members in
  let resp := update_room room_id request (Some ud) w in
  (mine = [] →
   resp.1 = Ok (HTTPException 403 "Insufficient permissions")
   ∧ tables (database resp.2) = tables (database w))
  ∧ (∀ m ms role, mine = m :: ms → m !! "role" = Some role →
       (may_manage role = false →
        resp.1 = Ok (HTTPException 403 "Insufficient permissions")
        ∧ tables (database resp.2) = tables (database w))
       ∧ (may_manage role = true →
          req_name request = None → req_description request = None →
          resp.1 = Ok (HTTPException 400 "No fields to update")
          ∧ tables (database resp.2) = tables (database w))
       ∧ (may_manage role = true →
          is_Some (req_name request) ∨ is_Some (req_description request) →
          ∃ rooms' : list row,
            tables (database resp.2) = <["rooms" := rooms']> (tables (database w))
            ∧ length rooms' = length rooms
            ∧ (∀ i x, rooms !! i = Some x → x !! "id" ≠ Some (VStr room_id) →
                      rooms' !! i = Some x)
            ∧ (∀ i x, rooms !! i = Some x → x !! "id" = Some (VStr room_id) →
               ∃ x', rooms' !! i = Some x'
                     ∧ x' !! "name" = match req_name request with
                                      | Some n => Some (VStr n)
                                      | None => x !! "name"
                                      end
                     ∧ x' !! "description" = match req_description request with
                                             | Some d => Some (VStr d)
                                             | None => x !! "description"
                                             end
                     ∧ ∀ k, k ≠ "name" → k ≠ "description" → x' !! k = x !! k))).
Proof.
  intros Hmembers Hrooms. cbv zeta. split.
  - intros Hmine. unfold update_room, route_try, try_except.
    erewrite bind_ok by reflexivity.
    erewrite bind_ok by (by eapply execute_select).
    cbn [b_filters pg.eq pg.select app]. rewrite Hmine. done.
  - intros m ms role Hmine Hrole.
    destruct (role_of_first_membership room_id (ud_user_id ud) members m ms role Hmine Hrole)
      as (m' & ms' & Hsel & Hget).
    assert (Hprefix : ∀ k : io (response row),
      (membership ← execute (pg.table "room_members" .> pg.select ["role"]
                             .> pg.eq "room_id" (VStr room_id)
                             .> pg.eq "user_id" (VStr (ud_user_id ud)));
       match membership with
       | [] => mret (HTTPException 403 "Insufficient permissions")
       | m :: _ =>
           role ← lift_result (getitem m "role");
           if negb (may_manage role) then mret (HTTPException 403 "Insufficient permissions")
           else k
       end) w
      = (if negb (may_manage role) then mret (HTTPException 403 "Insufficient permissions")
         else k)
          (requesting (Builder "room_members" (Select ["role"])
                         [Feq "room_id" (VStr room_id);
                          Feq "user_id" (VStr (ud_user_id ud))]) w)).
    { intros k. erewrite bind_ok by (by eapply execute_select).
      cbn [b_filters pg.eq pg.select app]. rewrite Hsel.
      erewrite bind_ok by (unfold lift_result; rewrite Hget; reflexivity). reflexivity. }
    unfold update_room, route_try, try_except.
    erewrite bind_ok by reflexivity. rewrite Hprefix. clear Hprefix.
    split_and!.
    + intros ->. done.
    + intros -> -> ->. done.
    + intros -> Hsome. cbn [negb].
      pose proof (room_updates_lookup (req_name request) (req_description request)) as Hupd.
      cbv zeta in Hupd.
      set (updates := match req_description request with
                      | Some description =>
                          <[ "description" := VStr description ]>
                            match req_name request with
                            | Some name => <[ "name" := VStr name ]> (∅ : row)
                            | None => ∅
                            end
                      | None => match req_name request with
                                | Some name => <[ "name" := VStr name ]> (∅ : row)
                                | None => ∅
                                end
                      end) in *.
      destruct (decide (updates = ∅)) as [He | _].
      { apply (Hupd ∅) in He as [H1 H2]. rewrite H1, H2 in Hsome.
        destruct Hsome as [[? [=]] | [? [=]]]. }
      erewrite bind_ok by (by eapply execute_update).
      cbn [b_filters b_table pg.eq pg.update pg.table app].
      eexists. split_and!.
      * destruct (_ <$> List.filter _ rooms); reflexivity.
      * by rewrite length_fmap.
      * intros i x Hi Hx. rewrite list_lookup_fmap, Hi. cbn [fmap option_fmap option_map].
        destruct (pg.selected [Feq "id" (VStr room_id)] x) eqn:Hs; [|done].
        by apply selected_id in Hs.
      * intros i x Hi Hx. exists (updates ∪ x).
        destruct (Hupd x) as (_ & H1 & H2 & H3). split_and!; try done.
        rewrite list_lookup_fmap, Hi. cbn [fmap option_fmap option_map].
        by rewrite (proj2 (selected_id x room_id) Hx).
Qed.

Lemma update_room_permissions_witness :
  let owner := ({[ "room_id" := VStr "R"; "user_id" := VStr "eve"; "role" := VStr "owner" ]}
                  : row) in
  let room := ({[ "id" := VStr "R"; "name" := VStr "old"; "description" := VStr "about" ]}
                 : row) in
  let w := put_database
             (Database {[ "room_members" := [owner]; "rooms" := [room] ]} scenario.defaults [] (λ _, []))
             scenario.eve_and_frank in
  let resp := update_room "R" (Build_UpdateRoomRequest (Some "new") None)
                (Some (UserData "eve" None None ∅)) w in
  ∃ room', tables (database resp.2) !! "rooms" = Some [room']
           ∧ room' !! "name" = Some (VStr "new")
           ∧ room' !! "description" = Some (VStr "about").
Proof.
  cbv zeta.
  set (owner := ({[ "room_id" := VStr "R"; "user_id" := VStr "eve"; "role" := VStr "owner" ]}
                   : row)).
  set (room := ({[ "id" := VStr "R"; "name" := VStr "old"; "description" := VStr "about" ]}
                  : row)).
  set (w := put_database
              (Database {[ "room_members" := [owner]; "rooms" := [room] ]} scenario.defaults [] (λ _, []))
              scenario.eve_and_frank).
  destruct (update_room_permissions "R" (Build_UpdateRoomRequest (Some "new") None)
              (UserData "eve" None None ∅) [owner] [room] w eq_refl eq_refl) as [_ H].
  destruct (H owner [] (VStr "owner") eq_refl eq_refl) as (_ & _ & H3).
  destruct H3 as (rooms' & Ht & Hlen & _ & Hmarked); [reflexivity | left; by eexists |].
  destruct (Hmarked 0 room eq_refl eq_refl) as (x' & Hx' & Hn & Hd & _).
  exists x'. split_and!; [| exact Hn | exact Hd].
  rewrite Ht, lookup_insert_eq. f_equal.
  destruct rooms' as [|y [|z l]]; try discriminate Hlen.
  cbn in Hx'. by injection Hx' as ->.
Defined.

(** Extra X22.  What [update_status] writes, [get_user_profile] reads: after
    a connected user with a profile row has set one of the four statuses,
    the profile route answers for this user with a row whose [status] is
    that status and whose [is_online] is false for [offline] and true
    otherwise. *)
Theorem profile_reflects_status (sid u s : string) (data : event_data)
    (current_user : option user_data) (rows : list row) (r : row) (w : world) :
  user_of sid w = Some u →
  u ≠ "" →
  default "online" (data !! "status") = s →
  PresenceService.valid_status s = true →
  tables (database w) !! "profiles" = Some rows →
  r ∈ rows → r !! "id" = Some (VStr u) →
  ∃ profile : row,
    (get_user_profile u current_user (update_status sid data w).2).1 = Ok (Returned profile)
    ∧ profile !! "id" = Some (VStr u)
    ∧ profile !! "status" = Some (VStr s)
    ∧ profile !! "is_online" = Some (VBool (negb (bool_decide (s = "offline")))).
Proof.
  intros Hu Hne Hs Hv Hrows Hr Hid.
  destruct (presence_update_status_run u s w Hv) as (b & d & Hrun & Hhave & _).
  destruct (Hhave rows Hrows) as [_ Hd]. clear Hhave.
  assert (Hhandler : update_status sid data w
            = (Ok tt, emitting (Emit "user_status_changed"
                                  {[ "user_id" := VStr u; "status" := VStr s ]} None (Some sid))
                        (put_database d
                           (put_store (if bool_decide (s = "offline")
                                       then RedisClient.set_user_offline u (store w)
                                       else RedisClient.set_user_online u s (store w)) w)))).
  { unfold update_status, try_except. rewrite Hs, Hv. cbn [negb].
    erewrite bind_ok by apply user_of_spec. rewrite Hu, (required_nonempty _ Hne).
    erewrite bind_ok by exact Hrun. reflexivity. }
  rewrite Hhandler. cbn [snd].
  set (mark := λ r : row, if pg.selected [Feq "id" (VStr u)] r
                          then ({[ "status" := VStr s; "last_seen" := VStr (now w) ]} : row) ∪ r
                          else r) in Hd.
  assert (Hin : mark r ∈ List.filter (pg.selected [Feq "id" (VStr u)]) (mark <$> rows)).
  { apply list_elem_of_In, filter_In. split.
    - apply list_elem_of_In, list_elem_of_fmap. eauto.
    - apply selected_id. unfold mark. rewrite (proj2 (selected_id r u) Hid).
      rewrite lookup_union_r by (by simplify_map_eq). exact Hid. }
  destruct (List.filter (pg.selected [Feq "id" (VStr u)]) (mark <$> rows)) as [|x xs] eqn:Hf.
  { by apply elem_of_nil in Hin. }
  assert (Hx : x ∈ List.filter (pg.selected [Feq "id" (VStr u)]) (mark <$> rows)).
  { rewrite Hf. apply list_elem_of_here. }
  apply list_elem_of_In, filter_In in Hx as [Hx%list_elem_of_In Hxid%selected_id].
  apply list_elem_of_fmap in Hx as (x0 & Hx0 & _).
  assert (Hstatus : x !! "status" = Some (VStr s)).
  { rewrite Hx0 in Hxid |- *. exact (marked_status u s (VStr (now w)) x0 Hxid). }
  eexists. split_and!.
  - unfold get_user_profile, route_try, try_except.
    erewrite bind_ok by (by eapply execute_select).
    cbn [b_filters pg.eq pg.select app]. rewrite Hf, fmap_cons.
    erewrite bind_ok by reflexivity. reflexivity.
  - rewrite lookup_insert_ne by done.
    rewrite project_lookup; [exact Hxid | |].
    + intros Hstar. repeat (apply elem_of_cons in Hstar as [Hstar | Hstar]; [discriminate|]).
      by apply elem_of_nil in Hstar.
    + apply list_elem_of_here.
  - rewrite lookup_insert_ne by done.
    rewrite project_lookup; [exact Hstatus | |].
    + intros Hstar. repeat (apply elem_of_cons in Hstar as [Hstar | Hstar]; [discriminate|]).
      by apply elem_of_nil in Hstar.
    + do 5 apply list_elem_of_further. apply list_elem_of_here.
  - rewrite lookup_insert_eq. do 2 f_equal. cbn.
    destruct (bool_decide (s = "offline")); cbn [negb].
    + apply exists_delete.
    + apply exists_setex.
Qed.

Lemma profile_reflects_status_witness :
  let profile := ({[ "id" := VStr "eve"; "username" := VStr "eve"; "status" := VStr "online" ]}
                    : row) in
  let w := put_database
             (Database {[ "profiles" := [profile] ]} scenario.defaults [] (λ _, []))
             scenario.eve_and_frank in
  ∃ p : row,
    (get_user_profile "eve" None (update_status "s1" {[ "status" := "away" ]} w).2).1
    = Ok (Returned p)
    ∧ p !! "status" = Some (VStr "away")
    ∧ p !! "is_online" = Some (VBool true).
Proof.
  cbv zeta.
  set (profile := ({[ "id" := VStr "eve"; "username" := VStr "eve";
                      "status" := VStr "online" ]} : row)).
  set (w := put_database (Database {[ "profiles" := [profile] ]} scenario.defaults [] (λ _, []))
              scenario.eve_and_frank).
  destruct (profile_reflects_status "s1" "eve" "away" {[ "status" := "away" ]} None
              [profile] profile w) as (p & H1 & _ & H2 & H3).
  - reflexivity.
  - discriminate.
  - reflexivity.
  - reflexivity.
  - reflexivity.
  - apply list_elem_of_here.
  - reflexivity.
  - exists p. split_and!; [exact H1 | exact H2 | exact H3].
Defined.

(** * The offline path *)

Lemma replicate_middle {A : Type} (n : nat) (x : A) (l : list A) :
  replicate n x ++ x :: l = x :: replicate n x ++ l.
Proof. induction n as [|n IH]; cbn; [done | by rewrite IH]. Qed.

Lemma put_store_same (w : world) : put_store (store w) w = w.
Proof. by destruct w. Qed.

Lemma queue_message_frame (retention : Z) (user_id key : string) (m : pydict)
    (r : redis_store) :
  key ≠ "queue:" +:+ user_id → same_at key r (RedisClient.queue_message retention user_id m r).
Proof.
  intros Hne. unfold RedisClient.queue_message.
  eapply same_at_trans; [apply lpush_frame | apply expire_frame]; done.
Qed.

Lemma lrange_all_frame (key : string) (r r' : redis_store) :
  same_at key r r' → redis.lrange_all key r' = redis.lrange_all key r.
Proof. intros (_ & _ & H & _). unfold redis.lrange_all. by rewrite H. Qed.

Lemma member_ids_of_rows (room_id sender_id : string) (rows : list row) :
  user_ids_are_strings rows →
  Forall2 (λ (member : row) (id : string), getitem_str member "user_id" = Ok id)
    (pg.project ["user_id"]
       <$> List.filter (pg.selected [Feq "room_id" (VStr room_id);
                                     Fneq "user_id" (VStr sender_id)]) rows)
    (recipients rows room_id sender_id).
Proof.
  unfold user_ids_are_strings, recipients. induction 1 as [|r rows [s Hs] _ IH]; [constructor|].
  cbn [List.filter omap list_omap].
  destruct (pg.selected [Feq "room_id" (VStr room_id); Fneq "user_id" (VStr sender_id)] r);
    [|exact IH].
  rewrite Hs, fmap_cons. constructor; [|exact IH].
  unfold getitem_str.
  rewrite project_lookup; [| by intros ?%list_elem_of_singleton | by apply list_elem_of_singleton].
  by rewrite Hs.
Qed.

Lemma sender_is_no_recipient (rows : list row) (room_id sender_id : string) :
  sender_id ∉ recipients rows room_id sender_id.
Proof.
  unfold recipients. intros (r & _ & Hr)%list_elem_of_omap.
  destruct (pg.selected [Feq "room_id" (VStr room_id); Fneq "user_id" (VStr sender_id)] r)
    eqn:Hsel; [|done].
  unfold pg.selected in Hsel. cbn [forallb] in Hsel.
  apply andb_true_iff in Hsel as [_ [Hneq _]%andb_true_iff].
  unfold pg.matches in Hneq.
  destruct (r !! "user_id") as [[| | |s]|]; try done.
  injection Hr as ->. by rewrite bool_decide_eq_true_2 in Hneq.
Qed.

Lemma copies_cons (v id : string) (ids : list string) :
  copies v (id :: ids) = (if bool_decide (id = v) then 1 else 0) + copies v ids.
Proof. unfold copies. cbn [List.filter]. by destruct (bool_decide (id = v)). Qed.

Lemma copies_not_in (v : string) (ids : list string) : v ∉ ids → copies v ids = 0.
Proof.
  induction ids as [|i ids IH]; [done|]. intros [Hi Hids]%not_elem_of_cons.
  rewrite copies_cons, (IH Hids). by rewrite bool_decide_eq_false_2.
Qed.

(** The loop over the members: one envelope per membership row of an offline
    member, at the head of that member's queue; presence is only read. *)
Lemma notify_loop (settings : Settings) (message : row) (idv : pyval) :
  (0 < MESSAGE_QUEUE_RETENTION settings)%Z →
  message !! "id" = Some idv →
  ∀ (members : list row) (ids : list string),
  Forall2 (λ (member : row) (id : string), getitem_str member "user_id" = Ok id) members ids →
  ∀ w : world,
  ∃ r' : redis_store,
    for_each members (λ member,
      member_id ← lift_result (getitem_str member "user_id");
      is_online ← read_store (RedisClient.is_user_online member_id);
      if negb is_online then
        update_store (RedisClient.queue_message (MESSAGE_QUEUE_RETENTION settings)
                        member_id message);;
        reference_id ← lift_result (getitem message "id");
        NotificaitonService.create_notification member_id "Nova mensagem"
          (dict_get_default message "content" (VStr "Arquivo")) "new_message" reference_id;;
        mret tt
      else mret tt) w
    = (Ok tt, put_store r' w)
    ∧ (∀ v, RedisClient.is_user_online v r' = RedisClient.is_user_online v (store w))
    ∧ (∀ v, redis.lrange_all ("queue:" +:+ v) r'
            = (if RedisClient.is_user_online v (store w) then []
               else replicate (copies v ids) message)
              ++ redis.lrange_all ("queue:" +:+ v) (store w)).
Proof.
  intros Hpos Hid members ids Hall. induction Hall as [|member id members ids Hm _ IH]; intros w.
  - exists (store w). split_and!.
    + cbn [for_each]. by rewrite put_store_same.
    + done.
    + intros v. unfold copies. cbn. by destruct (RedisClient.is_user_online v (store w)).
  - cbn [for_each].
    destruct (RedisClient.is_user_online id (store w)) eqn:Hon.
    + destruct (IH w) as (r' & Hrun & Hpres & Hqueue). exists r'. split_and!.
      * erewrite bind_ok; [exact Hrun|].
        erewrite bind_ok by (unfold lift_result; rewrite Hm; reflexivity).
        erewrite bind_ok by (unfold read_store, with_store; cbn; by rewrite world_eta).
        by rewrite Hon.
      * exact Hpres.
      * intros v. rewrite Hqueue, copies_cons.
        destruct (RedisClient.is_user_online v (store w)) eqn:Hv; [done|].
        rewrite bool_decide_eq_false_2; [done|]. intros ->. congruence.
    + set (r1 := RedisClient.queue_message (MESSAGE_QUEUE_RETENTION settings) id message
                   (store w)).
      destruct (IH (put_store r1 w)) as (r' & Hrun & Hpres & Hqueue).
      assert (Hframe : ∀ v, RedisClient.is_user_online v r1
                            = RedisClient.is_user_online v (store w)).
      { intros v. unfold RedisClient.is_user_online. apply exists_frame.
        apply queue_message_frame. intros [=]. }
      exists r'. split_and!.
      * erewrite bind_ok; [exact Hrun|].
        erewrite bind_ok by (unfold lift_result; rewrite Hm; reflexivity).
        erewrite bind_ok by (unfold read_store, with_store; cbn; by rewrite world_eta).
        rewrite Hon. cbn [negb].
        erewrite bind_ok by reflexivity.
        erewrite bind_ok by (unfold lift_result, getitem; rewrite Hid; reflexivity).
        erewrite bind_ok by apply create_notification_inert.
        reflexivity.
      * intros v. rewrite Hpres. apply Hframe.
      * intros v. rewrite Hqueue. cbn [store put_store]. rewrite Hframe, copies_cons.
        destruct (decide (id = v)) as [-> | Hne].
        -- rewrite Hon, bool_decide_eq_true_2 by done. unfold r1.
           rewrite lrange_all_queue_message by done. cbn [Nat.add replicate app].
           by rewrite replicate_middle.
        -- rewrite (bool_decide_eq_false_2 (id = v)) by done. cbn [Nat.add].
           f_equal. apply lrange_all_frame, queue_message_frame.
           intros Heq%key_inj. congruence.
Qed.

Lemma notify_offline_members_run (settings : Settings) (room_id sender_id : string)
    (message : row) (rows : list row) (w : world) :
  (0 < MESSAGE_QUEUE_RETENTION settings)%Z →
  tables (database w) !! "room_members" = Some rows →
  user_ids_are_strings rows →
  is_Some (message !! "id") →
  ∃ r' : redis_store,
    _notify_offline_members settings room_id sender_id message w
    = (Ok tt,
       put_store r'
         (requesting (Builder "room_members" (Select ["user_id"])
                        [Feq "room_id" (VStr room_id); Fneq "user_id" (VStr sender_id)]) w))
    ∧ (∀ v, RedisClient.is_user_online v r' = RedisClient.is_user_online v (store w))
    ∧ (∀ v, redis.lrange_all ("queue:" +:+ v) r'
            = (if RedisClient.is_user_online v (store w) then []
               else replicate (copies v (recipients rows room_id sender_id)) message)
              ++ redis.lrange_all ("queue:" +:+ v) (store w)).
Proof.
  intros Hpos Hrows Hstr [idv Hid].
  set (w1 := requesting (Builder "room_members" (Select ["user_id"])
                           [Feq "room_id" (VStr room_id); Fneq "user_id" (VStr sender_id)]) w).
  destruct (notify_loop settings message idv Hpos Hid _ _
              (member_ids_of_rows room_id sender_id rows Hstr) w1)
    as (r' & Hrun & Hpres & Hqueue).
  exists r'. split_and!; [| exact Hpres | exact Hqueue].
  unfold _notify_offline_members, try_except.
  erewrite bind_ok by (by eapply execute_select).
  match goal with |- context [for_each ?l ?b ?w0] =>
    let H := fresh in
    assert (H : for_each l b w0 = (Ok tt, put_store r' w1)) by exact Hrun; rewrite H
  end.
  reflexivity.
Qed.

(** Extra X23.  The offline path of a message, with a positive retention:
    every member of the room other than the sender who has no presence key
    gets the envelope at the head of their queue, once per membership row;
    members who are online, the sender and everybody else keep their queue;
    presence, the emitted events and the tables are as before.
    [get_queued_messages] then hands such a member the envelope ahead of what
    was queued earlier. *)
Theorem offline_members_are_queued (settings : Settings) (room_id sender_id : string)
    (message : row) (rows : list row) (w : world) :
  (0 < MESSAGE_QUEUE_RETENTION settings)%Z →
  tables (database w) !! "room_members" = Some rows →
  user_ids_are_strings rows →
  is_Some (message !! "id") →
  let ids := recipients rows room_id sender_id in
  let w' := (_notify_offline_members settings room_id sender_id message w).2 in
  let queued := λ v, (if RedisClient.is_user_online v (store w) then []
                      else replicate (copies v ids) message)
                     ++ redis.lrange_all ("queue:" +:+ v) (store w) in
  (_notify_offline_members settings room_id sender_id message w).1 = Ok tt
  ∧ (sender_id ∉ ids)
  ∧ (∀ v, redis.lrange_all ("queue:" +:+ v) (store w') = queued v)
  ∧ (∀ v, v ∉ ids →
          redis.lrange_all ("queue:" +:+ v) (store w')
          = redis.lrange_all ("queue:" +:+ v) (store w))
  ∧ (∀ v, RedisClient.is_user_online v (store w') = RedisClient.is_user_online v (store w))
  ∧ emitted w' = emitted w
  ∧ tables (database w') = tables (database w)
  ∧ (∀ v, (RedisClient.get_queued_messages v (store w')).1 = queued v).
Proof.
  intros Hpos Hrows Hstr Hid. cbv zeta.
  destruct (notify_offline_members_run settings room_id sender_id message rows w
              Hpos Hrows Hstr Hid) as (r' & Hrun & Hpres & Hqueue).
  rewrite Hrun. cbn [fst snd]. split_and!; try done.
  - apply sender_is_no_recipient.
  - intros v Hv. cbn [store put_store]. rewrite Hqueue, (copies_not_in _ _ Hv).
    by destruct (RedisClient.is_user_online v (store w)).
Qed.

Lemma offline_members_are_queued_witness :
  let m := scenario.message "m7" "R" "eve" "hello" in
  let w0 := put_store (RedisClient.queue_message 86400 "frank" scenario.E1
                         (store scenario.eve_and_frank)) scenario.eve_and_frank in
  let w' := (_notify_offline_members default_settings "R" "eve" m w0).2 in
  redis.lrange_all "queue:frank" (store w') = [m; scenario.E1]
  ∧ redis.lrange_all "queue:eve" (store w') = []
  ∧ (RedisClient.get_queued_messages "frank" (store w')).1 = [m; scenario.E1].
Proof.
  cbv zeta.
  destruct (offline_members_are_queued default_settings "R" "eve"
              (scenario.message "m7" "R" "eve" "hello")
              [scenario.member "R" "eve"; scenario.member "R" "frank"]
              (put_store (RedisClient.queue_message 86400 "frank" scenario.E1
                            (store scenario.eve_and_frank)) scenario.eve_and_frank))
    as (_ & _ & Hq & _ & _ & _ & _ & Hget).
  - reflexivity.
  - reflexivity.
  - repeat constructor; by eexists.
  - by eexists.
  - split_and!.
    + refine (eq_trans (Hq "frank") _). reflexivity.
    + refine (eq_trans (Hq "eve") _). reflexivity.
    + refine (eq_trans (Hget "frank") _). reflexivity.
Defined.

(** * Sending: the path that delivers *)




